(** * tripy: report upload, join against reference mappings, group-by-sum

    A shallow embedding of [tripy.py].  The script reads uploaded report
    files with pandas, renames the attribution-window columns of the
    ASIN-keyed reports, concatenates the files of one report type, stamps
    the selected date, left-joins the reference mappings and sums a fixed
    metric set per (date, sub-category).

    Layout of the development:
    - [Frames]: the tabular values pandas works on and the pure meaning of
      the pandas calls the script makes;
    - [Runtime]: the interpreter state the script runs in (the objects it
      allocates and mutates in place, the Streamlit messages it emits) and
      the monad of computations that may raise;
    - [Tripy]: the functions of [tripy.py], one definition per function;
    - [Views]: what the lemmas are stated with;
    - [Samples]: small inputs;
    - [Measures]: counts, totals and message kinds for the later lemmas;
    - the lemmas, the properties of the loaders, of the concatenation,
      join and aggregation, and of the whole run.

    Numeric cells are exact integers; float rounding and the int64 range
    of numpy are outside the model, and so are the dtypes of columns.
    The lemmas on sums are therefore stated for whole-number columns in
    the range where int64 and float64 are exact ([whole_numbers]), and
    the lemmas on joins for joins that return.  The parsers behind
    [pd.read_csv] and [pd.read_excel] and the CSV writer are taken as
    given: an uploaded file carries the table its parser yields. *)

From Stdlib Require Import ZArith String Ascii List Sorting.Sorted
  Structures.OrderedTypeEx.
From stdpp Require Import base tactics option list.
Import ListNotations.
Local Open Scope string_scope.
Local Open Scope list_scope.

(* ================================================================== *)
(** ** Frames *)
(* ================================================================== *)

Module Frames.

(** A cell is missing (NaN / None), a number or a text. *)
Inductive cell : Type :=
  | NA
  | Num (z : Z)
  | Str (s : string).

Definition cell_eqb (a b : cell) : bool :=
  match a, b with
  | NA, NA => true
  | Num x, Num y => Z.eqb x y
  | Str x, Str y => String.eqb x y
  | _, _ => false
  end.

Definition isna (c : cell) : bool :=
  match c with NA => true | _ => false end.

(** A DataFrame: ordered column labels and ordered rows, one cell per
    label in each row.  Labels may repeat, as pandas allows. *)
Record DataFrame : Type := mkDataFrame {
  columns : list string;
  rows : list (list cell)
}.

(** [pd.DataFrame()] *)
Definition empty_frame : DataFrame := mkDataFrame [] [].

Definition wf_frame (df : DataFrame) : Prop :=
  Forall (fun r => length r = length (columns df)) (rows df).

(** [c in df.columns] *)
Definition inb (c : string) (l : list string) : bool :=
  existsb (String.eqb c) l.

Fixpoint labels_eqb (a b : list string) : bool :=
  match a, b with
  | [], [] => true
  | x :: a', y :: b' => String.eqb x y && labels_eqb a' b'
  | _, _ => false
  end.

Fixpoint has_dup (l : list string) : bool :=
  match l with
  | [] => false
  | x :: l' => inb x l' || has_dup l'
  end.

Definition count_label (c : string) (l : list string) : nat :=
  length (List.filter (String.eqb c) l).

(** The cell of row [r] under the first column labelled [c]; missing when
    there is no such column. *)
Fixpoint row_get (cols : list string) (r : list cell) (c : string) : cell :=
  match cols, r with
  | k :: cols', v :: r' => if String.eqb k c then v else row_get cols' r' c
  | _, _ => NA
  end.

(** Exceptions the modelled calls raise. *)
Inductive exn : Type :=
  | ValueError (msg : string)
  | KeyError (key : string)
  | TypeError
  | InvalidIndexError
  | MergeError.

Inductive outcome (A : Type) : Type :=
  | Ok (a : A)
  | Raise (e : exn).
Arguments Ok {A} a.
Arguments Raise {A} e.

Definition obind {A B} (o : outcome A) (k : A -> outcome B) : outcome B :=
  match o with
  | Ok a => k a
  | Raise e => Raise e
  end.

Fixpoint omap {A B} (f : A -> outcome B) (l : list A) : outcome (list B) :=
  match l with
  | [] => Ok []
  | x :: l' =>
      obind (f x) (fun y => obind (omap f l') (fun ys => Ok (y :: ys)))
  end.

(** *** [df.rename(columns=d)] *)

Fixpoint dict_get {V} (d : list (string * V)) (k : string) : option V :=
  match d with
  | [] => None
  | (k', v) :: d' => if String.eqb k' k then Some v else dict_get d' k
  end.

Definition rename_label (d : list (string * string)) (c : string) : string :=
  match dict_get d c with
  | Some c' => c'
  | None => c
  end.

Definition rename_columns (d : list (string * string)) (df : DataFrame)
  : DataFrame :=
  mkDataFrame (map (rename_label d) (columns df)) (rows df).

(** *** [pd.concat(dfs, ignore_index=True)]

    The result's labels are the union of the frames' labels in order of
    first appearance; every row is re-indexed to them, a label a frame
    lacks giving a missing cell.  Frames that all carry the same labels
    are stacked as they are.  Re-indexing a frame with a repeated label
    raises; so does an empty list of frames.  pandas sets frames without
    labels and rows aside before it compares labels.  For frames with
    distinct labels that makes no difference; a frame with a repeated
    label whose only companions are such frames is returned by pandas
    and raises here. *)

Fixpoint uniq_from (seen l : list string) : list string :=
  match l with
  | [] => []
  | x :: l' =>
      if inb x seen then uniq_from seen l' else x :: uniq_from (x :: seen) l'
  end.

Definition union_labels (dfs : list DataFrame) : list string :=
  uniq_from [] (concat (map columns dfs)).

Definition reindex_row (cols : list string) (r : list cell)
    (new_cols : list string) : list cell :=
  map (row_get cols r) new_cols.

Definition reindex (new_cols : list string) (df : DataFrame)
  : list (list cell) :=
  map (fun r => reindex_row (columns df) r new_cols) (rows df).

Definition concat_frames (dfs : list DataFrame) : outcome DataFrame :=
  match dfs with
  | [] => Raise (ValueError "No objects to concatenate")
  | d0 :: _ =>
      if forallb (fun d => labels_eqb (columns d) (columns d0)) dfs
      then Ok (mkDataFrame (columns d0) (concat (map rows dfs)))
      else if existsb (fun d => has_dup (columns d)) dfs
      then Raise InvalidIndexError
      else
        let cols := union_labels dfs in
        Ok (mkDataFrame cols (concat (map (reindex cols) dfs)))
  end.

(** *** [df[c] = v] with a scalar [v] *)

Fixpoint row_set (cols : list string) (r : list cell) (c : string) (v : cell)
  : list cell :=
  match cols, r with
  | k :: cols', x :: r' =>
      (if String.eqb k c then v else x) :: row_set cols' r' c v
  | _, _ => r
  end.

Definition set_column (df : DataFrame) (c : string) (v : cell) : DataFrame :=
  if inb c (columns df)
  then mkDataFrame (columns df)
         (map (fun r => row_set (columns df) r c v) (rows df))
  else mkDataFrame (columns df ++ [c]) (map (fun r => r ++ [v]) (rows df)).

(** *** [pd.merge(left, right, left_on=lk, right_on=rk, how='left')]

    The key labels are looked up, the right one first; a missing label is
    a [KeyError], a repeated one a [ValueError].  Labels carried by both
    frames get the suffixes [_x] and [_y]; a repeated label created by a
    suffix is a [MergeError].  Every left row is kept, in order: once per
    right row with an equal key (missing keys are equal to each other),
    or once, padded with missing cells, when there is none.  The two key
    labels are taken to differ, as at the three calls of the script (for
    equal labels pandas keeps one key column).  The check pandas makes
    on the dtypes of the two key columns (a text column against a
    numeric one is a [ValueError]) is not modelled: the lemmas on the
    join are stated for joins that return. *)

Definition key_label (c : string) (cols : list string) : outcome unit :=
  match count_label c cols with
  | O => Raise (KeyError c)
  | S O => Ok tt
  | _ => Raise (ValueError "The column label is not unique")
  end.

Definition suffix_label (other : list string) (suffix c : string) : string :=
  if inb c other then String.append c suffix else c.

(** Labels that are repeated in [new] at a position where [old] had no
    repeat. *)
Fixpoint suffix_dups (seen_new seen_old new old : list string)
  : list string :=
  match new, old with
  | n :: new', o :: old' =>
      (if inb n seen_new && negb (inb o seen_old) then [n] else [])
        ++ suffix_dups (n :: seen_new) (o :: seen_old) new' old'
  | _, _ => []
  end.

Definition merge_labels (lcols rcols : list string)
  : outcome (list string * list string) :=
  let ll := map (suffix_label rcols "_x") lcols in
  let rl := map (suffix_label lcols "_y") rcols in
  match suffix_dups [] [] ll lcols ++ suffix_dups [] [] rl rcols with
  | [] => Ok (ll, rl)
  | _ => Raise MergeError
  end.

Definition matches (right : DataFrame) (rk : string) (k : cell)
  : list (list cell) :=
  List.filter (fun r => cell_eqb (row_get (columns right) r rk) k)
    (rows right).

Definition join_row (right : DataFrame) (rk : string) (k : cell)
    (l : list cell) : list (list cell) :=
  match matches right rk k with
  | [] => [l ++ repeat NA (length (columns right))]
  | ms => map (fun r => l ++ r) ms
  end.

Definition join_rows (left_cols : list string) (right : DataFrame)
    (lk rk : string) (ls : list (list cell)) : list (list cell) :=
  flat_map (fun l => join_row right rk (row_get left_cols l lk) l) ls.

Definition merge_left (left right : DataFrame) (lk rk : string)
  : outcome DataFrame :=
  obind (key_label rk (columns right)) (fun _ =>
  obind (key_label lk (columns left)) (fun _ =>
  obind (merge_labels (columns left) (columns right)) (fun '(ll, rl) =>
  Ok (mkDataFrame (ll ++ rl)
        (join_rows (columns left) right lk rk (rows left)))))).

(** *** [df.groupby(by).agg(agg_dict).reset_index()]

    Rows with a missing cell under a grouping label are left out
    ([dropna=True], the default of [groupby]).  The groups come out in
    ascending order of their keys ([sort=True], the default): numbers
    before texts, numbers by value, texts code point by code point.  The
    result carries the grouping labels, then the aggregated labels in the
    order of the dict.  This is the meaning of the call for a dict that
    is not empty, names no grouping label, and whose labels are each on
    one column of the table, as the lemmas on the result assume: where a
    label is on two columns pandas aggregates both. *)

Inductive aggfunc : Type :=
  | AggSum.   (* 'sum' *)

Definition cell_compare (a b : cell) : comparison :=
  match a, b with
  | NA, NA => Eq
  | NA, _ => Lt
  | _, NA => Gt
  | Num x, Num y => Z.compare x y
  | Num _, Str _ => Lt
  | Str _, Num _ => Gt
  | Str x, Str y => String.compare x y
  end.

Fixpoint key_compare (a b : list cell) : comparison :=
  match a, b with
  | [], [] => Eq
  | [], _ :: _ => Lt
  | _ :: _, [] => Gt
  | x :: a', y :: b' =>
      match cell_compare x y with
      | Eq => key_compare a' b'
      | c => c
      end
  end.

Definition key_eqb (a b : list cell) : bool :=
  match key_compare a b with Eq => true | _ => false end.

Definition key_lt (a b : list cell) : Prop := key_compare a b = Lt.

(** The sorted list of distinct keys. *)
Fixpoint insert_key (k : list cell) (l : list (list cell))
  : list (list cell) :=
  match l with
  | [] => [k]
  | k' :: l' =>
      match key_compare k k' with
      | Lt => k :: l
      | Eq => l
      | Gt => k' :: insert_key k l'
      end
  end.

Definition group_keys (ks : list (list cell)) : list (list cell) :=
  fold_right insert_key [] ks.

(** ['sum'] over the cells of one group: missing cells are skipped, an
    empty sum is 0 (as for a numeric column), numbers add, texts
    concatenate, and a number added to a text is a [TypeError].  The
    sums are exact; they are the sums of int64 and float64 for the
    columns [whole_numbers] describes. *)
Definition add_cell (acc : option cell) (c : cell) : outcome (option cell) :=
  match c, acc with
  | NA, _ => Ok acc
  | _, None => Ok (Some c)
  | Num z, Some (Num a) => Ok (Some (Num (a + z)))
  | Str t, Some (Str a) => Ok (Some (Str (String.append a t)))
  | _, Some _ => Raise TypeError
  end.

Fixpoint sum_from (acc : option cell) (cs : list cell) : outcome cell :=
  match cs with
  | [] => Ok (match acc with Some c => c | None => Num 0 end)
  | c :: cs' => obind (add_cell acc c) (fun acc' => sum_from acc' cs')
  end.

Definition sum_cells (cs : list cell) : outcome cell := sum_from None cs.

Definition apply_agg (f : aggfunc) (cs : list cell) : outcome cell :=
  match f with AggSum => sum_cells cs end.

Definition row_key (cols by_ : list string) (r : list cell) : list cell :=
  map (row_get cols r) by_.

Definition has_na (k : list cell) : bool := existsb isna k.

Definition column_cells (cols : list string) (c : string)
    (rs : list (list cell)) : list cell :=
  map (fun r => row_get cols r c) rs.

Definition agg_label (cols by_ : list string) (c : string) : outcome unit :=
  if inb c by_ || negb (inb c cols) then Raise (KeyError c) else Ok tt.

Definition group_row (cols by_ : list string) (agg : list (string * aggfunc))
    (kept : list (list cell)) (k : list cell) : outcome (list cell) :=
  let grp := List.filter (fun r => key_eqb (row_key cols by_ r) k) kept in
  obind (omap (fun '(c, f) => apply_agg f (column_cells cols c grp)) agg)
    (fun sums => Ok (k ++ sums)).

Definition groupby_agg (df : DataFrame) (by_ : list string)
    (agg : list (string * aggfunc)) : outcome DataFrame :=
  let cols := columns df in
  obind (omap (fun k => key_label k cols) by_) (fun _ =>
  match agg with
  | [] => Raise (ValueError "No objects to concatenate")
  | _ =>
      obind (omap (fun '(c, _) => agg_label cols by_ c) agg) (fun _ =>
      let kept :=
        List.filter (fun r => negb (has_na (row_key cols by_ r))) (rows df) in
      let keys := group_keys (map (row_key cols by_) kept) in
      obind (omap (group_row cols by_ agg kept) keys) (fun out =>
      Ok (mkDataFrame (by_ ++ map fst agg) out)))
  end).

End Frames.

(* ================================================================== *)
(** ** Runtime *)
(* ================================================================== *)

Module Runtime.
Import Frames.

(** What the Streamlit calls of the script put on the page. *)
Inductive message : Type :=
  | st_title (text : string)
  | st_error (text : string)
  | st_warning (text : string)
  | st_success (text : string)
  | st_write (text : string)
  | st_download_button (label : string) (data : DataFrame)
      (file_name mime : string).

(** DataFrames are objects: a variable holds a reference, [inplace=True]
    and [df[c] = v] change the object every holder of the reference
    sees.  The heap lists the objects in order of allocation. *)
Definition ref : Type := nat.

Record state : Type := mkState {
  heap : list DataFrame;
  log : list message
}.

(** A computation runs from a state to an outcome and a state; what was
    allocated, changed and emitted before an exception stays. *)
Definition M (A : Type) : Type := state -> outcome A * state.

Definition ret {A} (a : A) : M A := fun s => (Ok a, s).

Definition bind {A B} (m : M A) (k : A -> M B) : M B :=
  fun s =>
    match m s with
    | (Ok a, s') => k a s'
    | (Raise e, s') => (Raise e, s')
    end.

Definition lift {A} (o : outcome A) : M A := fun s => (o, s).

Definition emit (m : message) : M unit :=
  fun s => (Ok tt, mkState (heap s) (log s ++ [m])).

Definition alloc (d : DataFrame) : M ref :=
  fun s => (Ok (length (heap s)), mkState (heap s ++ [d]) (log s)).

(** References come from [alloc] only, so a lookup always finds its
    object; a reference never allocated reads as the empty frame. *)
Definition load (r : ref) : M DataFrame :=
  fun s => (Ok (default empty_frame (heap s !! r)), s).

Definition store (r : ref) (d : DataFrame) : M unit :=
  fun s => (Ok tt, mkState (<[r := d]> (heap s)) (log s)).

Fixpoint mapM {A B} (f : A -> M B) (l : list A) : M (list B) :=
  match l with
  | [] => ret []
  | x :: l' =>
      bind (f x) (fun y => bind (mapM f l') (fun ys => ret (y :: ys)))
  end.

Fixpoint forM_ {A} (l : list A) (f : A -> M unit) : M unit :=
  match l with
  | [] => ret tt
  | x :: l' => bind (f x) (fun _ => forM_ l' f)
  end.

End Runtime.

Declare Scope py_scope.
Delimit Scope py_scope with py.
Notation "x <- m ;; k" := (Runtime.bind m (fun x => k))
  (at level 100, m at next level, right associativity) : py_scope.
Notation "m ;; k" := (Runtime.bind m (fun _ => k))
  (at level 100, right associativity) : py_scope.

(* ================================================================== *)
(** ** The script *)
(* ================================================================== *)

Module Tripy.
Import Frames Runtime.
Local Open Scope py_scope.

(** An uploaded file: its name and the table its parser yields.  A file
    object is read once in a run of the script; reading leaves its
    stream at the end, which the model does not follow. *)
Record uploaded_file : Type := mkFile {
  name : string;
  table : DataFrame
}.

(** [s.endswith(suffix)] *)
Definition endswith (s suffix : string) : bool :=
  let n := String.length s in
  let m := String.length suffix in
  (m <=? n)%nat && String.eqb (substring (n - m) m s) suffix.

Definition pd_read_excel (f : uploaded_file) : M ref := alloc (table f).
Definition pd_read_csv (f : uploaded_file) : M ref := alloc (table f).
Definition pd_DataFrame : M ref := alloc empty_frame.

(** [all(col in df.columns for col in d.keys())] *)
Definition all_in_columns {V} (d : list (string * V)) (df : DataFrame)
  : bool :=
  forallb (fun col => inb col (columns df)) (map fst d).

Definition rename_inplace (df : ref) (d : list (string * string)) : M unit :=
  v <- load df ;; store df (rename_columns d v).

Definition read_file (uploaded : uploaded_file) : M ref :=
  if endswith (name uploaded) ".xlsx" then pd_read_excel uploaded
  else if endswith (name uploaded) ".csv" then pd_read_csv uploaded
  else emit (st_error "Unsupported file format") ;; pd_DataFrame.

Definition rename_dict_14_day : list (string * string) :=
  [ ("14 Day Total Sales (₹)", "Total Sales");
    ("14 Day Total Orders (#)", "Total Orders");
    ("14 Day Total Units (#)", "Total Units") ].

Definition rename_dict_7_day : list (string * string) :=
  [ ("7 Day Total Sales (₹)", "Total Sales");
    ("7 Day Total Units (#)", "Total Units");
    ("7 Day Total Orders (#)", "Total Orders") ].

Definition read_file_asin (uploaded : uploaded_file) : M ref :=
  let rename_if_applicable (df : ref) : M ref :=
    v <- load df ;;
    (if all_in_columns rename_dict_14_day v
     then rename_inplace df rename_dict_14_day
     else if all_in_columns rename_dict_7_day v
     then rename_inplace df rename_dict_7_day
     else emit (st_warning
            "Expected columns not found. Returning the original DataFrame.")) ;;
    ret df in
  if endswith (name uploaded) ".xlsx"
  then df <- pd_read_excel uploaded ;; rename_if_applicable df
  else if endswith (name uploaded) ".csv"
  then df <- pd_read_csv uploaded ;; rename_if_applicable df
  else emit (st_error "Unsupported file format") ;; pd_DataFrame.

Definition pd_concat (dfs : list ref) : M ref :=
  vs <- mapM load dfs ;;
  v <- lift (concat_frames vs) ;;
  alloc v.

Definition setitem (df : ref) (c : string) (v : cell) : M unit :=
  d <- load df ;; store df (set_column d c v).

Definition pd_merge (left right : ref) (left_on right_on : string) : M ref :=
  l <- load left ;;
  r <- load right ;;
  v <- lift (merge_left l r left_on right_on) ;;
  alloc v.

Definition aggregate_data (df : ref) (agg_dict : list (string * aggfunc))
  : M ref :=
  v <- load df ;;
  if all_in_columns agg_dict v
  then
    g <- lift (groupby_agg v ["Selected Date"; "Sub-Category"] agg_dict) ;;
    alloc g
  else
    emit (st_error "One or more columns are missing for aggregation") ;;
    pd_DataFrame.

(** The selected date and [strftime('%Y-%m-%d')]. *)
Record date : Type := mkDate { year : nat; month : nat; day : nat }.

Definition digit (n : nat) : ascii := ascii_of_nat (48 + n mod 10).

Definition two_digits (n : nat) : string :=
  String (digit (n / 10)) (String (digit n) EmptyString).

Definition strftime_Ymd (d : date) : string :=
  String (digit (year d / 1000)) (String (digit (year d / 100))
    (String.append (two_digits (year d))
       (String.append "-"
          (String.append (two_digits (month d))
             (String.append "-" (two_digits (day d))))))).

Definition sp_metrics : list (string * aggfunc) :=
  [ ("Total Orders", AggSum); ("Total Units", AggSum);
    ("Total Sales", AggSum); ("Spend", AggSum) ].

Definition sb_metrics : list (string * aggfunc) :=
  [ ("Orders", AggSum); ("Clicks", AggSum);
    ("Sales(INR)", AggSum); ("Spend(INR)", AggSum) ].

Definition process_files (sp_file sd_file sb_file : list uploaded_file)
    (asin_mapping campaign_mapping : ref) (selected_date : date)
  : M (ref * ref * ref) :=
  sp_dfs <- mapM read_file_asin sp_file ;;
  sp_file_df <- pd_concat sp_dfs ;;
  sd_dfs <- mapM read_file_asin sd_file ;;
  sb_dfs <- mapM read_file sb_file ;;
  sd_file_df <- pd_concat sd_dfs ;;
  sb_file_df <- pd_concat sb_dfs ;;
  let selected_date_str := strftime_Ymd selected_date in
  forM_ [sp_file_df; sd_file_df; sb_file_df]
    (fun df => setitem df "Selected Date" (Str selected_date_str)) ;;
  merged_data_SP <-
    pd_merge sp_file_df asin_mapping "Advertised ASIN" "ASIN" ;;
  merged_data_SB <-
    pd_merge sb_file_df campaign_mapping "Campaigns" "SB Campaign Name" ;;
  merged_data_SD <-
    pd_merge sd_file_df asin_mapping "Advertised ASIN" "ASIN" ;;
  SP_summary <- aggregate_data merged_data_SP sp_metrics ;;
  SB_summary <- aggregate_data merged_data_SB sb_metrics ;;
  SD_summary <- aggregate_data merged_data_SD sp_metrics ;;
  ret (SP_summary, SD_summary, SB_summary).

(** [save_df_to_csv]: the buffer holds what [to_csv] writes for the frame
    as it is at the call; the text itself is not modelled. *)
Definition save_df_to_csv (df : ref) : M DataFrame := load df.

(** The module-level code.  [pressed] is what [st.button("Process")]
    returns in this run; the three file lists are what the uploaders
    return (empty when nothing was uploaded); [asin_csv] and
    [campaign_csv] are the tables of the two reference files. *)
Definition script (pressed : bool)
    (SP_file SD_file SB_file : list uploaded_file)
    (asin_csv campaign_csv : DataFrame) (selected_date : date) : M unit :=
  emit (st_title "Data Processing and Upload") ;;
  ASIN_Mapping <- alloc asin_csv ;;
  Campaign_Mapping <- alloc campaign_csv ;;
  if pressed then
    summaries <- process_files SP_file SD_file SB_file
                   ASIN_Mapping Campaign_Mapping selected_date ;;
    let '(SP_summary, SD_summary, SB_summary) := summaries in
    SP_buffer <- save_df_to_csv SP_summary ;;
    SD_buffer <- save_df_to_csv SD_summary ;;
    SB_buffer <- save_df_to_csv SB_summary ;;
    emit (st_success "Processing completed and files have been merged.") ;;
    emit (st_write "SP files have been updated and merged.") ;;
    emit (st_write "SD files have been updated and merged.") ;;
    emit (st_write "SB files have been updated and merged.") ;;
    emit (st_download_button "Download Updated SP Summary" SP_buffer
            "SP_Summary.csv" "text/csv") ;;
    emit (st_download_button "Download Updated SD Summary" SD_buffer
            "SD_Summary.csv" "text/csv") ;;
    emit (st_download_button "Download Updated SB Summary" SB_buffer
            "SB_Summary.csv" "text/csv")
  else
    emit (st_warning "Please upload all required files (SP, SD, SB).").

End Tripy.

(* ================================================================== *)
(** ** Reading the script

    What the lemmas below are stated with: the table and the messages a
    loader yields for a file, the joined table and the summary of one
    report type as values, the total of a group, and the frame condition
    on the heap. *)
(* ================================================================== *)

Module Views.
Import Frames Runtime Tripy.

Definition supported (f : uploaded_file) : bool :=
  endswith (name f) ".xlsx" || endswith (name f) ".csv".

Definition unsupported_format : message :=
  st_error "Unsupported file format".

Definition warning_not_found : message :=
  st_warning "Expected columns not found. Returning the original DataFrame.".

Definition missing_for_aggregation : message :=
  st_error "One or more columns are missing for aggregation".

(** The renaming step of [read_file_asin] on a table: the table it
    leaves and what it emits. *)
Definition normalize (v : DataFrame) : DataFrame * list message :=
  if all_in_columns rename_dict_14_day v
  then (rename_columns rename_dict_14_day v, [])
  else if all_in_columns rename_dict_7_day v
  then (rename_columns rename_dict_7_day v, [])
  else (v, [warning_not_found]).

(** What [read_file] and [read_file_asin] allocate and emit for a file
    (lemmas [read_file_run] and [read_file_asin_run]). *)
Definition loaded (f : uploaded_file) : DataFrame * list message :=
  if supported f then (table f, []) else (empty_frame, [unsupported_format]).

Definition loaded_asin (f : uploaded_file) : DataFrame * list message :=
  if supported f then normalize (table f)
  else (empty_frame, [unsupported_format]).

Definition asin_frames (fs : list uploaded_file) : list DataFrame :=
  map (fun f => fst (loaded_asin f)) fs.

Definition plain_frames (fs : list uploaded_file) : list DataFrame :=
  map (fun f => fst (loaded f)) fs.

Definition asin_messages (fs : list uploaded_file) : list message :=
  concat (map (fun f => snd (loaded_asin f)) fs).

Definition plain_messages (fs : list uploaded_file) : list message :=
  concat (map (fun f => snd (loaded f)) fs).

Definition group_labels : list string := ["Selected Date"; "Sub-Category"].

(** Concatenate, stamp the date, join the mapping: the table
    [process_files] hands to [aggregate_data] for one report type
    (lemma [process_files_run]). *)
Definition joined (frames : list DataFrame) (mapping : DataFrame)
    (lk rk : string) (selected_date_str : string) : outcome DataFrame :=
  obind (concat_frames frames) (fun d =>
    merge_left (set_column d "Selected Date" (Str selected_date_str))
      mapping lk rk).

(** The frame [aggregate_data] returns for a joined table and what it
    emits (lemma [aggregate_data_run]). *)
Definition summary (j : DataFrame) (agg : list (string * aggfunc))
  : outcome (DataFrame * list message) :=
  if all_in_columns agg j
  then obind (groupby_agg j group_labels agg) (fun g => Ok (g, []))
  else Ok (empty_frame, [missing_for_aggregation]).

Definition distinct_labels (d : DataFrame) : Prop :=
  has_dup (columns d) = false.

(** Totals of numeric columns. *)
Definition num_cell (c : cell) : bool :=
  match c with Str _ => false | _ => true end.

Definition cell_value (c : cell) : Z :=
  match c with Num z => z | _ => 0%Z end.

Definition total (cs : list cell) : Z :=
  fold_right Z.add 0%Z (map cell_value cs).

Definition numeric_column (df : DataFrame) (c : string) : Prop :=
  forall r, In r (rows df) -> num_cell (row_get (columns df) r c) = true.

Definition kept_rows (df : DataFrame) (by_ : list string)
  : list (list cell) :=
  List.filter (fun r => negb (has_na (row_key (columns df) by_ r))) (rows df).

(** The rows of [df] whose key is [k]. *)
Definition group (df : DataFrame) (by_ : list string) (k : list cell)
  : list (list cell) :=
  List.filter (fun r => key_eqb (row_key (columns df) by_ r) k) (rows df).

Definition group_totals (df : DataFrame) (by_ : list string)
    (agg : list (string * aggfunc)) (k : list cell) : list cell :=
  map (fun cf =>
         Num (total (column_cells (columns df) (fst cf) (group df by_ k))))
    agg.

(** The keys of a summary's rows. *)
Definition summary_keys (out : DataFrame) : list (list cell) :=
  map (take (length group_labels)) (rows out).

(** A computation is [safe] for the objects [h0] when it leaves them as
    they are, whatever its outcome; [Q] holds of what it returns. *)
Definition keeps (h0 : list DataFrame) (s : state) : Prop :=
  exists ext, heap s = h0 ++ ext.

Definition fresh (h0 : list DataFrame) (r : ref) : Prop := length h0 <= r.

Definition safe {A} (h0 : list DataFrame) (Q : A -> Prop) (m : M A) : Prop :=
  forall s, keeps h0 s ->
    keeps h0 (snd (m s)) /\ forall a, fst (m s) = Ok a -> Q a.

End Views.

(* ================================================================== *)
(** ** Sample inputs *)
(* ================================================================== *)

Module Samples.
Import Frames Runtime Tripy.

Definition asin_map : DataFrame :=
  mkDataFrame ["ASIN"; "Sub-Category"]
    [ [Str "B001"; Str "Toys"]; [Str "B002"; Str "Books"] ].

Definition campaign_map : DataFrame :=
  mkDataFrame ["SB Campaign Name"; "Sub-Category"]
    [ [Str "Summer"; Str "Toys"] ].

(** The two mappings are the objects 0 and 1. *)
Definition start : state := mkState [asin_map; campaign_map] [].

Definition new_year : date := mkDate 2024 1 1.

Definition sp_table : DataFrame :=
  mkDataFrame
    [ "Advertised ASIN"; "14 Day Total Sales (₹)"; "14 Day Total Orders (#)";
      "14 Day Total Units (#)"; "Spend" ]
    [ [Str "B001"; Num 100; Num 2; Num 3; Num 10];
      [Str "B002"; Num 50; Num 1; Num 1; Num 5];
      [Str "B001"; Num 30; Num 1; Num 2; Num 4] ].

Definition sd_table : DataFrame :=
  mkDataFrame
    [ "Advertised ASIN"; "7 Day Total Sales (₹)"; "7 Day Total Units (#)";
      "7 Day Total Orders (#)"; "Spend" ]
    [ [Str "B002"; Num 70; Num 2; Num 2; Num 7] ].

Definition sb_table : DataFrame :=
  mkDataFrame ["Campaigns"; "Orders"; "Clicks"; "Sales(INR)"; "Spend(INR)"]
    [ [Str "Summer"; Num 4; Num 40; Num 400; Num 20] ].

Definition sp_csv : uploaded_file := mkFile "sp.csv" sp_table.
Definition sd_xlsx : uploaded_file := mkFile "sd.xlsx" sd_table.
Definition sb_csv : uploaded_file := mkFile "sb.csv" sb_table.

(** An SP report without the [Spend] column. *)
Definition sp_no_spend : uploaded_file :=
  mkFile "sp_short.csv"
    (mkDataFrame
       [ "Advertised ASIN"; "14 Day Total Sales (₹)";
         "14 Day Total Orders (#)"; "14 Day Total Units (#)" ]
       [ [Str "B001"; Num 100; Num 2; Num 3] ]).

(** An SP report whose only row has an ASIN the mapping does not list. *)
Definition sp_unlisted : uploaded_file :=
  mkFile "sp_unlisted.csv"
    (mkDataFrame
       [ "Advertised ASIN"; "14 Day Total Sales (₹)";
         "14 Day Total Orders (#)"; "14 Day Total Units (#)"; "Spend" ]
       [ [Str "B999"; Num 9; Num 1; Num 1; Num 2] ]).

(** A report carrying both attribution windows. *)
Definition both_windows : uploaded_file :=
  mkFile "both.csv"
    (mkDataFrame
       [ "14 Day Total Sales (₹)"; "14 Day Total Orders (#)";
         "14 Day Total Units (#)"; "7 Day Total Sales (₹)";
         "7 Day Total Units (#)"; "7 Day Total Orders (#)" ]
       [ [Num 14; Num 2; Num 3; Num 7; Num 1; Num 1] ]).

(** A report already under the canonical names. *)
Definition canonical : uploaded_file :=
  mkFile "canonical.xlsx"
    (mkDataFrame ["Advertised ASIN"; "Total Sales"; "Total Orders";
                  "Total Units"; "Spend"]
       [ [Str "B001"; Num 100; Num 2; Num 3; Num 10] ]).


Definition notes_txt : uploaded_file :=
  mkFile "notes.txt" (mkDataFrame ["text"] [[Str "hello"]]).

(** The grouping example: three rows, two keys. *)
Definition orders_table : DataFrame :=
  mkDataFrame ["Selected Date"; "Sub-Category"; "orders"]
    [ [Str "2024-01-01"; Str "A"; Num 1];
      [Str "2024-01-01"; Str "A"; Num 2];
      [Str "2024-01-01"; Str "B"; Num 5] ].

(** A joined row without a sub-category. *)
Definition orders_null_category : DataFrame :=
  mkDataFrame ["Selected Date"; "Sub-Category"; "orders"]
    [ [Str "2024-01-01"; NA; Num 1] ].

(** Metrics present, grouping label absent. *)
Definition orders_no_category : DataFrame :=
  mkDataFrame ["Selected Date"; "orders"] [ [Str "2024-01-01"; Num 1] ].

(** An SP table after concatenation and date stamp; the second row's
    ASIN is not in [asin_map]. *)
Definition stamped_sp : DataFrame :=
  mkDataFrame
    [ "Advertised ASIN"; "Total Orders"; "Total Units"; "Total Sales";
      "Spend"; "Selected Date" ]
    [ [Str "B001"; Num 2; Num 3; Num 100; Num 10; Str "2024-01-01"];
      [Str "B999"; Num 1; Num 1; Num 9; Num 2; Str "2024-01-01"];
      [Str "B002"; Num 1; Num 1; Num 50; Num 5; Str "2024-01-01"] ].

Definition frame_AB : DataFrame :=
  mkDataFrame ["A"; "B"] [ [Num 1; Num 2] ].

Definition frame_AC : DataFrame :=
  mkDataFrame ["A"; "C"] [ [Num 3; Num 4] ].

End Samples.

(* ================================================================== *)
(** ** Counting and accounting

    Further notions the lemmas are stated with: the canonical labels,
    the rows a join produces, the total of a column, where the rows of a
    table start in a concatenation, whole-number columns, the kinds of
    messages. *)
(* ================================================================== *)

Module Measures.
Import Frames Runtime Tripy Views.

(** The labels both renaming dicts map to. *)
Definition canonical_labels : list string :=
  ["Total Sales"; "Total Orders"; "Total Units"].

(** How many mapping rows carry the key [k]. *)
Definition match_count (right : DataFrame) (rk : string) (k : cell) : nat :=
  length (matches right rk k).

(** No key occurs in two rows of the mapping. *)
Definition unique_keys (right : DataFrame) (rk : string) : Prop :=
  forall k, match_count right rk k <= 1.

(** The number of rows a left join makes of the report rows [ls]. *)
Definition fan_out (left_cols : list string) (right : DataFrame)
    (lk rk : string) (ls : list (list cell)) : nat :=
  list_sum
    (map (fun l => Nat.max 1 (match_count right rk (row_get left_cols l lk)))
       ls).

(** The total of the cells under [c], over all rows of the table. *)
Definition column_total (df : DataFrame) (c : string) : Z :=
  total (column_cells (columns df) c (rows df)).


(** Whole-number columns.  pandas holds a numeric column as int64 or, once
    a cell is missing, as float64; sums of whole numbers are exact in both
    as long as no partial sum reaches 2^53, which the bound on the sum of
    the absolute values ensures in whatever order the cells are added.
    For such a column the exact sums of [sum_cells] are the sums of the
    code. *)
Definition is_num (c : cell) : bool :=
  match c with Num _ => true | _ => false end.

Definition magnitude (cs : list cell) : Z :=
  fold_right Z.add 0%Z (map (fun c => Z.abs (cell_value c)) cs).

Definition whole_numbers (df : DataFrame) (c : string) : Prop :=
  (forall r, In r (rows df) -> is_num (row_get (columns df) r c) = true) /\
  (magnitude (column_cells (columns df) c (rows df)) < 2 ^ 53)%Z.

(** No label of the dict is carried by two columns of the table. *)
Definition at_most_once (agg : list (string * aggfunc)) (df : DataFrame)
  : Prop :=
  forall c, In c (map fst agg) -> count_label c (columns df) <= 1.

Definition complete_keys (df : DataFrame) : Prop :=
  forall r, In r (rows df) ->
    has_na (row_key (columns df) group_labels r) = false.

(** The messages [process_files] can emit. *)
Definition from_pipeline (m : message) : Prop :=
  m = unsupported_format \/ m = warning_not_found \/
  m = missing_for_aggregation.

(** A computation [emits] messages satisfying [P] when it only appends
    to the log, and what it appends satisfies [P], whatever its
    outcome. *)
Definition emits {A} (P : message -> Prop) (m : M A) : Prop :=
  forall s, exists added,
    log (snd (m s)) = log s ++ added /\ List.Forall P added.

(** The files of a group that the loaders accept. *)
Definition supported_only (fs : list uploaded_file) : list uploaded_file :=
  List.filter supported fs.

(** Tables as the parsers yield them: distinct labels, one cell per
    label in every row. *)
Definition clean (frames : list DataFrame) : Prop :=
  List.Forall distinct_labels frames /\ List.Forall wf_frame frames.

(** The dates the date picker offers: 2000-01-01 to 2100-12-31. *)
Definition in_picker_range (d : date) : Prop :=
  2000 <= year d <= 2100 /\ 1 <= month d <= 12 /\ 1 <= day d <= 31.

End Measures.

(* ================================================================== *)
(** ** Lemmas *)
(* ================================================================== *)

Import Frames Runtime Tripy Views Measures.

Ltac lens :=
  rewrite ?length_insert, ?length_app, ?length_map; simpl; lia.

(** Solves [h !! r = Some d] for a heap built by allocations and updates. *)
Ltac pt :=
  cbn [heap];
  solve [ repeat first
    [ eassumption
    | apply list_lookup_middle; reflexivity
    | rewrite list_lookup_insert_eq by lens; reflexivity
    | rewrite list_lookup_insert_ne by lens
    | apply lookup_app_l_Some ] ].

(** *** Labels and cells *)

Section Labels.

Lemma inb_In c l : inb c l = true <-> In c l.
Proof.
  unfold inb. rewrite existsb_exists. split.
  - intros (x & Hx & E). apply String.eqb_eq in E. now subst.
  - intros H. exists c. split; [assumption | apply String.eqb_refl].
Qed.

Lemma inb_false c l : inb c l = false <-> ~ In c l.
Proof.
  rewrite <- inb_In.
  destruct (inb c l); split; try congruence; intros H; now elim H.
Qed.

Lemma labels_eqb_eq a : forall b, labels_eqb a b = true <-> a = b.
Proof.
  induction a as [| x a IH]; intros [| y b]; simpl; split;
    try congruence; try discriminate.
  - intros H. apply andb_prop in H as [H1 H2].
    apply String.eqb_eq in H1. apply IH in H2. congruence.
  - intros H. injection H as -> ->. rewrite String.eqb_refl. now apply IH.
Qed.

Lemma has_dup_NoDup l : has_dup l = false <-> List.NoDup l.
Proof.
  induction l as [| x l IH]; simpl.
  - split; [constructor | reflexivity].
  - rewrite orb_false_iff, inb_false, IH. split.
    + intros [H1 H2]. now constructor.
    + intros H. inversion H. now split.
Qed.



Lemma count_label_once_In c l : count_label c l = 1%nat -> In c l.
Proof.
  unfold count_label. intros H.
  destruct (List.filter (String.eqb c) l) as [| x xs] eqn:E; [discriminate |].
  assert (Hx : In x (List.filter (String.eqb c) l)) by (rewrite E; now left).
  apply List.filter_In in Hx as [Hx Heq].
  apply String.eqb_eq in Heq. now subst.
Qed.


Lemma row_get_map (g : string -> cell) cols c :
  row_get cols (map g cols) c = if inb c cols then g c else NA.
Proof.
  induction cols as [| k cols IH]; simpl; [reflexivity |].
  rewrite (String.eqb_sym c k).
  destruct (String.eqb_spec k c) as [-> | Hne]; simpl; [reflexivity | exact IH].
Qed.

Lemma row_get_repeat_NA cols c : forall n, row_get cols (repeat NA n) c = NA.
Proof.
  induction cols as [| k cols IH]; intros [| n]; simpl; try reflexivity.
  destruct (String.eqb k c); [reflexivity | apply IH].
Qed.

Lemma row_get_app_r cols cols' c : forall r r',
  length r = length cols -> ~ In c cols ->
  row_get (cols ++ cols') (r ++ r') c = row_get cols' r' c.
Proof.
  induction cols as [| k cols IH]; intros [| v r] r' Hlen Hc; simpl in *;
    try congruence.
  destruct (String.eqb_spec k c) as [-> | Hne]; [elim Hc; now left |].
  apply IH; [congruence | intros H; apply Hc; now right].
Qed.

Lemma reindex_row_same cols : forall r,
  List.NoDup cols -> length r = length cols -> reindex_row cols r cols = r.
Proof.
  unfold reindex_row.
  induction cols as [| k cols IH]; intros [| v r] Hnd Hlen; simpl in *;
    try congruence.
  rewrite String.eqb_refl. f_equal.
  inversion Hnd as [| ? ? Hk Hnd']; subst.
  transitivity (map (row_get cols r) cols); [| apply IH; congruence].
  apply map_ext_in. intros c Hc.
  destruct (String.eqb_spec k c) as [-> | Hne]; [contradiction | reflexivity].
Qed.

Lemma reindex_same d :
  List.NoDup (columns d) -> wf_frame d -> reindex (columns d) d = rows d.
Proof.
  intros Hnd Hwf. unfold reindex, wf_frame in *.
  induction Hwf as [| r l Hr _ IH]; simpl; [reflexivity |].
  now rewrite reindex_row_same, IH.
Qed.

End Labels.

(** *** Outcomes *)

Section Outcomes.

Lemma omap_ok {A B} (f : A -> outcome B) (g : A -> B) l :
  (forall x, In x l -> f x = Ok (g x)) -> omap f l = Ok (map g l).
Proof.
  induction l as [| x l IH]; intros H; simpl; [reflexivity |].
  rewrite (H x) by now left. simpl. rewrite IH; [reflexivity |].
  intros y Hy. apply H. now right.
Qed.

Lemma omap_inv {A B} (f : A -> outcome B) l : forall ys,
  omap f l = Ok ys -> List.Forall2 (fun x y => f x = Ok y) l ys.
Proof.
  induction l as [| x l IH]; simpl; intros ys H.
  - injection H as <-. constructor.
  - destruct (f x) as [y |] eqn:Ex; simpl in H; [| discriminate].
    destruct (omap f l) as [ys' |]; simpl in H; [| discriminate].
    injection H as <-. constructor; [exact Ex | now apply IH].
Qed.

Lemma Forall2_image {A B} (R : A -> B -> Prop) l l' y :
  List.Forall2 R l l' -> In y l' -> exists x, In x l /\ R x y.
Proof.
  induction 1 as [| x y' l l' Hxy F IH]; [contradiction |].
  intros [-> | Hy].
  - exists x. split; [now left | exact Hxy].
  - destruct (IH Hy) as (x' & Hx' & Hr). exists x'. split; [now right | exact Hr].
Qed.

End Outcomes.

(** *** Concatenation *)







(** *** The order of group keys *)

Section KeyOrder.

Lemma cell_compare_eq a b : cell_compare a b = Eq <-> a = b.
Proof.
  destruct a, b; simpl; split; intros H; try congruence; try discriminate.
  - apply Z.compare_eq in H. now subst.
  - injection H as ->. apply Z.compare_refl.
  - apply String_as_OT.cmp_eq in H. now subst.
  - injection H as ->. now apply String_as_OT.cmp_eq.
Qed.

Lemma cell_compare_antisym a b :
  cell_compare a b = CompOpp (cell_compare b a).
Proof.
  destruct a, b; simpl; try reflexivity.
  - apply Z.compare_antisym.
  - apply String_as_OT.cmp_antisym.
Qed.

Lemma cell_compare_trans a b c :
  cell_compare a b = Lt -> cell_compare b c = Lt -> cell_compare a c = Lt.
Proof.
  destruct a, b, c; simpl; try congruence.
  - rewrite !Z.compare_lt_iff. lia.
  - intros H1 H2. apply String_as_OT.cmp_lt in H1, H2.
    apply String_as_OT.cmp_lt. eapply String_as_OT.lt_trans; eassumption.
Qed.

Lemma key_compare_eq a : forall b, key_compare a b = Eq <-> a = b.
Proof.
  induction a as [| x a IH]; intros [| y b]; simpl; split;
    try congruence; try discriminate.
  - destruct (cell_compare x y) eqn:E; try discriminate.
    intros H. apply cell_compare_eq in E. apply IH in H. congruence.
  - intros H. injection H as -> ->.
    rewrite (proj2 (cell_compare_eq y y) eq_refl). now apply IH.
Qed.

Lemma key_compare_refl a : key_compare a a = Eq.
Proof. now apply key_compare_eq. Qed.

Lemma key_compare_antisym a : forall b,
  key_compare a b = CompOpp (key_compare b a).
Proof.
  induction a as [| x a IH]; intros [| y b]; simpl; try reflexivity.
  rewrite (cell_compare_antisym x y), IH.
  destruct (cell_compare y x); reflexivity.
Qed.

Lemma key_lt_trans a : forall b c, key_lt a b -> key_lt b c -> key_lt a c.
Proof.
  unfold key_lt.
  induction a as [| x a IH]; intros [| y b] [| z c]; simpl; try congruence.
  destruct (cell_compare x y) eqn:Exy; try discriminate;
  destruct (cell_compare y z) eqn:Eyz; try discriminate; intros H1 H2.
  - apply cell_compare_eq in Exy, Eyz. subst.
    rewrite (proj2 (cell_compare_eq z z) eq_refl). eauto.
  - apply cell_compare_eq in Exy. subst. now rewrite Eyz.
  - apply cell_compare_eq in Eyz. subst. now rewrite Exy.
  - now rewrite (cell_compare_trans _ _ _ Exy Eyz).
Qed.

Lemma key_lt_irrefl a : ~ key_lt a a.
Proof. unfold key_lt. rewrite key_compare_refl. discriminate. Qed.

Lemma key_eqb_eq a b : key_eqb a b = true <-> a = b.
Proof.
  unfold key_eqb. rewrite <- key_compare_eq.
  destruct (key_compare a b); split; congruence.
Qed.

Lemma insert_key_In k l k' : In k' (insert_key k l) <-> k' = k \/ In k' l.
Proof.
  induction l as [| x l IH]; simpl.
  - intuition.
  - destruct (key_compare k x) eqn:E; simpl.
    + apply key_compare_eq in E. subst. intuition.
    + intuition.
    + rewrite IH. intuition.
Qed.

Lemma insert_key_sorted k l :
  StronglySorted key_lt l -> StronglySorted key_lt (insert_key k l).
Proof.
  induction 1 as [| x l Hs IH Hx]; simpl.
  - repeat constructor.
  - destruct (key_compare k x) eqn:E.
    + now constructor.
    + constructor; [now constructor |].
      constructor; [exact E |].
      eapply List.Forall_impl; [| exact Hx].
      intros y Hy. eapply key_lt_trans; eassumption.
    + constructor; [exact IH |].
      apply List.Forall_forall. intros y Hy.
      apply insert_key_In in Hy as [-> | Hy].
      * unfold key_lt. rewrite key_compare_antisym, E. reflexivity.
      * rewrite List.Forall_forall in Hx. now apply Hx.
Qed.

Lemma group_keys_In ks k : In k (group_keys ks) <-> In k ks.
Proof.
  induction ks as [| x ks IH]; simpl; [tauto |].
  rewrite insert_key_In, IH. intuition.
Qed.

Lemma group_keys_sorted ks : StronglySorted key_lt (group_keys ks).
Proof.
  induction ks; simpl; [constructor | now apply insert_key_sorted].
Qed.

Lemma sorted_NoDup l : StronglySorted key_lt l -> List.NoDup l.
Proof.
  induction 1 as [| x l Hs IH Hx]; constructor; [| exact IH].
  intros Hin. rewrite List.Forall_forall in Hx.
  apply (key_lt_irrefl x). now apply Hx.
Qed.

End KeyOrder.

(** *** Grouping *)

Section Sums.

Lemma sum_from_numeric cs : forall acc,
  forallb num_cell cs = true ->
  sum_from acc cs =
    match acc with
    | None => Ok (Num (total cs))
    | Some (Num a) => Ok (Num (a + total cs))
    | Some c => sum_from (Some c) cs
    end.
Proof.
  induction cs as [| c cs IH]; intros acc H.
  - destruct acc as [[| a |]|]; simpl; try reflexivity. now rewrite Z.add_0_r.
  - simpl in H. apply andb_prop in H as [Hc Hcs].
    destruct acc as [[| a | t]|]; try reflexivity;
      destruct c as [| z |]; try discriminate; simpl;
      rewrite IH by assumption; unfold total; simpl; try reflexivity;
      f_equal; f_equal; lia.
Qed.

Lemma sum_cells_numeric cs :
  forallb num_cell cs = true -> sum_cells cs = Ok (Num (total cs)).
Proof. intros H. unfold sum_cells. now rewrite sum_from_numeric. Qed.

Lemma whole_numbers_numeric df c : whole_numbers df c -> numeric_column df c.
Proof.
  intros [H _] r Hr. specialize (H r Hr).
  now destruct (row_get (columns df) r c).
Qed.

Lemma whole_number_metrics df (agg : list (string * aggfunc)) :
  (forall c, In c (map fst agg) ->
     count_label c (columns df) = 1%nat /\ ~ In c group_labels /\
     whole_numbers df c) ->
  forall c, In c (map fst agg) ->
    In c (columns df) /\ ~ In c group_labels /\ numeric_column df c.
Proof.
  intros H c Hc. destruct (H c Hc) as (H1 & H2 & H3).
  split; [now apply count_label_once_In |].
  split; [exact H2 | now apply whole_numbers_numeric].
Qed.

End Sums.

Section Grouping.

Variable df : DataFrame.
Variable by_ : list string.
Variable agg : list (string * aggfunc).

Abbreviation key := (row_key (columns df) by_).

Lemma group_of_kept k :
  has_na k = false ->
  List.filter (fun r => key_eqb (key r) k) (kept_rows df by_) = group df by_ k.
Proof.
  intros Hk. unfold kept_rows, group.
  induction (rows df) as [| r l IH]; simpl; [reflexivity |].
  destruct (key_eqb (key r) k) eqn:E.
  - assert (Hr : has_na (key r) = false).
    { apply key_eqb_eq in E. now rewrite E. }
    rewrite Hr. simpl. rewrite E. now rewrite IH.
  - destruct (negb (has_na (key r))); simpl; [rewrite E |]; exact IH.
Qed.

Lemma kept_keys_In k :
  In k (map key (kept_rows df by_)) <->
  has_na k = false /\ exists r, In r (rows df) /\ key r = k.
Proof.
  unfold kept_rows. rewrite in_map_iff. split.
  - intros (r & <- & Hr). apply filter_In in Hr as [Hr Hna].
    apply negb_true_iff in Hna. eauto.
  - intros (Hna & r & Hr & <-). exists r. split; [reflexivity |].
    apply filter_In. split; [assumption |]. now rewrite Hna.
Qed.

Lemma key_length r : length (key r) = length by_.
Proof. unfold row_key. apply length_map. Qed.

(** Every row of a summary starts with the key of some kept row. *)
Lemma groupby_agg_rows out :
  groupby_agg df by_ agg = Ok out ->
  forall row, In row (rows out) ->
    exists k sums, row = k ++ sums /\ In k (map key (kept_rows df by_)).
Proof.
  unfold groupby_agg. cbv zeta.
  destruct (omap _ by_) as [us |]; simpl; [| discriminate].
  destruct agg as [| a0 agg']; [discriminate |].
  destruct (omap _ (a0 :: agg')) as [vs |]; simpl; [| discriminate].
  fold (kept_rows df by_).
  destruct (omap _ (group_keys _)) as [rs |] eqn:E; simpl; [| discriminate].
  intros [= <-] row Hrow. cbn [rows] in Hrow.
  apply omap_inv in E.
  destruct (Forall2_image _ _ _ _ E Hrow) as (k & Hk & Ek).
  unfold group_row in Ek.
  destruct (omap _ (a0 :: agg')) as [sums |]; [| discriminate].
  simpl in Ek. injection Ek as <-.
  exists k, sums. split; [reflexivity |].
  exact (proj1 (group_keys_In _ _) Hk).
Qed.

Hypothesis by_unique :
  forall k, In k by_ -> count_label k (columns df) = 1%nat.
Hypothesis agg_nonempty : agg <> [].
Hypothesis agg_not_key : forall c, In c (map fst agg) -> ~ In c by_.
Hypothesis agg_present : forall c, In c (map fst agg) -> In c (columns df).
Hypothesis agg_numeric : forall c, In c (map fst agg) -> numeric_column df c.

Lemma groupby_agg_numeric :
  groupby_agg df by_ agg =
  Ok (mkDataFrame (by_ ++ map fst agg)
        (map (fun k => k ++ group_totals df by_ agg k)
           (group_keys (map key (kept_rows df by_))))).
Proof.
  unfold groupby_agg. cbv zeta.
  rewrite (omap_ok _ (fun _ => tt)).
  2:{ intros k Hk. unfold key_label. now rewrite by_unique. }
  simpl. destruct agg as [| a agg'] eqn:Eagg; [congruence |].
  rewrite <- Eagg in *.
  rewrite (omap_ok _ (fun _ => tt)).
  2:{ intros [c f] Hc. unfold agg_label.
      assert (Hin : In c (map fst agg)) by (apply in_map_iff; now exists (c, f)).
      rewrite (proj2 (inb_false c by_) (agg_not_key c Hin)).
      rewrite (proj2 (inb_In c (columns df)) (agg_present c Hin)).
      reflexivity. }
  simpl. fold (kept_rows df by_).
  rewrite (omap_ok _ (fun k => k ++ group_totals df by_ agg k));
    [reflexivity |].
  intros k Hk. apply group_keys_In, kept_keys_In in Hk as [Hna _].
  unfold group_row. rewrite (group_of_kept k Hna).
  rewrite (omap_ok _
    (fun cf =>
       Num (total (column_cells (columns df) (fst cf) (group df by_ k))))).
  - reflexivity.
  - intros [c f] Hc. destruct f. simpl. apply sum_cells_numeric.
    apply forallb_forall. intros x Hx. unfold column_cells in Hx.
    apply in_map_iff in Hx as (r & <- & Hr).
    apply (agg_numeric c); [apply in_map_iff; now exists (c, AggSum) |].
    unfold group in Hr. now apply filter_In in Hr as [Hr _].
Qed.

End Grouping.

Lemma take_key (k sums : list cell) n : length k = n -> take n (k ++ sums) = k.
Proof. intros <-. now rewrite take_app_length. Qed.

Lemma dropna_remove cols by_ pre m post :
  has_na (row_key cols by_ m) = true ->
  List.filter (fun r => negb (has_na (row_key cols by_ r))) (pre ++ m :: post) =
  List.filter (fun r => negb (has_na (row_key cols by_ r))) (pre ++ post).
Proof.
  intros H. rewrite !List.filter_app. simpl. now rewrite H.
Qed.

Lemma groupby_agg_drops_row cols by_ agg pre m post :
  has_na (row_key cols by_ m) = true ->
  groupby_agg (mkDataFrame cols (pre ++ m :: post)) by_ agg =
  groupby_agg (mkDataFrame cols (pre ++ post)) by_ agg.
Proof.
  intros H. unfold groupby_agg. cbn [columns rows].
  now rewrite (dropna_remove _ _ _ _ _ H).
Qed.

(** No row of a summary has a missing cell in its key. *)
Lemma groupby_agg_no_null_key df agg out :
  groupby_agg df group_labels agg = Ok out ->
  forall k, In k (summary_keys out) -> has_na k = false.
Proof.
  intros H k Hk. unfold summary_keys in Hk.
  apply in_map_iff in Hk as (row & <- & Hrow).
  destruct (groupby_agg_rows _ _ _ _ H row Hrow) as (k & sums & -> & Hk).
  apply kept_keys_In in Hk as [Hna (r & _ & Hr)].
  rewrite take_key; [exact Hna |].
  rewrite <- Hr. apply key_length.
Qed.

(** *** The left join *)

Section Merge.

Lemma key_label_ok c cols :
  count_label c cols = 1%nat -> key_label c cols = Ok tt.
Proof. intros H. unfold key_label. now rewrite H. Qed.

Lemma append_x_not_sub_category c : String.append c "_x" <> "Sub-Category".
Proof.
  intros H.
  do 12 (destruct c as [| ? c]; simpl in H; [discriminate |];
         injection H as ? H).
  destruct c; discriminate.
Qed.

Lemma suffix_keeps_sub_category_out lcols rcols :
  ~ In "Sub-Category" lcols ->
  ~ In "Sub-Category" (map (suffix_label rcols "_x") lcols).
Proof.
  intros H Hin. apply in_map_iff in Hin as (c & Hc & Hin).
  unfold suffix_label in Hc. destruct (inb c rcols).
  - now apply append_x_not_sub_category in Hc.
  - subst. contradiction.
Qed.

Lemma merge_labels_inv lcols rcols ll rl :
  merge_labels lcols rcols = Ok (ll, rl) ->
  ll = map (suffix_label rcols "_x") lcols /\
  rl = map (suffix_label lcols "_y") rcols.
Proof.
  unfold merge_labels. destruct (_ ++ _); [| discriminate].
  intros H. injection H as <- <-. now split.
Qed.

Lemma merge_left_inv left right lk rk j :
  merge_left left right lk rk = Ok j ->
  exists ll rl,
    merge_labels (columns left) (columns right) = Ok (ll, rl) /\
    j = mkDataFrame (ll ++ rl)
          (join_rows (columns left) right lk rk (rows left)).
Proof.
  unfold merge_left.
  destruct (key_label rk _); [| discriminate].
  destruct (key_label lk _); [| discriminate]. cbn [obind].
  destruct (merge_labels _ _) as [[ll rl] |]; [| discriminate].
  cbn [obind]. intros [= <-]. eauto.
Qed.

Lemma join_rows_app cols right lk rk xs ys :
  join_rows cols right lk rk (xs ++ ys) =
  join_rows cols right lk rk xs ++ join_rows cols right lk rk ys.
Proof. apply flat_map_app. Qed.

End Merge.

(** *** Running the calls *)

Section Run.

Lemma bind_ok {A B} (m : M A) (k : A -> M B) s a s' :
  m s = (Ok a, s') -> bind m k s = k a s'.
Proof. intros H. unfold bind. now rewrite H. Qed.

Lemma load_run r s d : heap s !! r = Some d -> load r s = (Ok d, s).
Proof. intros H. unfold load. now rewrite H. Qed.

Lemma lookup_alloc (h : list DataFrame) d : (h ++ [d]) !! length h = Some d.
Proof. now apply list_lookup_middle. Qed.

Lemma insert_alloc (h : list DataFrame) d d' :
  <[length h := d']> (h ++ [d]) = h ++ [d'].
Proof. rewrite insert_app_r_alt by lia. now rewrite Nat.sub_diag. Qed.

Lemma mapM_load_run s refs : forall ds,
  List.Forall2 (fun r d => heap s !! r = Some d) refs ds ->
  mapM load refs s = (Ok ds, s).
Proof.
  induction refs as [| r refs IH]; intros ds H; inversion H; subst;
    [reflexivity |].
  simpl. rewrite (bind_ok _ _ _ _ _ (load_run _ _ _ H2)).
  now rewrite (bind_ok _ _ _ _ _ (IH _ H4)).
Qed.

Lemma pd_concat_run s refs ds :
  List.Forall2 (fun r d => heap s !! r = Some d) refs ds ->
  pd_concat refs s =
    match concat_frames ds with
    | Ok v => (Ok (length (heap s)), mkState (heap s ++ [v]) (log s))
    | Raise e => (Raise e, s)
    end.
Proof.
  intros H. unfold pd_concat.
  rewrite (bind_ok _ _ _ _ _ (mapM_load_run _ _ _ H)).
  unfold bind, lift. now destruct (concat_frames ds).
Qed.

Lemma pd_concat_ok s refs ds v :
  List.Forall2 (fun r d => heap s !! r = Some d) refs ds ->
  concat_frames ds = Ok v ->
  pd_concat refs s = (Ok (length (heap s)), mkState (heap s ++ [v]) (log s)).
Proof. intros H E. rewrite (pd_concat_run _ _ _ H). now rewrite E. Qed.

Lemma setitem_run s r d c v :
  heap s !! r = Some d ->
  setitem r c v s =
    (Ok tt, mkState (<[r := set_column d c v]> (heap s)) (log s)).
Proof.
  intros H. unfold setitem. now rewrite (bind_ok _ _ _ _ _ (load_run _ _ _ H)).
Qed.

Lemma pd_merge_run s a b l r lk rk :
  heap s !! a = Some l -> heap s !! b = Some r ->
  pd_merge a b lk rk s =
    match merge_left l r lk rk with
    | Ok v => (Ok (length (heap s)), mkState (heap s ++ [v]) (log s))
    | Raise e => (Raise e, s)
    end.
Proof.
  intros Ha Hb. unfold pd_merge.
  rewrite (bind_ok _ _ _ _ _ (load_run _ _ _ Ha)).
  rewrite (bind_ok _ _ _ _ _ (load_run _ _ _ Hb)).
  unfold bind, lift. now destruct (merge_left l r lk rk).
Qed.

Lemma pd_merge_ok s a b l r lk rk v :
  heap s !! a = Some l -> heap s !! b = Some r ->
  merge_left l r lk rk = Ok v ->
  pd_merge a b lk rk s =
    (Ok (length (heap s)), mkState (heap s ++ [v]) (log s)).
Proof.
  intros Ha Hb E. rewrite (pd_merge_run _ _ _ _ _ _ _ Ha Hb). now rewrite E.
Qed.

Lemma aggregate_data_run s r v agg :
  heap s !! r = Some v ->
  aggregate_data r agg s =
    match summary v agg with
    | Ok (g, msgs) =>
        (Ok (length (heap s)), mkState (heap s ++ [g]) (log s ++ msgs))
    | Raise e => (Raise e, s)
    end.
Proof.
  intros H. unfold aggregate_data, summary.
  rewrite (bind_ok _ _ _ _ _ (load_run _ _ _ H)).
  destruct (all_in_columns agg v); [| reflexivity].
  unfold bind, lift, group_labels.
  destruct (groupby_agg v _ agg); simpl; [| reflexivity].
  unfold alloc. rewrite app_nil_r. now destruct s.
Qed.

Lemma aggregate_data_ok s r v agg g msgs :
  heap s !! r = Some v ->
  summary v agg = Ok (g, msgs) ->
  aggregate_data r agg s =
    (Ok (length (heap s)), mkState (heap s ++ [g]) (log s ++ msgs)).
Proof. intros H E. rewrite (aggregate_data_run _ _ _ _ H). now rewrite E. Qed.

Lemma read_file_run f s :
  read_file f s =
    (Ok (length (heap s)),
     mkState (heap s ++ [fst (loaded f)]) (log s ++ snd (loaded f))).
Proof.
  unfold read_file, loaded, supported.
  destruct (endswith (name f) ".xlsx"); [| destruct (endswith (name f) ".csv")];
    simpl; unfold pd_read_excel, pd_read_csv, alloc; rewrite ?app_nil_r;
    try (now destruct s); reflexivity.
Qed.

Lemma read_file_asin_run f s :
  read_file_asin f s =
    (Ok (length (heap s)),
     mkState (heap s ++ [fst (loaded_asin f)])
       (log s ++ snd (loaded_asin f))).
Proof.
  unfold read_file_asin, loaded_asin, supported, normalize.
  destruct (endswith (name f) ".xlsx"); [| destruct (endswith (name f) ".csv")];
    simpl; [| | reflexivity].
  all: unfold pd_read_excel, pd_read_csv, bind, alloc, load, rename_inplace,
         bind, load, store, ret, emit; cbn [heap log];
       rewrite lookup_alloc; cbv [default from_option id];
       destruct (all_in_columns rename_dict_14_day (table f));
       [| destruct (all_in_columns rename_dict_7_day (table f))];
       cbn [heap log fst snd]; rewrite ?lookup_alloc;
       cbv [default from_option id]; rewrite ?insert_alloc, ?app_nil_r;
       reflexivity.
Qed.

Lemma mapM_alloc_run {A} (f : A -> M ref)
    (F : A -> DataFrame * list message) :
  (forall x s, f x s =
     (Ok (length (heap s)),
      mkState (heap s ++ [fst (F x)]) (log s ++ snd (F x)))) ->
  forall l s,
    mapM f l s =
      (Ok (seq (length (heap s)) (length l)),
       mkState (heap s ++ map (fun x => fst (F x)) l)
         (log s ++ concat (map (fun x => snd (F x)) l))).
Proof.
  intros Hf. induction l as [| x l IH]; intros s; simpl.
  - unfold ret. rewrite !app_nil_r. now destruct s.
  - rewrite (bind_ok _ _ _ _ _ (Hf x s)).
    rewrite (bind_ok _ _ _ _ _ (IH _)). unfold ret. cbn [heap log].
    rewrite length_app, Nat.add_1_r. simpl.
    now rewrite <- !app_assoc.
Qed.

Lemma seq_points_to (h ds rest : list DataFrame) :
  List.Forall2 (fun r d => ((h ++ ds) ++ rest) !! r = Some d)
    (seq (length h) (length ds)) ds.
Proof.
  revert h. induction ds as [| d ds IH]; intros h; simpl; constructor.
  - apply lookup_app_l_Some. now apply list_lookup_middle.
  - specialize (IH (h ++ [d])). rewrite length_app, Nat.add_1_r in IH.
    now rewrite <- (app_assoc h [d] ds) in IH.
Qed.

Lemma seq_points_to_map {A} (F : A -> DataFrame) h l rest :
  List.Forall2 (fun r d => ((h ++ map F l) ++ rest) !! r = Some d)
    (seq (length h) (length l)) (map F l).
Proof. rewrite <- (length_map F l). apply seq_points_to. Qed.

Lemma seq_points_to_map_last {A} (F : A -> DataFrame) h l :
  List.Forall2 (fun r d => (h ++ map F l) !! r = Some d)
    (seq (length h) (length l)) (map F l).
Proof. rewrite <- (app_nil_r (h ++ map F l)). apply seq_points_to_map. Qed.

Lemma joined_inv frames mapping lk rk ds j :
  joined frames mapping lk rk ds = Ok j ->
  exists d, concat_frames frames = Ok d /\
    merge_left (set_column d "Selected Date" (Str ds)) mapping lk rk = Ok j.
Proof.
  unfold joined. destruct (concat_frames frames); simpl; [eauto | discriminate].
Qed.

(** [process_files] on inputs whose three joins and three summaries go
    through: the references it returns hold the summaries. *)
Lemma process_files_run sp sd sb a c date s am cm jsp jsd jsb
    o1 m1 o2 m2 o3 m3 :
  heap s !! a = Some am ->
  heap s !! c = Some cm ->
  joined (asin_frames sp) am "Advertised ASIN" "ASIN" (strftime_Ymd date)
    = Ok jsp ->
  joined (asin_frames sd) am "Advertised ASIN" "ASIN" (strftime_Ymd date)
    = Ok jsd ->
  joined (plain_frames sb) cm "Campaigns" "SB Campaign Name"
    (strftime_Ymd date) = Ok jsb ->
  summary jsp sp_metrics = Ok (o1, m1) ->
  summary jsb sb_metrics = Ok (o2, m2) ->
  summary jsd sp_metrics = Ok (o3, m3) ->
  exists r_sp r_sd r_sb s',
    process_files sp sd sb a c date s = (Ok (r_sp, r_sd, r_sb), s') /\
    heap s' !! r_sp = Some o1 /\
    heap s' !! r_sd = Some o3 /\
    heap s' !! r_sb = Some o2 /\
    log s' =
      log s ++ asin_messages sp ++ asin_messages sd ++ plain_messages sb
        ++ m1 ++ m2 ++ m3.
Proof.
  intros Ha Hc Jsp Jsd Jsb S1 S2 S3.
  apply joined_inv in Jsp as (csp & Csp & Msp).
  apply joined_inv in Jsd as (csd & Csd & Msd).
  apply joined_inv in Jsb as (csb & Csb & Msb).
  pose proof (lookup_lt_Some _ _ _ Ha) as La.
  pose proof (lookup_lt_Some _ _ _ Hc) as Lc.
  unfold process_files.
  rewrite (bind_ok _ _ _ _ _ (mapM_alloc_run _ _ read_file_asin_run sp s)).
  erewrite bind_ok;
    [| eapply pd_concat_ok; [apply seq_points_to_map_last | exact Csp]].
  cbn [heap log].
  rewrite (bind_ok _ _ _ _ _ (mapM_alloc_run _ _ read_file_asin_run sd _)).
  rewrite (bind_ok _ _ _ _ _ (mapM_alloc_run _ _ read_file_run sb _)).
  cbn [heap log].
  erewrite bind_ok;
    [| eapply pd_concat_ok; [apply seq_points_to_map | exact Csd]].
  cbn [heap log].
  erewrite bind_ok; [| eapply pd_concat_ok; [| exact Csb]].
  2:{ cbn [heap]. apply (seq_points_to_map (fun f => fst (loaded f))). }
  cbn [heap log forM_].
  erewrite bind_ok.
  2:{ erewrite bind_ok; [| apply setitem_run; pt].
      erewrite bind_ok; [| apply setitem_run; pt].
      erewrite bind_ok; [| apply setitem_run; pt].
      reflexivity. }
  cbn [heap log].
  erewrite bind_ok; [| eapply pd_merge_ok; [pt | pt | exact Msp]].
  erewrite bind_ok; [| eapply pd_merge_ok; [pt | pt | exact Msb]].
  erewrite bind_ok; [| eapply pd_merge_ok; [pt | pt | exact Msd]].
  erewrite bind_ok; [| eapply aggregate_data_ok; [pt | exact S1]].
  erewrite bind_ok; [| eapply aggregate_data_ok; [pt | exact S2]].
  erewrite bind_ok; [| eapply aggregate_data_ok; [pt | exact S3]].
  unfold ret. do 4 eexists.
  split; [reflexivity |]. cbn [heap log].
  split; [pt |]. split; [pt |]. split; [pt |].
  unfold asin_messages, plain_messages. now rewrite <- !app_assoc.
Qed.

End Run.

(** *** What a run leaves untouched *)

Section Frame.

Variable h0 : list DataFrame.

Lemma safe_ret {A} (Q : A -> Prop) a : Q a -> safe h0 Q (ret a).
Proof. intros H s Hs. split; [exact Hs |]. simpl. intros ? [= <-]. exact H. Qed.

Lemma safe_bind {A B} (P : A -> Prop) (Q : B -> Prop) m k :
  safe h0 P m -> (forall a, P a -> safe h0 Q (k a)) -> safe h0 Q (bind m k).
Proof.
  intros Hm Hk s Hs. unfold bind. destruct (Hm s Hs) as [H1 H2].
  destruct (m s) as [[a | e] s']; simpl in *.
  - apply Hk; [now apply H2 | exact H1].
  - split; [exact H1 | discriminate].
Qed.

Lemma safe_weaken {A} (P Q : A -> Prop) m :
  safe h0 P m -> (forall a, P a -> Q a) -> safe h0 Q m.
Proof. intros Hm H s Hs. destruct (Hm s Hs). split; auto. Qed.

Lemma safe_lift {A} (o : outcome A) : safe h0 (fun _ => True) (lift o).
Proof. intros s Hs. split; [exact Hs | trivial]. Qed.

Lemma safe_emit m : safe h0 (fun _ => True) (emit m).
Proof. intros s Hs. split; [exact Hs | trivial]. Qed.

Lemma safe_load r : safe h0 (fun _ => True) (load r).
Proof. intros s Hs. split; [exact Hs | trivial]. Qed.

Lemma safe_alloc d : safe h0 (fresh h0) (alloc d).
Proof.
  intros s [ext Hs]. simpl. split.
  - exists (ext ++ [d]). now rewrite Hs, app_assoc.
  - intros a [= <-]. unfold fresh. rewrite Hs, length_app. lia.
Qed.

Lemma safe_store r d : fresh h0 r -> safe h0 (fun _ => True) (store r d).
Proof.
  intros Hr s [ext Hs]. simpl. split; [| trivial].
  exists (<[r - length h0 := d]> ext). rewrite Hs.
  now apply insert_app_r_alt.
Qed.

Lemma safe_mapM {A B} (Q : B -> Prop) (f : A -> M B) l :
  (forall x, safe h0 Q (f x)) -> safe h0 (List.Forall Q) (mapM f l).
Proof.
  intros Hf. induction l as [| x l IH]; simpl.
  - now apply safe_ret.
  - eapply safe_bind; [apply Hf |]. intros y Hy.
    eapply safe_bind; [apply IH |]. intros ys Hys.
    apply safe_ret. now constructor.
Qed.

Lemma safe_read_file f : safe h0 (fresh h0) (read_file f).
Proof.
  unfold read_file, pd_read_excel, pd_read_csv, pd_DataFrame.
  destruct (endswith _ ".xlsx"); [apply safe_alloc |].
  destruct (endswith _ ".csv"); [apply safe_alloc |].
  eapply safe_bind; [apply safe_emit |]. intros _ _. apply safe_alloc.
Qed.

Lemma safe_rename_inplace r d :
  fresh h0 r -> safe h0 (fun _ => True) (rename_inplace r d).
Proof.
  intros Hr. eapply safe_bind; [apply safe_load |]. intros v _.
  now apply safe_store.
Qed.

Lemma safe_read_file_asin f : safe h0 (fresh h0) (read_file_asin f).
Proof.
  assert (Hrest : forall k : ref -> M ref,
            (forall r, fresh h0 r -> safe h0 (fresh h0) (k r)) ->
            safe h0 (fresh h0) (bind (alloc (table f)) k)).
  { intros k Hk. eapply safe_bind; [apply safe_alloc | exact Hk]. }
  unfold read_file_asin, pd_read_excel, pd_read_csv, pd_DataFrame.
  assert (Hnorm : forall r, fresh h0 r ->
    safe h0 (fresh h0)
      (bind (load r) (fun v =>
         bind (if all_in_columns rename_dict_14_day v
               then rename_inplace r rename_dict_14_day
               else if all_in_columns rename_dict_7_day v
               then rename_inplace r rename_dict_7_day
               else emit (st_warning
                 "Expected columns not found. Returning the original DataFrame."))
           (fun _ => ret r)))).
  { intros r Hr. eapply safe_bind; [apply safe_load |]. intros v _.
    eapply safe_bind with (P := fun _ => True).
    - destruct (all_in_columns rename_dict_14_day v);
        [now apply safe_rename_inplace |].
      destruct (all_in_columns rename_dict_7_day v);
        [now apply safe_rename_inplace | apply safe_emit].
    - intros _ _. now apply safe_ret. }
  destruct (endswith _ ".xlsx"); [now apply Hrest |].
  destruct (endswith _ ".csv"); [now apply Hrest |].
  eapply safe_bind; [apply safe_emit |]. intros _ _. apply safe_alloc.
Qed.

Lemma safe_pd_concat refs : safe h0 (fresh h0) (pd_concat refs).
Proof.
  unfold pd_concat.
  eapply safe_bind; [apply (safe_mapM (fun _ => True)); intros; apply safe_load |].
  intros vs _. eapply safe_bind; [apply safe_lift |]. intros v _.
  apply safe_alloc.
Qed.

Lemma safe_setitem r c v : fresh h0 r -> safe h0 (fun _ => True) (setitem r c v).
Proof.
  intros Hr. eapply safe_bind; [apply safe_load |]. intros d _.
  now apply safe_store.
Qed.

Lemma safe_pd_merge a b lk rk : safe h0 (fresh h0) (pd_merge a b lk rk).
Proof.
  unfold pd_merge.
  eapply safe_bind; [apply safe_load |]. intros l _.
  eapply safe_bind; [apply safe_load |]. intros r _.
  eapply safe_bind; [apply safe_lift |]. intros v _. apply safe_alloc.
Qed.

Lemma safe_aggregate_data r agg : safe h0 (fresh h0) (aggregate_data r agg).
Proof.
  unfold aggregate_data, pd_DataFrame.
  eapply safe_bind; [apply safe_load |]. intros v _.
  destruct (all_in_columns agg v).
  - eapply safe_bind; [apply safe_lift |]. intros g _. apply safe_alloc.
  - eapply safe_bind; [apply safe_emit |]. intros _ _. apply safe_alloc.
Qed.

Lemma safe_process_files sp sd sb a c date :
  safe h0 (fun _ => True) (process_files sp sd sb a c date).
Proof.
  unfold process_files.
  eapply safe_bind; [apply safe_mapM, safe_read_file_asin |]. intros sp_dfs _.
  eapply safe_bind; [apply safe_pd_concat |]. intros r_sp Hsp.
  eapply safe_bind; [apply safe_mapM, safe_read_file_asin |]. intros sd_dfs _.
  eapply safe_bind; [apply safe_mapM, safe_read_file |]. intros sb_dfs _.
  eapply safe_bind; [apply safe_pd_concat |]. intros r_sd Hsd.
  eapply safe_bind; [apply safe_pd_concat |]. intros r_sb Hsb.
  eapply safe_bind with (P := fun _ => True).
  { simpl. repeat (eapply safe_bind; [now apply safe_setitem | intros _ _]).
    now apply safe_ret. }
  intros _ _.
  do 3 (eapply safe_bind; [apply safe_pd_merge | intros ? _]).
  do 3 (eapply safe_bind; [apply safe_aggregate_data | intros ? _]).
  now apply safe_ret.
Qed.

Lemma keeps_lookup s r : keeps h0 s -> r < length h0 -> heap s !! r = h0 !! r.
Proof. intros [ext ->] Hr. now apply lookup_app_l. Qed.

End Frame.


(* ================================================================== *)
(** ** The loaders *)
(* ================================================================== *)

(** C7.  A file whose name ends in neither [.xlsx] nor [.csv]: both
    [read_file] and [read_file_asin] emit the unsupported-format error
    and return a new table with no columns and no rows; neither raises,
    and nothing else is changed. *)
Theorem unsupported_format_gives_empty_table (f : uploaded_file) (s : state) :
  endswith (name f) ".xlsx" = false ->
  endswith (name f) ".csv" = false ->
  read_file f s =
    (Ok (length (heap s)),
     mkState (heap s ++ [mkDataFrame [] []])
       (log s ++ [st_error "Unsupported file format"])) /\
  read_file_asin f s =
    (Ok (length (heap s)),
     mkState (heap s ++ [mkDataFrame [] []])
       (log s ++ [st_error "Unsupported file format"])).
Proof.
  intros H1 H2. rewrite read_file_run, read_file_asin_run.
  unfold loaded, loaded_asin, supported. rewrite H1, H2. now split.
Qed.

Lemma unsupported_format_witness :
  (endswith "notes.txt" ".xlsx" = false /\
   endswith "notes.txt" ".csv" = false) /\
  read_file Samples.notes_txt Samples.start =
    (Ok 2%nat,
     mkState [Samples.asin_map; Samples.campaign_map; mkDataFrame [] []]
       [st_error "Unsupported file format"]) /\
  read_file_asin Samples.notes_txt Samples.start =
    (Ok 2%nat,
     mkState [Samples.asin_map; Samples.campaign_map; mkDataFrame [] []]
       [st_error "Unsupported file format"]).
Proof.
  split; [split; reflexivity |].
  apply (unsupported_format_gives_empty_table Samples.notes_txt Samples.start);
    reflexivity.
Defined.

Lemma rename_14_keeps_7_day_label c :
  In c (map fst rename_dict_7_day) -> rename_label rename_dict_14_day c = c.
Proof.
  simpl. intros [<- | [<- | [<- | []]]]; reflexivity.
Qed.

(** C5.  A supported file whose table carries the three 14-day labels and
    the three 7-day labels: [read_file_asin] renames with the 14-day map
    only.  The table it returns is the 14-day renaming of the file's
    table, every 7-day label stays where it was under its own name, the
    rows are the file's rows, and no message is emitted. *)
Theorem both_windows_rename_14_day_only (f : uploaded_file) (s : state) :
  supported f = true ->
  all_in_columns rename_dict_14_day (table f) = true ->
  all_in_columns rename_dict_7_day (table f) = true ->
  read_file_asin f s =
    (Ok (length (heap s)),
     mkState (heap s ++ [rename_columns rename_dict_14_day (table f)])
       (log s)) /\
  (forall i c,
     In c (map fst rename_dict_7_day) ->
     columns (table f) !! i = Some c ->
     columns (rename_columns rename_dict_14_day (table f)) !! i = Some c) /\
  rows (rename_columns rename_dict_14_day (table f)) = rows (table f).
Proof.
  intros Hs H14 H7. split; [| split; [| reflexivity]].
  - rewrite read_file_asin_run. unfold loaded_asin, normalize.
    rewrite Hs, H14. cbn [fst snd]. now rewrite app_nil_r.
  - intros i c Hc Hi. cbn [rename_columns columns].
    change (map (rename_label rename_dict_14_day) (columns (table f)))
      with (rename_label rename_dict_14_day <$> columns (table f)).
    rewrite list_lookup_fmap, Hi. simpl.
    now rewrite rename_14_keeps_7_day_label.
Qed.

Lemma both_windows_witness :
  (supported Samples.both_windows = true /\
   all_in_columns rename_dict_14_day (table Samples.both_windows) = true /\
   all_in_columns rename_dict_7_day (table Samples.both_windows) = true) /\
  read_file_asin Samples.both_windows Samples.start =
    (Ok 2%nat,
     mkState
       [ Samples.asin_map; Samples.campaign_map;
         mkDataFrame
           [ "Total Sales"; "Total Orders"; "Total Units";
             "7 Day Total Sales (₹)"; "7 Day Total Units (#)";
             "7 Day Total Orders (#)" ]
           [ [Num 14; Num 2; Num 3; Num 7; Num 1; Num 1] ] ]
       []).
Proof.
  split; [repeat split |].
  apply (both_windows_rename_14_day_only Samples.both_windows Samples.start);
    reflexivity.
Defined.

(** C6.  A supported file whose table lacks some 14-day label and lacks
    some 7-day label (a table already under the canonical names is one):
    [read_file_asin] returns the table as it is, labels and rows, emits
    the expected-columns-not-found warning and does not raise. *)
Theorem no_source_window_leaves_table_unchanged
    (f : uploaded_file) (s : state) :
  supported f = true ->
  all_in_columns rename_dict_14_day (table f) = false ->
  all_in_columns rename_dict_7_day (table f) = false ->
  read_file_asin f s =
    (Ok (length (heap s)),
     mkState (heap s ++ [table f])
       (log s ++
        [st_warning
           "Expected columns not found. Returning the original DataFrame."])).
Proof.
  intros Hs H14 H7. rewrite read_file_asin_run.
  unfold loaded_asin, normalize. now rewrite Hs, H14, H7.
Qed.

Lemma no_source_window_witness :
  (supported Samples.canonical = true /\
   all_in_columns rename_dict_14_day (table Samples.canonical) = false /\
   all_in_columns rename_dict_7_day (table Samples.canonical) = false) /\
  read_file_asin Samples.canonical Samples.start =
    (Ok 2%nat,
     mkState
       [Samples.asin_map; Samples.campaign_map; table Samples.canonical]
       [st_warning
          "Expected columns not found. Returning the original DataFrame."]).
Proof.
  split; [repeat split |].
  apply (no_source_window_leaves_table_unchanged
           Samples.canonical Samples.start); reflexivity.
Defined.

Lemma renamed_labels_14 cols k :
  In k (map fst rename_dict_14_day) ->
  inb k (map (rename_label rename_dict_14_day) cols) = false.
Proof.
  intros Hk. apply inb_false. intros Hin.
  apply in_map_iff in Hin as (c & Hc & _).
  unfold rename_label, rename_dict_14_day, rename_dict_7_day in Hc, Hk.
  cbn [dict_get] in Hc. cbn [In map fst] in Hk.
  repeat match type of Hc with
         | context [String.eqb ?a c] => destruct (String.eqb_spec a c)
         end;
    subst; intuition (try discriminate; try congruence).
Qed.

Lemma renamed_labels_7 cols k :
  In k (map fst rename_dict_7_day) ->
  inb k (map (rename_label rename_dict_7_day) cols) = false.
Proof.
  intros Hk. apply inb_false. intros Hin.
  apply in_map_iff in Hin as (c & Hc & _).
  unfold rename_label, rename_dict_14_day, rename_dict_7_day in Hc, Hk.
  cbn [dict_get] in Hc. cbn [In map fst] in Hk.
  repeat match type of Hc with
         | context [String.eqb ?a c] => destruct (String.eqb_spec a c)
         end;
    subst; intuition (try discriminate; try congruence).
Qed.

Lemma rename_label_others (d : list (string * string)) k cols :
  (forall c, rename_label d c = k -> c = k) ->
  rename_label d k = k ->
  inb k (map (rename_label d) cols) = inb k cols.
Proof.
  intros H1 H2. destruct (inb k cols) eqn:E.
  - apply inb_In. apply inb_In in E. apply in_map_iff. eauto.
  - apply inb_false. apply inb_false in E. intros Hin. apply E.
    apply in_map_iff in Hin as (c & Hc & Hin). now rewrite <- (H1 c Hc).
Qed.

Lemma rename_14_only_7_day_label c k :
  In k (map fst rename_dict_7_day) ->
  rename_label rename_dict_14_day c = k -> c = k.
Proof.
  intros Hk Hc. unfold rename_label, rename_dict_14_day, rename_dict_7_day in Hc, Hk.
  cbn [dict_get] in Hc. cbn [In map fst] in Hk.
  repeat match type of Hc with
         | context [String.eqb ?a c] => destruct (String.eqb_spec a c)
         end;
    subst; intuition (try discriminate; try congruence).
Qed.

Lemma rename_7_only_14_day_label c k :
  In k (map fst rename_dict_14_day) ->
  rename_label rename_dict_7_day c = k -> c = k.
Proof.
  intros Hk Hc. unfold rename_label, rename_dict_14_day, rename_dict_7_day in Hc, Hk.
  cbn [dict_get] in Hc. cbn [In map fst] in Hk.
  repeat match type of Hc with
         | context [String.eqb ?a c] => destruct (String.eqb_spec a c)
         end;
    subst; intuition (try discriminate; try congruence).
Qed.

Lemma rename_7_keeps_14_day_label c :
  In c (map fst rename_dict_14_day) -> rename_label rename_dict_7_day c = c.
Proof.
  simpl. intros [<- | [<- | [<- | []]]]; reflexivity.
Qed.


Lemma all_14_after_rename_14 v :
  all_in_columns rename_dict_14_day (rename_columns rename_dict_14_day v)
  = false.
Proof.
  unfold all_in_columns. cbn [map fst rename_dict_14_day forallb].
  cbn [rename_columns columns].
  rewrite renamed_labels_14; [reflexivity | now left].
Qed.

Lemma all_7_after_rename_7 v :
  all_in_columns rename_dict_7_day (rename_columns rename_dict_7_day v)
  = false.
Proof.
  unfold all_in_columns. cbn [map fst rename_dict_7_day forallb].
  cbn [rename_columns columns].
  rewrite renamed_labels_7; [reflexivity | now left].
Qed.

Lemma all_7_after_rename_14 v :
  all_in_columns rename_dict_7_day (rename_columns rename_dict_14_day v)
  = all_in_columns rename_dict_7_day v.
Proof.
  unfold all_in_columns. cbn [rename_columns columns].
  cbn [map fst rename_dict_7_day forallb].
  rewrite !(rename_label_others rename_dict_14_day);
    try (intros c; apply rename_14_only_7_day_label);
    try (apply rename_14_keeps_7_day_label);
    cbn [map fst rename_dict_7_day In]; tauto.
Qed.

Lemma all_14_after_rename_7 v :
  all_in_columns rename_dict_14_day (rename_columns rename_dict_7_day v)
  = all_in_columns rename_dict_14_day v.
Proof.
  unfold all_in_columns. cbn [rename_columns columns].
  cbn [map fst rename_dict_14_day forallb].
  rewrite !(rename_label_others rename_dict_7_day);
    try (intros c; apply rename_7_only_14_day_label);
    try (apply rename_7_keeps_14_day_label);
    cbn [map fst rename_dict_14_day In]; tauto.
Qed.

(** Re-applying the renaming step after it renamed one window (the
    other one not being complete) changes nothing and warns. *)
Lemma normalize_again_after_rename (v : DataFrame) :
  all_in_columns rename_dict_14_day v = false \/
  all_in_columns rename_dict_7_day v = false ->
  normalize (fst (normalize v)) = (fst (normalize v), [warning_not_found]).
Proof.
  intros H. unfold normalize at 2 3.
  destruct (all_in_columns rename_dict_14_day v) eqn:H14;
    [| destruct (all_in_columns rename_dict_7_day v) eqn:H7];
    cbn [fst]; unfold normalize.
  - destruct H as [H | H]; [discriminate |].
    now rewrite all_14_after_rename_14, all_7_after_rename_14, H.
  - now rewrite all_14_after_rename_7, H14, all_7_after_rename_7.
  - now rewrite H14, H7.
Qed.

(* ================================================================== *)
(** ** Concatenation, join and aggregation *)
(* ================================================================== *)



(** The end-to-end example: labels {A,B} and {A,C} give {A,B,C}. *)
Example concat_AB_AC :
  pd_concat [0; 1]%nat (mkState [Samples.frame_AB; Samples.frame_AC] []) =
    (Ok 2%nat,
     mkState
       [ Samples.frame_AB; Samples.frame_AC;
         mkDataFrame ["A"; "B"; "C"]
           [ [Num 1; Num 2; NA]; [Num 3; NA; Num 4] ] ]
       []).
Proof. reflexivity. Qed.


(** The summary of a table does not depend on a row whose sub-category
    is missing. *)
Lemma summary_drops_row cols agg pre m post :
  row_get cols m "Sub-Category" = NA ->
  summary (mkDataFrame cols (pre ++ m :: post)) agg =
  summary (mkDataFrame cols (pre ++ post)) agg.
Proof.
  intros H. unfold summary, all_in_columns. cbn [columns].
  rewrite (groupby_agg_drops_row cols group_labels agg pre m post);
    [reflexivity |].
  unfold group_labels, row_key, has_na. simpl. rewrite H. simpl.
  apply orb_true_r.
Qed.

Lemma summary_no_null_key j agg out msgs :
  summary j agg = Ok (out, msgs) ->
  forall k, In k (summary_keys out) -> has_na k = false.
Proof.
  unfold summary. destruct (all_in_columns agg j).
  - destruct (groupby_agg j group_labels agg) as [g |] eqn:E; simpl;
      [| discriminate].
    intros [= <- <-]. now apply (groupby_agg_no_null_key j agg).
  - intros [= <- <-] k [].
Qed.

(** C1, as the code has it.  Take a left join of the script that returns
    (the two key labels differ, as at its three calls) and a report row
    whose key has no match in the mapping.  The row gives exactly one row
    of the joined table, between the rows of the report rows before it
    and after it: the report row followed by one missing cell per mapping
    column, so its [Sub-Category] is missing.  The summary is the one of
    the joined table without that row, and no row of a summary has a
    missing cell in its key: the group-by leaves the row out. *)
Theorem unmatched_row_joined_once_then_left_out
    (left right : DataFrame) (lk rk : string) (joined_table : DataFrame)
    (pre : list (list cell)) (l : list cell) (post : list (list cell)) :
  lk <> rk ->
  merge_left left right lk rk = Ok joined_table ->
  wf_frame left ->
  rows left = pre ++ l :: post ->
  matches right rk (row_get (columns left) l lk) = [] ->
  inb "Sub-Category" (columns left) = false ->
  rows joined_table =
    join_rows (columns left) right lk rk pre
    ++ [l ++ repeat NA (length (columns right))]
    ++ join_rows (columns left) right lk rk post /\
  row_get (columns joined_table)
    (l ++ repeat NA (length (columns right))) "Sub-Category" = NA /\
  (forall agg,
     summary joined_table agg =
     summary
       (mkDataFrame (columns joined_table)
          (join_rows (columns left) right lk rk pre
           ++ join_rows (columns left) right lk rk post)) agg) /\
  (forall agg out msgs,
     summary joined_table agg = Ok (out, msgs) ->
     forall k, In k (summary_keys out) -> has_na k = false).
Proof.
  intros _ Hj Hwf Hrows Hno Hsub.
  apply merge_left_inv in Hj as (ll & rl & Hm & ->).
  assert (Hlen : length l = length (columns left)).
  { unfold wf_frame in Hwf. rewrite Hrows in Hwf.
    apply List.Forall_app in Hwf as [_ Hwf]. now inversion Hwf. }
  assert (Hna : row_get (ll ++ rl)
                  (l ++ repeat NA (length (columns right))) "Sub-Category"
                = NA).
  { apply merge_labels_inv in Hm as [-> ->].
    rewrite row_get_app_r.
    - apply row_get_repeat_NA.
    - now rewrite length_map.
    - apply suffix_keeps_sub_category_out. now apply inb_false. }
  assert (Hsplit : join_rows (columns left) right lk rk (rows left) =
            join_rows (columns left) right lk rk pre
            ++ [l ++ repeat NA (length (columns right))]
            ++ join_rows (columns left) right lk rk post).
  { rewrite Hrows, join_rows_app. f_equal.
    change (l :: post) with ([l] ++ post). rewrite join_rows_app. f_equal.
    unfold join_rows. simpl. unfold join_row. rewrite Hno. reflexivity. }
  cbn [columns rows]. rewrite Hsplit.
  split; [reflexivity |]. split; [exact Hna |]. split.
  - intros agg. now apply summary_drops_row.
  - intros agg out msgs. apply summary_no_null_key.
Qed.

Lemma unmatched_row_witness :
  matches Samples.asin_map "ASIN" (Str "B999") = [] /\
  exists joined_table,
    merge_left Samples.stamped_sp Samples.asin_map "Advertised ASIN" "ASIN"
      = Ok joined_table /\
    rows joined_table =
      [ [Str "B001"; Num 2; Num 3; Num 100; Num 10; Str "2024-01-01";
         Str "B001"; Str "Toys"] ]
      ++ [ [Str "B999"; Num 1; Num 1; Num 9; Num 2; Str "2024-01-01"]
           ++ [NA; NA] ]
      ++ [ [Str "B002"; Num 1; Num 1; Num 50; Num 5; Str "2024-01-01";
            Str "B002"; Str "Books"] ] /\
    row_get (columns joined_table)
      ([Str "B999"; Num 1; Num 1; Num 9; Num 2; Str "2024-01-01"]
       ++ [NA; NA]) "Sub-Category" = NA /\
    (forall agg,
       summary joined_table agg =
       summary
         (mkDataFrame (columns joined_table)
            ([ [Str "B001"; Num 2; Num 3; Num 100; Num 10; Str "2024-01-01";
                Str "B001"; Str "Toys"] ]
             ++ [ [Str "B002"; Num 1; Num 1; Num 50; Num 5; Str "2024-01-01";
                   Str "B002"; Str "Books"] ])) agg) /\
    (forall agg out msgs,
       summary joined_table agg = Ok (out, msgs) ->
       forall k, In k (summary_keys out) -> has_na k = false).
Proof.
  split; [reflexivity |].
  exists (mkDataFrame
            (columns Samples.stamped_sp ++ columns Samples.asin_map)
            (join_rows (columns Samples.stamped_sp) Samples.asin_map
               "Advertised ASIN" "ASIN" (rows Samples.stamped_sp))).
  split; [reflexivity |].
  apply (unmatched_row_joined_once_then_left_out
           Samples.stamped_sp Samples.asin_map "Advertised ASIN" "ASIN"
           (mkDataFrame
              (columns Samples.stamped_sp ++ columns Samples.asin_map)
              (join_rows (columns Samples.stamped_sp) Samples.asin_map
                 "Advertised ASIN" "ASIN" (rows Samples.stamped_sp)))
           [ [Str "B001"; Num 2; Num 3; Num 100; Num 10; Str "2024-01-01"] ]
           [Str "B999"; Num 1; Num 1; Num 9; Num 2; Str "2024-01-01"]
           [ [Str "B002"; Num 1; Num 1; Num 50; Num 5; Str "2024-01-01"] ]);
    [discriminate | reflexivity | repeat constructor | reflexivity
    | reflexivity | reflexivity].
Defined.

(** C1 as stated fails.  The SP report [sp_unlisted] has one row, whose
    ASIN the mapping does not list.  The joined SP table (object 8 of the
    run) holds the row with a missing [Sub-Category]; the SP summary the
    run returns (object 11) has no row at all, so no null-category
    bucket. *)
Lemma unmatched_row_missing_from_summary :
  fst (process_files [Samples.sp_unlisted] [Samples.sd_xlsx] [Samples.sb_csv]
         0%nat 1%nat Samples.new_year Samples.start)
    = Ok (11, 13, 12)%nat /\
  heap (snd (process_files [Samples.sp_unlisted] [Samples.sd_xlsx]
               [Samples.sb_csv] 0%nat 1%nat Samples.new_year Samples.start))
    !! 8%nat
    = Some (mkDataFrame
              [ "Advertised ASIN"; "Total Sales"; "Total Orders";
                "Total Units"; "Spend"; "Selected Date"; "ASIN";
                "Sub-Category" ]
              [ [Str "B999"; Num 9; Num 1; Num 1; Num 2; Str "2024-01-01";
                 NA; NA] ]) /\
  heap (snd (process_files [Samples.sp_unlisted] [Samples.sd_xlsx]
               [Samples.sb_csv] 0%nat 1%nat Samples.new_year Samples.start))
    !! 11%nat
    = Some (mkDataFrame
              [ "Selected Date"; "Sub-Category"; "Total Orders";
                "Total Units"; "Total Sales"; "Spend" ]
              []).
Proof. repeat split; vm_compute; reflexivity. Qed.




(** The grouping example: three rows, two of them under the same key. *)
Example aggregation_of_orders_table :
  aggregate_data 0%nat [("orders", AggSum)]
    (mkState [Samples.orders_table] []) =
    (Ok 1%nat,
     mkState
       [ Samples.orders_table;
         mkDataFrame ["Selected Date"; "Sub-Category"; "orders"]
           [ [Str "2024-01-01"; Str "A"; Num 3];
             [Str "2024-01-01"; Str "B"; Num 5] ] ]
       []).
Proof. reflexivity. Qed.

(** A text cell among the numbers of a metric: the sum of the group
    raises. *)
Example text_metric_cell_raises :
  aggregate_data 0%nat [("orders", AggSum)]
    (mkState
       [ mkDataFrame ["Selected Date"; "Sub-Category"; "orders"]
           [ [Str "2024-01-01"; Str "A"; Num 1];
             [Str "2024-01-01"; Str "A"; Str "two"] ] ] []) =
    (Raise TypeError,
     mkState
       [ mkDataFrame ["Selected Date"; "Sub-Category"; "orders"]
           [ [Str "2024-01-01"; Str "A"; Num 1];
             [Str "2024-01-01"; Str "A"; Str "two"] ] ] []).
Proof. reflexivity. Qed.


(* ================================================================== *)
(** ** The whole run *)
(* ================================================================== *)

Lemma summary_missing j agg :
  all_in_columns agg j = false ->
  summary j agg = Ok (empty_frame, [missing_for_aggregation]).
Proof. intros H. unfold summary. now rewrite H. Qed.

(** C2.  A run of [process_files] whose three joins go through and whose
    three aggregations return: the references it returns hold the three
    summaries, each computed from its own joined table alone.  Where a
    joined table lacks one of its metric labels, the summary of that
    report type is the table without columns and rows and the error is
    emitted; the other two summaries are what they are without that.
    [aggregate_data] itself, on any table lacking one of the labels of
    the dict, emits the error and returns the empty table: it sums
    nothing. *)
Theorem missing_metric_gives_empty_summary
    (sp sd sb : list uploaded_file) (a c : ref) (d : date) (s : state)
    (am cm jsp jsd jsb o_sp o_sd o_sb : DataFrame)
    (m_sp m_sd m_sb : list message) :
  heap s !! a = Some am ->
  heap s !! c = Some cm ->
  joined (asin_frames sp) am "Advertised ASIN" "ASIN" (strftime_Ymd d)
    = Ok jsp ->
  joined (asin_frames sd) am "Advertised ASIN" "ASIN" (strftime_Ymd d)
    = Ok jsd ->
  joined (plain_frames sb) cm "Campaigns" "SB Campaign Name" (strftime_Ymd d)
    = Ok jsb ->
  summary jsp sp_metrics = Ok (o_sp, m_sp) ->
  summary jsd sp_metrics = Ok (o_sd, m_sd) ->
  summary jsb sb_metrics = Ok (o_sb, m_sb) ->
  (exists r_sp r_sd r_sb s',
     process_files sp sd sb a c d s = (Ok (r_sp, r_sd, r_sb), s') /\
     heap s' !! r_sp = Some o_sp /\
     heap s' !! r_sd = Some o_sd /\
     heap s' !! r_sb = Some o_sb /\
     log s' =
       log s ++ asin_messages sp ++ asin_messages sd ++ plain_messages sb
         ++ m_sp ++ m_sb ++ m_sd) /\
  (all_in_columns sp_metrics jsp = false ->
     o_sp = mkDataFrame [] [] /\
     m_sp = [st_error "One or more columns are missing for aggregation"]) /\
  (all_in_columns sp_metrics jsd = false ->
     o_sd = mkDataFrame [] [] /\
     m_sd = [st_error "One or more columns are missing for aggregation"]) /\
  (all_in_columns sb_metrics jsb = false ->
     o_sb = mkDataFrame [] [] /\
     m_sb = [st_error "One or more columns are missing for aggregation"]) /\
  (forall s0 r j agg,
     heap s0 !! r = Some j ->
     all_in_columns agg j = false ->
     aggregate_data r agg s0 =
       (Ok (length (heap s0)),
        mkState (heap s0 ++ [mkDataFrame [] []])
          (log s0 ++
           [st_error "One or more columns are missing for aggregation"]))).
Proof.
  intros Ha Hc Jsp Jsd Jsb Ssp Ssd Ssb.
  split; [| repeat split].
  - exact (process_files_run sp sd sb a c d s am cm jsp jsd jsb
             o_sp m_sp o_sb m_sb o_sd m_sd Ha Hc Jsp Jsd Jsb Ssp Ssb Ssd).
  - rewrite (summary_missing _ _ H) in Ssp. now injection Ssp as <- <-.
  - rewrite (summary_missing _ _ H) in Ssp. now injection Ssp as <- <-.
  - rewrite (summary_missing _ _ H) in Ssd. now injection Ssd as <- <-.
  - rewrite (summary_missing _ _ H) in Ssd. now injection Ssd as <- <-.
  - rewrite (summary_missing _ _ H) in Ssb. now injection Ssb as <- <-.
  - rewrite (summary_missing _ _ H) in Ssb. now injection Ssb as <- <-.
  - intros s0 r j agg Hj Hmiss.
    apply (aggregate_data_ok s0 r j agg _ _ Hj). now apply summary_missing.
Qed.

Lemma missing_metric_witness :
  all_in_columns sp_metrics
    (mkDataFrame
       [ "Advertised ASIN"; "Total Sales"; "Total Orders"; "Total Units";
         "Selected Date"; "ASIN"; "Sub-Category" ]
       [ [Str "B001"; Num 100; Num 2; Num 3; Str "2024-01-01"; Str "B001";
          Str "Toys"] ]) = false /\
  exists r_sp r_sd r_sb s',
    process_files [Samples.sp_no_spend] [Samples.sd_xlsx] [Samples.sb_csv]
      0%nat 1%nat Samples.new_year Samples.start
      = (Ok (r_sp, r_sd, r_sb), s') /\
    heap s' !! r_sp = Some (mkDataFrame [] []) /\
    heap s' !! r_sd =
      Some (mkDataFrame
              [ "Selected Date"; "Sub-Category"; "Total Orders";
                "Total Units"; "Total Sales"; "Spend" ]
              [ [Str "2024-01-01"; Str "Books"; Num 2; Num 2; Num 70;
                 Num 7] ]) /\
    heap s' !! r_sb =
      Some (mkDataFrame
              [ "Selected Date"; "Sub-Category"; "Orders"; "Clicks";
                "Sales(INR)"; "Spend(INR)" ]
              [ [Str "2024-01-01"; Str "Toys"; Num 4; Num 40; Num 400;
                 Num 20] ]) /\
    log s' = [st_error "One or more columns are missing for aggregation"].
Proof.
  split; [reflexivity |].
  exact (proj1
    (missing_metric_gives_empty_summary
       [Samples.sp_no_spend] [Samples.sd_xlsx] [Samples.sb_csv]
       0%nat 1%nat Samples.new_year Samples.start
       Samples.asin_map Samples.campaign_map
       (mkDataFrame
          [ "Advertised ASIN"; "Total Sales"; "Total Orders"; "Total Units";
            "Selected Date"; "ASIN"; "Sub-Category" ]
          [ [Str "B001"; Num 100; Num 2; Num 3; Str "2024-01-01"; Str "B001";
             Str "Toys"] ])
       (mkDataFrame
          [ "Advertised ASIN"; "Total Sales"; "Total Units"; "Total Orders";
            "Spend"; "Selected Date"; "ASIN"; "Sub-Category" ]
          [ [Str "B002"; Num 70; Num 2; Num 2; Num 7; Str "2024-01-01";
             Str "B002"; Str "Books"] ])
       (mkDataFrame
          [ "Campaigns"; "Orders"; "Clicks"; "Sales(INR)"; "Spend(INR)";
            "Selected Date"; "SB Campaign Name"; "Sub-Category" ]
          [ [Str "Summer"; Num 4; Num 40; Num 400; Num 20; Str "2024-01-01";
             Str "Summer"; Str "Toys"] ])
       (mkDataFrame [] [])
       (mkDataFrame
          [ "Selected Date"; "Sub-Category"; "Total Orders"; "Total Units";
            "Total Sales"; "Spend" ]
          [ [Str "2024-01-01"; Str "Books"; Num 2; Num 2; Num 70; Num 7] ])
       (mkDataFrame
          [ "Selected Date"; "Sub-Category"; "Orders"; "Clicks";
            "Sales(INR)"; "Spend(INR)" ]
          [ [Str "2024-01-01"; Str "Toys"; Num 4; Num 40; Num 400; Num 20] ])
       [st_error "One or more columns are missing for aggregation"] [] []
       eq_refl eq_refl eq_refl eq_refl eq_refl eq_refl eq_refl eq_refl)).
Defined.

(** C10.  Whatever the files, the date and the outcome, a run of
    [process_files] leaves the two mapping tables it was given as they
    were: the objects behind the two references are the same tables,
    labels, rows and cells, after the run as before. *)
Theorem process_files_leaves_mappings_unchanged
    (sp sd sb : list uploaded_file) (asin_mapping campaign_mapping : ref)
    (d : date) (s : state) :
  asin_mapping < length (heap s) ->
  campaign_mapping < length (heap s) ->
  heap (snd (process_files sp sd sb asin_mapping campaign_mapping d s))
    !! asin_mapping = heap s !! asin_mapping /\
  heap (snd (process_files sp sd sb asin_mapping campaign_mapping d s))
    !! campaign_mapping = heap s !! campaign_mapping.
Proof.
  intros Ha Hc.
  assert (Hk : keeps (heap s)
                 (snd (process_files sp sd sb asin_mapping campaign_mapping
                         d s))).
  { apply (safe_process_files (heap s)). exists []. now rewrite app_nil_r. }
  split; now apply (keeps_lookup (heap s)).
Qed.

Lemma mappings_unchanged_witness :
  (0 < length (heap Samples.start) /\ 1 < length (heap Samples.start)) /\
  heap (snd (process_files [Samples.sp_csv] [Samples.sd_xlsx]
               [Samples.sb_csv] 0%nat 1%nat Samples.new_year Samples.start))
    !! 0%nat = Some Samples.asin_map /\
  heap (snd (process_files [Samples.sp_csv] [Samples.sd_xlsx]
               [Samples.sb_csv] 0%nat 1%nat Samples.new_year Samples.start))
    !! 1%nat = Some Samples.campaign_map.
Proof.
  split; [split; simpl; lia |].
  apply (process_files_leaves_mappings_unchanged
           [Samples.sp_csv] [Samples.sd_xlsx] [Samples.sb_csv]
           0%nat 1%nat Samples.new_year Samples.start); simpl; lia.
Defined.

(** C3: what the module-level code does.  With the button pressed and no
    SP file uploaded, [process_files] is called all the same: the run
    ends in the [ValueError] of [pd.concat] on an empty list, after the
    title and the loading of the two mappings; no warning is emitted and
    no download is offered.  With no SD file it is the same after the SP
    file has been read (the loader's warning is in the log).  The
    upload warning is emitted when the button is not pressed, whatever
    was uploaded. *)
Theorem process_pressed_without_files_raises :
  (forall SD_file SB_file asin_csv campaign_csv d s,
     script true [] SD_file SB_file asin_csv campaign_csv d s =
       (Raise (ValueError "No objects to concatenate"),
        mkState ((heap s ++ [asin_csv]) ++ [campaign_csv])
          (log s ++ [st_title "Data Processing and Upload"]))) /\
  script true [Samples.canonical] [] [Samples.sb_csv]
    Samples.asin_map Samples.campaign_map Samples.new_year (mkState [] []) =
    (Raise (ValueError "No objects to concatenate"),
     mkState
       [ Samples.asin_map; Samples.campaign_map; table Samples.canonical;
         table Samples.canonical; Samples.sb_table ]
       [ st_title "Data Processing and Upload";
         st_warning
           "Expected columns not found. Returning the original DataFrame." ])
  /\
  (forall SP_file SD_file SB_file asin_csv campaign_csv d s,
     script false SP_file SD_file SB_file asin_csv campaign_csv d s =
       (Ok tt,
        mkState ((heap s ++ [asin_csv]) ++ [campaign_csv])
          ((log s ++ [st_title "Data Processing and Upload"])
           ++ [st_warning "Please upload all required files (SP, SD, SB)."]))).
Proof.
  split; [| split]; reflexivity.
Qed.

(** C4: inputs on which the functions raise.  [process_files] with an
    empty list of SP files raises the [ValueError] of [pd.concat]; with
    a report in the SP slot that has no [Advertised ASIN] column it
    warns that the expected columns were not found, goes on and raises
    the [KeyError] of [pd.merge]; with one SP file of an unsupported name
    it emits the error, goes on with the empty table and raises the same
    [KeyError]; [aggregate_data] on a table that has the metric but no
    [Sub-Category] raises the [KeyError] of [groupby]. *)
Theorem functions_raise_on_degraded_inputs :
  (forall sd sb a c d s,
     process_files [] sd sb a c d s =
       (Raise (ValueError "No objects to concatenate"), s)) /\
  fst (process_files [Samples.sb_csv] [Samples.sd_xlsx] [Samples.sb_csv]
         0%nat 1%nat Samples.new_year Samples.start)
    = Raise (KeyError "Advertised ASIN") /\
  log (snd (process_files [Samples.sb_csv] [Samples.sd_xlsx]
              [Samples.sb_csv] 0%nat 1%nat Samples.new_year Samples.start))
    = [st_warning
         "Expected columns not found. Returning the original DataFrame."] /\
  fst (process_files [Samples.notes_txt] [Samples.sd_xlsx] [Samples.sb_csv]
         0%nat 1%nat Samples.new_year Samples.start)
    = Raise (KeyError "Advertised ASIN") /\
  log (snd (process_files [Samples.notes_txt] [Samples.sd_xlsx]
              [Samples.sb_csv] 0%nat 1%nat Samples.new_year Samples.start))
    = [st_error "Unsupported file format"] /\
  aggregate_data 0%nat [("orders", AggSum)]
    (mkState [Samples.orders_no_category] []) =
    (Raise (KeyError "Sub-Category"),
     mkState [Samples.orders_no_category] []).
Proof.
  repeat split; reflexivity.
Qed.

(* ================================================================== *)
(** ** File names *)
(* ================================================================== *)

Section Names.

Lemma substring_all s : substring 0 (String.length s) s = s.
Proof. induction s as [| a s IH]; simpl; [reflexivity | now rewrite IH]. Qed.

Lemma substring_skip p : forall s m,
  substring (String.length p) m (String.append p s) = substring 0 m s.
Proof. induction p as [| a p IH]; intros s m; simpl; [reflexivity | apply IH]. Qed.

Lemma length_append p s :
  String.length (String.append p s) = (String.length p + String.length s)%nat.
Proof. induction p as [| a p IH]; simpl; [reflexivity | now rewrite IH]. Qed.

Lemma substring_split s : forall k, (k <= String.length s)%nat ->
  s = String.append (substring 0 k s) (substring k (String.length s - k) s).
Proof.
  induction s as [| a s IH]; intros [| k] Hk; simpl in *.
  - reflexivity.
  - lia.
  - now rewrite substring_all.
  - f_equal. apply IH. lia.
Qed.

Lemma endswith_spec s suffix :
  endswith s suffix = true <-> exists p, s = String.append p suffix.
Proof.
  unfold endswith. rewrite andb_true_iff, Nat.leb_le, String.eqb_eq. split.
  - intros [Hle Hsub].
    set (k := (String.length s - String.length suffix)%nat) in *.
    exists (substring 0 k s).
    transitivity
      (String.append (substring 0 k s) (substring k (String.length s - k) s));
      [apply substring_split; lia |].
    f_equal. replace (String.length s - k)%nat with (String.length suffix)
      by lia.
    exact Hsub.
  - intros [p ->]. rewrite length_append. split; [lia |].
    replace (String.length p + String.length suffix - String.length suffix)%nat
      with (String.length p) by lia.
    rewrite substring_skip. apply substring_all.
Qed.

End Names.

(* ================================================================== *)
(** ** More on the loaders *)
(* ================================================================== *)

Lemma supported_spec f :
  supported f = true <->
  (exists p, name f = String.append p ".xlsx") \/
  (exists p, name f = String.append p ".csv").
Proof.
  unfold supported. rewrite orb_true_iff, !endswith_spec. reflexivity.
Qed.

(** X1.  The loaders go by the end of the file name, letter case
    included.  Either the name is some text followed by [.xlsx] or by
    [.csv], and then [read_file] returns the file's table and emits
    nothing and [read_file_asin] returns the table after the renaming
    step; or the name has neither ending, and then both emit the error
    and return the empty table. *)
Theorem loaders_go_by_the_end_of_the_name (f : uploaded_file) (s : state) :
  (((exists p, name f = String.append p ".xlsx") \/
    (exists p, name f = String.append p ".csv")) /\
   read_file f s =
     (Ok (length (heap s)), mkState (heap s ++ [table f]) (log s)) /\
   read_file_asin f s =
     (Ok (length (heap s)),
      mkState (heap s ++ [fst (normalize (table f))])
        (log s ++ snd (normalize (table f)))))
  \/
  (((forall p, name f <> String.append p ".xlsx") /\
    (forall p, name f <> String.append p ".csv")) /\
   read_file f s =
     (Ok (length (heap s)),
      mkState (heap s ++ [mkDataFrame [] []])
        (log s ++ [st_error "Unsupported file format"])) /\
   read_file_asin f s =
     (Ok (length (heap s)),
      mkState (heap s ++ [mkDataFrame [] []])
        (log s ++ [st_error "Unsupported file format"]))).
Proof.
  rewrite read_file_run, read_file_asin_run. unfold loaded, loaded_asin.
  destruct (supported f) eqn:E.
  - left. split; [now apply supported_spec |].
    cbn [fst snd]. now rewrite app_nil_r.
  - right. split; [| now split].
    split; intros p Hp;
      assert (H : supported f = true) by (apply supported_spec; eauto);
      congruence.
Qed.

Lemma all_in_columns_In {V} (d : list (string * V)) v k :
  all_in_columns d v = true -> In k (map fst d) -> In k (columns v).
Proof.
  unfold all_in_columns. rewrite forallb_forall. intros H Hk.
  apply inb_In. now apply H.
Qed.

Lemma renamed_label_In d cols k k' :
  In k cols -> rename_label d k = k' ->
  In k' (map (rename_label d) cols).
Proof. intros H <-. now apply in_map. Qed.

(** X2.  A supported file whose table has all three labels of one
    attribution window, 14-day or 7-day: the table [read_file_asin]
    returns has the three canonical labels [Total Sales], [Total Orders]
    and [Total Units], as many labels as the file's table and the same
    rows; no message is emitted. *)
Theorem renamed_table_has_canonical_labels (f : uploaded_file) (s : state) :
  supported f = true ->
  all_in_columns rename_dict_14_day (table f) = true \/
  all_in_columns rename_dict_7_day (table f) = true ->
  exists d,
    read_file_asin f s =
      (Ok (length (heap s)), mkState (heap s ++ [d]) (log s)) /\
    (forall c, In c canonical_labels -> In c (columns d)) /\
    length (columns d) = length (columns (table f)) /\
    rows d = rows (table f).
Proof.
  intros Hs Hw. rewrite read_file_asin_run. unfold loaded_asin, normalize.
  rewrite Hs.
  destruct (all_in_columns rename_dict_14_day (table f)) eqn:H14.
  - eexists. cbn [fst snd]. rewrite app_nil_r. split; [reflexivity |].
    cbn [rename_columns columns rows]. rewrite length_map.
    split; [| now split].
    intros c [<- | [<- | [<- | []]]].
    + apply (renamed_label_In _ _ "14 Day Total Sales (₹)");
        [apply (all_in_columns_In _ _ _ H14); simpl; tauto | reflexivity].
    + apply (renamed_label_In _ _ "14 Day Total Orders (#)");
        [apply (all_in_columns_In _ _ _ H14); simpl; tauto | reflexivity].
    + apply (renamed_label_In _ _ "14 Day Total Units (#)");
        [apply (all_in_columns_In _ _ _ H14); simpl; tauto | reflexivity].
  - destruct Hw as [Hw | H7]; [discriminate |]. rewrite H7.
    eexists. cbn [fst snd]. rewrite app_nil_r. split; [reflexivity |].
    cbn [rename_columns columns rows]. rewrite length_map.
    split; [| now split].
    intros c [<- | [<- | [<- | []]]].
    + apply (renamed_label_In _ _ "7 Day Total Sales (₹)");
        [apply (all_in_columns_In _ _ _ H7); simpl; tauto | reflexivity].
    + apply (renamed_label_In _ _ "7 Day Total Orders (#)");
        [apply (all_in_columns_In _ _ _ H7); simpl; tauto | reflexivity].
    + apply (renamed_label_In _ _ "7 Day Total Units (#)");
        [apply (all_in_columns_In _ _ _ H7); simpl; tauto | reflexivity].
Qed.

Lemma renamed_table_witness :
  (supported Samples.sd_xlsx = true /\
   all_in_columns rename_dict_7_day (table Samples.sd_xlsx) = true) /\
  exists d,
    read_file_asin Samples.sd_xlsx Samples.start =
      (Ok 2%nat,
       mkState ([Samples.asin_map; Samples.campaign_map] ++ [d]) []) /\
    (forall c, In c canonical_labels -> In c (columns d)) /\
    length (columns d) = 5%nat /\
    rows d = rows Samples.sd_table.
Proof.
  split; [split; reflexivity |].
  apply (renamed_table_has_canonical_labels Samples.sd_xlsx Samples.start);
    [reflexivity | right; reflexivity].
Defined.

(** X3.  Loading twice.  Take a supported file whose table does not have
    both windows complete, and a second supported file whose table is
    the one [read_file_asin] returned for the first.  Then
    [read_file_asin] returns the second file's table as it is and emits
    the expected-columns-not-found warning: a second pass renames
    nothing. *)
Theorem second_pass_renames_nothing
    (f f' : uploaded_file) (s0 s : state) :
  supported f = true ->
  supported f' = true ->
  all_in_columns rename_dict_14_day (table f) = false \/
  all_in_columns rename_dict_7_day (table f) = false ->
  heap (snd (read_file_asin f s0)) !! length (heap s0) = Some (table f') ->
  read_file_asin f' s =
    (Ok (length (heap s)),
     mkState (heap s ++ [table f'])
       (log s ++
        [st_warning
           "Expected columns not found. Returning the original DataFrame."])).
Proof.
  intros Hs Hs' Hw Hload.
  rewrite read_file_asin_run in Hload. cbn [snd heap] in Hload.
  rewrite lookup_alloc in Hload. injection Hload as Hload.
  unfold loaded_asin in Hload. rewrite Hs in Hload.
  rewrite read_file_asin_run. unfold loaded_asin. rewrite Hs', <- Hload.
  now rewrite (normalize_again_after_rename _ Hw).
Qed.

Lemma second_pass_witness :
  read_file_asin Samples.canonical Samples.start =
    (Ok 2%nat,
     mkState
       [Samples.asin_map; Samples.campaign_map; table Samples.canonical]
       [st_warning
          "Expected columns not found. Returning the original DataFrame."]).
Proof.
  apply (second_pass_renames_nothing
           (mkFile "first.csv"
              (mkDataFrame
                 [ "Advertised ASIN"; "14 Day Total Sales (₹)";
                   "14 Day Total Orders (#)"; "14 Day Total Units (#)";
                   "Spend" ]
                 [ [Str "B001"; Num 100; Num 2; Num 3; Num 10] ]))
           Samples.canonical (mkState [] []) Samples.start);
    [reflexivity | reflexivity | right; reflexivity | reflexivity].
Defined.

(* ================================================================== *)
(** ** More on the left join *)
(* ================================================================== *)

Section JoinRows.

Variable left_cols : list string.
Variable right : DataFrame.
Variables lk rk : string.

Lemma join_row_length k l :
  length (join_row right rk k l) = Nat.max 1 (match_count right rk k).
Proof.
  unfold join_row, match_count. destruct (matches right rk k) as [| m ms].
  - reflexivity.
  - rewrite length_map. simpl. lia.
Qed.

Lemma join_rows_length ls :
  length (join_rows left_cols right lk rk ls) = fan_out left_cols right lk rk ls.
Proof.
  unfold join_rows, fan_out. induction ls as [| l ls IH]; simpl; [reflexivity |].
  now rewrite length_app, join_row_length, IH.
Qed.

Lemma fan_out_ge ls : length ls <= fan_out left_cols right lk rk ls.
Proof.
  unfold fan_out. induction ls as [| l ls IH]; simpl; lia.
Qed.

Lemma join_row_left k l :
  Forall (fun m => take (length l) m = l) (join_row right rk k l).
Proof.
  unfold join_row. destruct (matches right rk k) as [| m ms].
  - repeat constructor. now rewrite take_app_length.
  - apply List.Forall_forall. intros x Hx.
    apply in_map_iff in Hx as (y & <- & _). now rewrite take_app_length.
Qed.

Lemma join_row_unique k l :
  match_count right rk k <= 1 ->
  exists x, join_row right rk k l = [l ++ x].
Proof.
  unfold join_row, match_count. destruct (matches right rk k) as [| m [| m' ms]];
    simpl; intros H; [eauto | eauto | lia].
Qed.

Lemma join_rows_unique ls :
  unique_keys right rk ->
  Forall (fun l => length l = length left_cols) ls ->
  map (take (length left_cols)) (join_rows left_cols right lk rk ls) = ls.
Proof.
  intros Hu Hwf. unfold join_rows.
  induction Hwf as [| l ls Hl _ IH]; simpl; [reflexivity |].
  destruct (join_row_unique (row_get left_cols l lk) l (Hu _)) as [x ->].
  simpl. rewrite IH, <- Hl. now rewrite take_app_length.
Qed.

End JoinRows.

(** X4.  The left join never drops a report row.  Whenever a left join
    of the script returns (the two key labels differ, as at its three
    calls), the joined table carries the report's labels, then the
    mapping's, a label of both with [_x] or [_y] appended, and it has, for
    every report row, one row per mapping row with the same key, or one
    row when there is none: at least as many rows as the report.  When no
    key occurs twice in the mapping, it has exactly the report's rows in
    the report's order, each followed by the mapping's cells. *)
Theorem left_join_keeps_every_report_row
    (left right : DataFrame) (lk rk : string) (joined_table : DataFrame) :
  lk <> rk ->
  merge_left left right lk rk = Ok joined_table ->
  wf_frame left ->
  columns joined_table =
    map (suffix_label (columns right) "_x") (columns left)
    ++ map (suffix_label (columns left) "_y") (columns right) /\
  length (rows joined_table) =
    fan_out (columns left) right lk rk (rows left) /\
  length (rows left) <= length (rows joined_table) /\
  (unique_keys right rk ->
     map (take (length (columns left))) (rows joined_table) = rows left).
Proof.
  intros _ Hj Hwf.
  apply merge_left_inv in Hj as (ll & rl & Hm & ->).
  apply merge_labels_inv in Hm as [-> ->].
  cbn [columns rows]. split; [reflexivity |].
  rewrite join_rows_length. split; [reflexivity |].
  split; [apply fan_out_ge |].
  intros Hu. now apply join_rows_unique.
Qed.

Lemma left_join_rows_witness :
  exists joined_table,
    merge_left Samples.stamped_sp Samples.asin_map "Advertised ASIN" "ASIN"
      = Ok joined_table /\
    columns joined_table =
      columns Samples.stamped_sp ++ columns Samples.asin_map /\
    length (rows joined_table) = 3%nat /\
    (3 <= length (rows joined_table))%nat /\
    (unique_keys Samples.asin_map "ASIN" ->
       map (take 6) (rows joined_table) = rows Samples.stamped_sp).
Proof.
  exists (mkDataFrame
            (columns Samples.stamped_sp ++ columns Samples.asin_map)
            (join_rows (columns Samples.stamped_sp) Samples.asin_map
               "Advertised ASIN" "ASIN" (rows Samples.stamped_sp))).
  split; [reflexivity |].
  apply (left_join_keeps_every_report_row
           Samples.stamped_sp Samples.asin_map "Advertised ASIN" "ASIN");
    [discriminate | reflexivity | repeat constructor].
Defined.





(* ================================================================== *)
(** ** More on the aggregation *)
(* ================================================================== *)

Lemma count_label_absent c l : inb c l = false -> count_label c l = 0%nat.
Proof.
  unfold count_label, inb. induction l as [| x l IH]; simpl; [reflexivity |].
  destruct (String.eqb c x); simpl; [discriminate | exact IH].
Qed.

(** X6.  [aggregate_data] checks the labels of the dict only.  On a table
    that has them all but has no [Selected Date] column, or has that one
    once and no [Sub-Category] column, it raises the [KeyError] of
    [groupby] for the missing grouping label; it emits nothing and
    allocates nothing. *)
Theorem aggregate_data_raises_without_grouping_label
    (r : ref) (df : DataFrame) (agg : list (string * aggfunc)) (s : state)
    (missing : string) :
  heap s !! r = Some df ->
  all_in_columns agg df = true ->
  (missing = "Selected Date" /\ inb "Selected Date" (columns df) = false) \/
  (missing = "Sub-Category" /\
   count_label "Selected Date" (columns df) = 1%nat /\
   inb "Sub-Category" (columns df) = false) ->
  aggregate_data r agg s = (Raise (KeyError missing), s).
Proof.
  intros Hr Hall Hmiss. rewrite (aggregate_data_run _ _ _ _ Hr).
  unfold summary. rewrite Hall. unfold groupby_agg, group_labels.
  cbn [omap]. unfold key_label at 1.
  destruct Hmiss as [[-> Hd] | (-> & Hd & Hc)].
  - now rewrite (count_label_absent _ _ Hd).
  - rewrite Hd. cbn [obind]. unfold key_label.
    now rewrite (count_label_absent _ _ Hc).
Qed.

Lemma aggregate_data_raises_witness :
  aggregate_data 0%nat [("orders", AggSum)]
    (mkState [Samples.orders_no_category] []) =
    (Raise (KeyError "Sub-Category"),
     mkState [Samples.orders_no_category] []).
Proof.
  apply (aggregate_data_raises_without_grouping_label 0%nat
           Samples.orders_no_category [("orders", AggSum)]
           (mkState [Samples.orders_no_category] []) "Sub-Category");
    [reflexivity | reflexivity |].
  right. repeat split; reflexivity.
Defined.

Lemma filter_none {A} (p : A -> bool) l :
  (forall x, In x l -> p x = false) -> List.filter p l = [].
Proof.
  induction l as [| x l IH]; intros H; simpl; [reflexivity |].
  rewrite (H x) by now left. apply IH. intros y Hy. apply H. now right.
Qed.

(** X7.  When every row of the table has a missing cell in its key (no
    report row found its sub-category, or the table has no rows), and
    the grouping labels and the metric labels of the dict are all there,
    once each, [aggregate_data] returns a table with the summary's labels
    and no rows; it emits nothing and does not raise, whatever the metric
    cells hold. *)
Theorem summary_is_empty_when_no_key_is_complete
    (r : ref) (df : DataFrame) (agg : list (string * aggfunc)) (s : state) :
  heap s !! r = Some df ->
  agg <> [] ->
  List.NoDup (map fst agg) ->
  count_label "Selected Date" (columns df) = 1%nat ->
  count_label "Sub-Category" (columns df) = 1%nat ->
  (forall c, In c (map fst agg) ->
     count_label c (columns df) = 1%nat /\ ~ In c group_labels) ->
  (forall row, In row (rows df) ->
     has_na (row_key (columns df) group_labels row) = true) ->
  aggregate_data r agg s =
    (Ok (length (heap s)),
     mkState (heap s ++ [mkDataFrame (group_labels ++ map fst agg) []])
       (log s)).
Proof.
  intros Hr Hne _ Hdate Hsub Hagg0 Hna.
  assert (Hagg : forall c, In c (map fst agg) ->
            In c (columns df) /\ ~ In c group_labels).
  { intros c Hc. destruct (Hagg0 c Hc) as [H1 H2].
    split; [now apply count_label_once_In | exact H2]. }
  assert (Hall : all_in_columns agg df = true).
  { unfold all_in_columns. apply forallb_forall. intros c Hc.
    apply inb_In. now apply Hagg. }
  erewrite aggregate_data_ok; [| exact Hr |].
  - now rewrite app_nil_r.
  - unfold summary. rewrite Hall. unfold groupby_agg. cbv zeta.
    rewrite (omap_ok _ (fun _ => tt)).
    2:{ intros k [<- | [<- | []]]; now apply key_label_ok. }
    cbn [obind]. destruct agg as [| a agg'] eqn:Eagg; [congruence |].
    rewrite <- Eagg in *.
    rewrite (omap_ok _ (fun _ => tt)).
    2:{ intros [c f] Hc. unfold agg_label.
        assert (Hin : In c (map fst agg))
          by (apply in_map_iff; now exists (c, f)).
        destruct (Hagg c Hin) as [H1 H2].
        rewrite (proj2 (inb_false c group_labels) H2).
        now rewrite (proj2 (inb_In c (columns df)) H1). }
    cbn [obind]. rewrite filter_none; [reflexivity |].
    intros row Hrow. now rewrite Hna.
Qed.

Lemma summary_is_empty_witness :
  aggregate_data 0%nat [("orders", AggSum)]
    (mkState [Samples.orders_null_category] []) =
    (Ok 1%nat,
     mkState
       ([Samples.orders_null_category]
        ++ [mkDataFrame (group_labels ++ ["orders"]) []])
       []).
Proof.
  apply (summary_is_empty_when_no_key_is_complete 0%nat
           Samples.orders_null_category [("orders", AggSum)]
           (mkState [Samples.orders_null_category] []));
    [reflexivity | discriminate | repeat constructor; simpl; tauto
    | reflexivity | reflexivity | |].
  - intros c [<- | []]. split; [reflexivity |].
    intros [H | [H | []]]; discriminate.
  - intros row [<- | []]. reflexivity.
Defined.

Section Totals.

Lemma total_cells cols c (l : list (list cell)) :
  total (column_cells cols c l) =
  fold_right Z.add 0%Z (map (fun r => cell_value (row_get cols r c)) l).
Proof. unfold total, column_cells. now rewrite map_map. Qed.

Lemma total_app cs cs' : total (cs ++ cs') = (total cs + total cs')%Z.
Proof.
  unfold total. induction cs as [| c cs IH]; simpl; [reflexivity |].
  rewrite IH. lia.
Qed.

(** One key of a list without repeats takes the row. *)
Lemma one_key_takes_it (x : Z) (kr : list cell) ks :
  List.NoDup ks -> In kr ks ->
  fold_right Z.add 0%Z
    (map (fun k => if key_eqb kr k then x else 0%Z) ks) = x.
Proof.
  induction 1 as [| k ks Hk Hnd IH]; [contradiction |].
  intros Hin. simpl. destruct (key_eqb kr k) eqn:E.
  - apply key_eqb_eq in E. subst k.
    assert (H0 : fold_right Z.add 0%Z
                   (map (fun k => if key_eqb kr k then x else 0%Z) ks) = 0%Z).
    { clear IH Hin Hnd. induction ks as [| k ks IH]; simpl; [reflexivity |].
      destruct (key_eqb kr k) eqn:E.
      - apply key_eqb_eq in E. subst. elim Hk. now left.
      - apply IH. intros H. apply Hk. now right. }
    lia.
  - destruct Hin as [-> | Hin].
    + rewrite (proj2 (key_eqb_eq kr kr) eq_refl) in E. discriminate.
    + rewrite (IH Hin). lia.
Qed.

(** The groups split the rows: the totals of the groups add up to the
    total of the rows. *)
Lemma groups_split_the_total (key : list cell -> list cell)
    (v : list cell -> Z) ks :
  List.NoDup ks -> forall rs,
  (forall r, In r rs -> In (key r) ks) ->
  fold_right Z.add 0%Z
    (map (fun k =>
            fold_right Z.add 0%Z
              (map v (List.filter (fun r => key_eqb (key r) k) rs))) ks)
  = fold_right Z.add 0%Z (map v rs).
Proof.
  intros Hnd. induction rs as [| r rs IH]; intros Hin.
  - simpl. induction ks as [| k ks IHk]; simpl; [reflexivity |].
    inversion Hnd; subst. now rewrite IHk.
  - simpl. rewrite <- IH by (intros x Hx; apply Hin; now right).
    rewrite <- (one_key_takes_it (v r) (key r) ks Hnd) at 1
      by (apply Hin; now left).
    clear IH Hin Hnd. induction ks as [| k ks IHk]; simpl; [reflexivity |].
    rewrite <- Z.add_assoc, (Z.add_assoc _ (fold_right _ _ _)).
    destruct (key_eqb (key r) k); simpl; lia.
Qed.

End Totals.

Lemma row_get_group_totals df by_ agg k c :
  length k = length by_ ->
  ~ In c by_ ->
  In c (map fst agg) ->
  row_get (by_ ++ map fst agg) (k ++ group_totals df by_ agg k) c =
  Num (total (column_cells (columns df) c (group df by_ k))).
Proof.
  intros Hlen Hby Hc. rewrite row_get_app_r by assumption.
  unfold group_totals.
  rewrite <- (map_map fst
    (fun l => Num (total (column_cells (columns df) l (group df by_ k))))).
  rewrite row_get_map. now rewrite (proj2 (inb_In _ _) Hc).
Qed.

(** X8.  Nothing is counted twice and nothing is lost among the rows
    with a complete key.  Under the conditions of the grouping (the
    grouping labels and the metric labels there once each, the metric
    cells whole numbers whose absolute values sum to less than 2^53 in
    each column), the cells under a metric label in the summary
    [aggregate_data] returns add up to the total of that metric over the
    rows of the table whose key has no missing cell; when every row has a
    complete key, to the total over the whole table. *)
Theorem summary_totals_are_the_table_totals
    (r : ref) (df : DataFrame) (agg : list (string * aggfunc)) (s : state) :
  heap s !! r = Some df ->
  agg <> [] ->
  List.NoDup (map fst agg) ->
  count_label "Selected Date" (columns df) = 1%nat ->
  count_label "Sub-Category" (columns df) = 1%nat ->
  (forall c, In c (map fst agg) ->
     count_label c (columns df) = 1%nat /\ ~ In c group_labels /\
     whole_numbers df c) ->
  exists out,
    aggregate_data r agg s =
      (Ok (length (heap s)), mkState (heap s ++ [out]) (log s)) /\
    (forall c, In c (map fst agg) ->
       column_total out c =
       total (column_cells (columns df) c (kept_rows df group_labels))) /\
    (complete_keys df ->
     forall c, In c (map fst agg) -> column_total out c = column_total df c).
Proof.
  intros Hr Hne _ Hdate Hsub Hagg0.
  pose proof (whole_number_metrics df agg Hagg0) as Hagg. clear Hagg0.
  assert (Hby : forall k, In k group_labels ->
                  count_label k (columns df) = 1%nat).
  { intros k [<- | [<- | []]]; assumption. }
  pose proof (groupby_agg_numeric df group_labels agg Hby Hne
                (fun c Hc => proj1 (proj2 (Hagg c Hc)))
                (fun c Hc => proj1 (Hagg c Hc))
                (fun c Hc => proj2 (proj2 (Hagg c Hc)))) as Hg.
  assert (Hall : all_in_columns agg df = true).
  { unfold all_in_columns. apply forallb_forall. intros c Hc.
    apply inb_In. now apply Hagg. }
  set (keys := group_keys (map (row_key (columns df) group_labels)
                             (kept_rows df group_labels))) in *.
  exists (mkDataFrame (group_labels ++ map fst agg)
            (map (fun k => k ++ group_totals df group_labels agg k) keys)).
  split.
  { erewrite aggregate_data_ok;
      [| exact Hr | unfold summary; rewrite Hall, Hg; reflexivity].
    now rewrite app_nil_r. }
  assert (Hkept : forall c, In c (map fst agg) ->
            column_total
              (mkDataFrame (group_labels ++ map fst agg)
                 (map (fun k => k ++ group_totals df group_labels agg k) keys))
              c =
            total (column_cells (columns df) c (kept_rows df group_labels))).
  { intros c Hc. unfold column_total. cbn [columns rows].
    rewrite !total_cells, map_map.
    rewrite <- (groups_split_the_total
                  (row_key (columns df) group_labels)
                  (fun r => cell_value (row_get (columns df) r c)) keys).
    - apply f_equal. apply map_ext_in. intros k Hk.
      unfold keys in Hk.
      pose proof (proj1 (group_keys_In _ _) Hk) as Hk'.
      pose proof (proj1 (kept_keys_In df group_labels k) Hk') as [Hna _].
      apply in_map_iff in Hk' as (row & <- & _).
      rewrite row_get_group_totals;
        [| apply key_length | apply (Hagg c Hc) | exact Hc].
      cbn [cell_value]. rewrite total_cells.
      now rewrite (group_of_kept df group_labels _ Hna).
    - apply sorted_NoDup, group_keys_sorted.
    - intros row Hrow. apply group_keys_In. now apply in_map. }
  split; [exact Hkept |].
  intros Hcomplete c Hc. rewrite (Hkept c Hc). unfold column_total.
  f_equal. f_equal. unfold kept_rows.
  apply forallb_filter_id. apply forallb_forall. intros row Hrow.
  now rewrite (Hcomplete row Hrow).
Qed.

Lemma summary_totals_witness :
  exists out,
    aggregate_data 0%nat [("orders", AggSum)]
      (mkState [Samples.orders_table] []) =
      (Ok 1%nat, mkState ([Samples.orders_table] ++ [out]) []) /\
    (forall c, In c ["orders"] ->
       column_total out c =
       total (column_cells (columns Samples.orders_table) c
                (kept_rows Samples.orders_table group_labels))) /\
    (complete_keys Samples.orders_table ->
     forall c, In c ["orders"] ->
       column_total out c = column_total Samples.orders_table c).
Proof.
  apply (summary_totals_are_the_table_totals 0%nat
           Samples.orders_table [("orders", AggSum)]
           (mkState [Samples.orders_table] []));
    [reflexivity | discriminate | repeat constructor; simpl; tauto
    | reflexivity | reflexivity |].
  intros c [<- | []]. split; [reflexivity |]. split.
  - intros [H | [H | []]]; discriminate.
  - split; [| reflexivity].
    intros r [<- | [<- | [<- | []]]]; reflexivity.
Defined.

Section Order.

Lemma filter_perm {A} (p : A -> bool) l l' :
  Permutation l l' -> Permutation (List.filter p l) (List.filter p l').
Proof.
  induction 1 as [| x l l' _ IH | x y l | l l' l'' _ IH1 _ IH2]; simpl.
  - constructor.
  - destruct (p x); [now constructor | exact IH].
  - destruct (p x), (p y); try reflexivity. apply perm_swap.
  - now transitivity (List.filter p l').
Qed.

Lemma total_perm cs cs' : Permutation cs cs' -> total cs = total cs'.
Proof.
  unfold total.
  induction 1 as [| x l l' _ IH | x y l | l l' l'' _ IH1 _ IH2]; simpl;
    try lia.
Qed.

Lemma sorted_head_least x l :
  StronglySorted key_lt (x :: l) -> forall y, In y l -> key_lt x y.
Proof.
  intros H y Hy. inversion H as [| ? ? _ Hall]; subst.
  rewrite List.Forall_forall in Hall. now apply Hall.
Qed.

(** Two strictly sorted lists with the same members are the same list. *)
Lemma sorted_same_members l1 : forall l2,
  StronglySorted key_lt l1 -> StronglySorted key_lt l2 ->
  (forall k, In k l1 <-> In k l2) -> l1 = l2.
Proof.
  induction l1 as [| x l1 IH]; intros [| y l2] H1 H2 Hmem.
  - reflexivity.
  - destruct (proj2 (Hmem y)); now left.
  - destruct (proj1 (Hmem x)); now left.
  - assert (Exy : x = y).
    { destruct (proj1 (Hmem x) (or_introl eq_refl)) as [E | Hx];
        [now symmetry |].
      destruct (proj2 (Hmem y) (or_introl eq_refl)) as [E | Hy];
        [exact E |].
      exfalso. apply (key_lt_irrefl x).
      eapply key_lt_trans;
        [apply (sorted_head_least _ _ H1 y Hy)
        | apply (sorted_head_least _ _ H2 x Hx)]. }
    subst y. f_equal.
    inversion H1 as [| ? ? H1' Hx1]; inversion H2 as [| ? ? H2' Hx2]; subst.
    apply IH; [assumption | assumption |].
    intros k. split; intros Hk.
    + destruct (proj1 (Hmem k) (or_intror Hk)) as [<- | Hk']; [| exact Hk'].
      exfalso. apply (key_lt_irrefl x).
      rewrite List.Forall_forall in Hx1. now apply Hx1.
    + destruct (proj2 (Hmem k) (or_intror Hk)) as [<- | Hk']; [| exact Hk'].
      exfalso. apply (key_lt_irrefl x).
      rewrite List.Forall_forall in Hx2. now apply Hx2.
Qed.

Lemma group_keys_perm ks ks' :
  Permutation ks ks' -> group_keys ks = group_keys ks'.
Proof.
  intros H. apply sorted_same_members; try apply group_keys_sorted.
  intros k. rewrite !group_keys_In. split; apply Permutation_in;
    [exact H | now symmetry].
Qed.

End Order.

(** X9.  The summary does not depend on the order of the rows.  Two
    tables with the same labels whose rows are the same up to their
    order, under the conditions of the grouping (the grouping labels and
    the metric labels there once each, the metric cells whole numbers
    whose absolute values sum to less than 2^53 in each column, so that
    no sum is rounded): [aggregate_data] returns the same table for
    both. *)
Theorem summary_ignores_row_order
    (r1 r2 : ref) (df1 df2 : DataFrame) (agg : list (string * aggfunc))
    (s : state) :
  heap s !! r1 = Some df1 ->
  heap s !! r2 = Some df2 ->
  columns df1 = columns df2 ->
  Permutation (rows df1) (rows df2) ->
  agg <> [] ->
  List.NoDup (map fst agg) ->
  count_label "Selected Date" (columns df1) = 1%nat ->
  count_label "Sub-Category" (columns df1) = 1%nat ->
  (forall c, In c (map fst agg) ->
     count_label c (columns df1) = 1%nat /\ ~ In c group_labels /\
     whole_numbers df1 c) ->
  aggregate_data r1 agg s = aggregate_data r2 agg s.
Proof.
  intros H1 H2 Hcols Hperm Hne _ Hdate Hsub Hagg0.
  pose proof (whole_number_metrics df1 agg Hagg0) as Hagg. clear Hagg0.
  assert (Hby1 : forall k, In k group_labels ->
                   count_label k (columns df1) = 1%nat).
  { intros k [<- | [<- | []]]; assumption. }
  assert (Hby2 : forall k, In k group_labels ->
                   count_label k (columns df2) = 1%nat).
  { rewrite <- Hcols. exact Hby1. }
  assert (Hnum2 : forall c, In c (map fst agg) -> numeric_column df2 c).
  { intros c Hc row Hrow. rewrite <- Hcols. apply (Hagg c Hc).
    apply Permutation_in with (l := rows df2); [now symmetry | exact Hrow]. }
  pose proof (groupby_agg_numeric df1 group_labels agg Hby1 Hne
                (fun c Hc => proj1 (proj2 (Hagg c Hc)))
                (fun c Hc => proj1 (Hagg c Hc))
                (fun c Hc => proj2 (proj2 (Hagg c Hc)))) as Hg1.
  assert (Hpres2 : forall c, In c (map fst agg) -> In c (columns df2)).
  { intros c Hc. rewrite <- Hcols. now apply Hagg. }
  pose proof (groupby_agg_numeric df2 group_labels agg Hby2 Hne
                (fun c Hc => proj1 (proj2 (Hagg c Hc)))
                Hpres2 Hnum2) as Hg2.
  assert (Hkept : Permutation (kept_rows df1 group_labels)
                    (kept_rows df2 group_labels)).
  { unfold kept_rows. rewrite <- Hcols. now apply filter_perm. }
  assert (Hgroup : forall k, Permutation (group df1 group_labels k)
                               (group df2 group_labels k)).
  { intros k. unfold group. rewrite <- Hcols. now apply filter_perm. }
  assert (Hsame : groupby_agg df1 group_labels agg
                  = groupby_agg df2 group_labels agg).
  { rewrite Hg1, Hg2. f_equal. f_equal.
    rewrite <- Hcols.
    rewrite (group_keys_perm _ _
               (Permutation_map (row_key (columns df1) group_labels) Hkept)).
    apply map_ext. intros k. f_equal. unfold group_totals.
    apply map_ext. intros cf. f_equal. rewrite <- Hcols.
    apply total_perm. unfold column_cells. apply Permutation_map, Hgroup. }
  rewrite (aggregate_data_run _ _ _ _ H1), (aggregate_data_run _ _ _ _ H2).
  unfold summary, all_in_columns. rewrite <- Hcols.
  fold (all_in_columns agg df1). now rewrite Hsame.
Qed.

Lemma summary_ignores_row_order_witness :
  aggregate_data 0%nat [("orders", AggSum)]
    (mkState
       [ Samples.orders_table;
         mkDataFrame ["Selected Date"; "Sub-Category"; "orders"]
           [ [Str "2024-01-01"; Str "B"; Num 5];
             [Str "2024-01-01"; Str "A"; Num 2];
             [Str "2024-01-01"; Str "A"; Num 1] ] ] []) =
  aggregate_data 1%nat [("orders", AggSum)]
    (mkState
       [ Samples.orders_table;
         mkDataFrame ["Selected Date"; "Sub-Category"; "orders"]
           [ [Str "2024-01-01"; Str "B"; Num 5];
             [Str "2024-01-01"; Str "A"; Num 2];
             [Str "2024-01-01"; Str "A"; Num 1] ] ] []).
Proof.
  apply (summary_ignores_row_order 0%nat 1%nat Samples.orders_table
           (mkDataFrame ["Selected Date"; "Sub-Category"; "orders"]
              [ [Str "2024-01-01"; Str "B"; Num 5];
                [Str "2024-01-01"; Str "A"; Num 2];
                [Str "2024-01-01"; Str "A"; Num 1] ]));
    [reflexivity | reflexivity | reflexivity | | discriminate
    | repeat constructor; simpl; tauto | reflexivity | reflexivity |].
  - simpl.
    apply perm_trans
      with (l' := [ [Str "2024-01-01"; Str "A"; Num 2];
                    [Str "2024-01-01"; Str "A"; Num 1];
                    [Str "2024-01-01"; Str "B"; Num 5] ]).
    + apply perm_swap.
    + apply perm_trans
        with (l' := [ [Str "2024-01-01"; Str "A"; Num 2];
                      [Str "2024-01-01"; Str "B"; Num 5];
                      [Str "2024-01-01"; Str "A"; Num 1] ]).
      * apply perm_skip, perm_swap.
      * apply perm_swap.
  - intros c [<- | []]. split; [reflexivity |]. split.
    + intros [H | [H | []]]; discriminate.
    + split; [| reflexivity].
      intros r [<- | [<- | [<- | []]]]; reflexivity.
Defined.

(* ================================================================== *)
(** ** More on the whole run *)
(* ================================================================== *)

Lemma bind_run {A B} (m : M A) (k : A -> M B) s :
  bind m k s =
    match m s with
    | (Ok a, s') => k a s'
    | (Raise e, s') => (Raise e, s')
    end.
Proof. reflexivity. Qed.

Lemma joined_ok frames mapping lk rk ds d j :
  concat_frames frames = Ok d ->
  merge_left (set_column d "Selected Date" (Str ds)) mapping lk rk = Ok j ->
  joined frames mapping lk rk ds = Ok j.
Proof. intros H1 H2. unfold joined. now rewrite H1. Qed.

(** A run of [process_files] that returns went through every step. *)
Lemma process_files_inv
    (sp sd sb : list uploaded_file) (a c : ref) (d : date) (s : state)
    (am cm : DataFrame) (r_sp r_sd r_sb : ref) (s' : state) :
  heap s !! a = Some am ->
  heap s !! c = Some cm ->
  process_files sp sd sb a c d s = (Ok (r_sp, r_sd, r_sb), s') ->
  exists jsp jsd jsb o_sp o_sd o_sb m_sp m_sd m_sb,
    joined (asin_frames sp) am "Advertised ASIN" "ASIN" (strftime_Ymd d)
      = Ok jsp /\
    joined (asin_frames sd) am "Advertised ASIN" "ASIN" (strftime_Ymd d)
      = Ok jsd /\
    joined (plain_frames sb) cm "Campaigns" "SB Campaign Name"
      (strftime_Ymd d) = Ok jsb /\
    summary jsp sp_metrics = Ok (o_sp, m_sp) /\
    summary jsd sp_metrics = Ok (o_sd, m_sd) /\
    summary jsb sb_metrics = Ok (o_sb, m_sb) /\
    heap s' !! r_sp = Some o_sp /\
    heap s' !! r_sd = Some o_sd /\
    heap s' !! r_sb = Some o_sb /\
    log s' =
      log s ++ asin_messages sp ++ asin_messages sd ++ plain_messages sb
        ++ m_sp ++ m_sb ++ m_sd.
Proof.
  intros Ha Hc.
  pose proof (lookup_lt_Some _ _ _ Ha) as La.
  pose proof (lookup_lt_Some _ _ _ Hc) as Lc.
  unfold process_files.
  rewrite (bind_ok _ _ _ _ _ (mapM_alloc_run _ _ read_file_asin_run sp s)).
  rewrite bind_run, (pd_concat_run _ _ (asin_frames sp));
    [| apply seq_points_to_map_last].
  destruct (concat_frames (asin_frames sp)) as [csp | e] eqn:Csp;
    [| discriminate].
  cbn [heap log].
  rewrite (bind_ok _ _ _ _ _ (mapM_alloc_run _ _ read_file_asin_run sd _)).
  rewrite (bind_ok _ _ _ _ _ (mapM_alloc_run _ _ read_file_run sb _)).
  cbn [heap log].
  rewrite bind_run, (pd_concat_run _ _ (asin_frames sd));
    [| apply seq_points_to_map].
  destruct (concat_frames (asin_frames sd)) as [csd | e] eqn:Csd;
    [| discriminate].
  cbn [heap log].
  rewrite bind_run, (pd_concat_run _ _ (plain_frames sb));
    [| cbn [heap]; apply (seq_points_to_map (fun f => fst (loaded f)))].
  destruct (concat_frames (plain_frames sb)) as [csb | e] eqn:Csb;
    [| discriminate].
  cbn [heap log forM_].
  erewrite bind_ok.
  2:{ erewrite bind_ok; [| apply setitem_run; pt].
      erewrite bind_ok; [| apply setitem_run; pt].
      erewrite bind_ok; [| apply setitem_run; pt].
      reflexivity. }
  cbn [heap log].
  rewrite bind_run. erewrite pd_merge_run; [| pt | pt].
  destruct (merge_left (set_column csp _ _) am _ _) as [jsp | e] eqn:Msp; [| discriminate].
  rewrite bind_run. erewrite pd_merge_run; [| pt | pt].
  destruct (merge_left (set_column csb _ _) cm _ _) as [jsb | e] eqn:Msb; [| discriminate].
  rewrite bind_run. erewrite pd_merge_run; [| pt | pt].
  destruct (merge_left (set_column csd _ _) am _ _) as [jsd | e] eqn:Msd; [| discriminate].
  rewrite bind_run. erewrite aggregate_data_run; [| pt].
  destruct (summary jsp sp_metrics) as [[o_sp m_sp] | e] eqn:S1;
    [| discriminate].
  rewrite bind_run. erewrite aggregate_data_run; [| pt].
  destruct (summary jsb sb_metrics) as [[o_sb m_sb] | e] eqn:S2;
    [| discriminate].
  rewrite bind_run. erewrite aggregate_data_run; [| pt].
  destruct (summary jsd sp_metrics) as [[o_sd m_sd] | e] eqn:S3;
    [| discriminate].
  unfold ret. intros [= <- <- <- <-].
  exists jsp, jsd, jsb, o_sp, o_sd, o_sb, m_sp, m_sd, m_sb.
  split; [exact (joined_ok _ _ _ _ _ _ _ Csp Msp) |].
  split; [exact (joined_ok _ _ _ _ _ _ _ Csd Msd) |].
  split; [exact (joined_ok _ _ _ _ _ _ _ Csb Msb) |].
  split; [exact S1 |]. split; [exact S3 |]. split; [exact S2 |].
  cbn [heap log].
  split; [pt |]. split; [pt |]. split; [pt |].
  unfold asin_messages, plain_messages. now rewrite <- !app_assoc.
Qed.

(** X10.  What [process_files] returns.  Whenever a run returns, the
    three tables behind the references it returns, in the order SP, SD,
    SB, are the summaries of the three joined tables: each is the
    summary of its own report type's files, concatenated, stamped with
    the date and joined with its own mapping (the ASIN mapping for SP
    and SD, the campaign mapping for SB); the log has grown by the
    loaders' messages and then those of the three aggregations in the
    order SP, SB, SD. *)
Theorem process_files_returns_the_three_summaries
    (sp sd sb : list uploaded_file) (a c : ref) (d : date) (s : state)
    (am cm : DataFrame) (r_sp r_sd r_sb : ref) (s' : state) :
  heap s !! a = Some am ->
  heap s !! c = Some cm ->
  process_files sp sd sb a c d s = (Ok (r_sp, r_sd, r_sb), s') ->
  exists jsp jsd jsb o_sp o_sd o_sb m_sp m_sd m_sb,
    joined (asin_frames sp) am "Advertised ASIN" "ASIN" (strftime_Ymd d)
      = Ok jsp /\
    joined (asin_frames sd) am "Advertised ASIN" "ASIN" (strftime_Ymd d)
      = Ok jsd /\
    joined (plain_frames sb) cm "Campaigns" "SB Campaign Name"
      (strftime_Ymd d) = Ok jsb /\
    summary jsp sp_metrics = Ok (o_sp, m_sp) /\
    summary jsd sp_metrics = Ok (o_sd, m_sd) /\
    summary jsb sb_metrics = Ok (o_sb, m_sb) /\
    heap s' !! r_sp = Some o_sp /\
    heap s' !! r_sd = Some o_sd /\
    heap s' !! r_sb = Some o_sb /\
    log s' =
      log s ++ asin_messages sp ++ asin_messages sd ++ plain_messages sb
        ++ m_sp ++ m_sb ++ m_sd.
Proof.
  intros Ha Hc Hrun.
  exact (process_files_inv sp sd sb a c d s am cm r_sp r_sd r_sb s'
           Ha Hc Hrun).
Qed.

Lemma process_files_returns_witness :
  exists jsp jsd jsb o_sp o_sd o_sb m_sp m_sd m_sb,
    joined (asin_frames [Samples.sp_csv]) Samples.asin_map
      "Advertised ASIN" "ASIN" (strftime_Ymd Samples.new_year) = Ok jsp /\
    joined (asin_frames [Samples.sd_xlsx]) Samples.asin_map
      "Advertised ASIN" "ASIN" (strftime_Ymd Samples.new_year) = Ok jsd /\
    joined (plain_frames [Samples.sb_csv]) Samples.campaign_map
      "Campaigns" "SB Campaign Name" (strftime_Ymd Samples.new_year)
      = Ok jsb /\
    summary jsp sp_metrics = Ok (o_sp, m_sp) /\
    summary jsd sp_metrics = Ok (o_sd, m_sd) /\
    summary jsb sb_metrics = Ok (o_sb, m_sb) /\
    heap (snd (process_files [Samples.sp_csv] [Samples.sd_xlsx]
                 [Samples.sb_csv] 0%nat 1%nat Samples.new_year
                 Samples.start)) !! 11%nat = Some o_sp /\
    heap (snd (process_files [Samples.sp_csv] [Samples.sd_xlsx]
                 [Samples.sb_csv] 0%nat 1%nat Samples.new_year
                 Samples.start)) !! 13%nat = Some o_sd /\
    heap (snd (process_files [Samples.sp_csv] [Samples.sd_xlsx]
                 [Samples.sb_csv] 0%nat 1%nat Samples.new_year
                 Samples.start)) !! 12%nat = Some o_sb /\
    log (snd (process_files [Samples.sp_csv] [Samples.sd_xlsx]
                [Samples.sb_csv] 0%nat 1%nat Samples.new_year
                Samples.start)) =
      log Samples.start ++ asin_messages [Samples.sp_csv]
        ++ asin_messages [Samples.sd_xlsx] ++ plain_messages [Samples.sb_csv]
        ++ m_sp ++ m_sb ++ m_sd.
Proof.
  apply (process_files_returns_the_three_summaries
           [Samples.sp_csv] [Samples.sd_xlsx] [Samples.sb_csv]
           0%nat 1%nat Samples.new_year Samples.start
           Samples.asin_map Samples.campaign_map 11%nat 13%nat 12%nat);
    reflexivity.
Defined.

Section Messages.

Lemma emits_ret {A} P (a : A) : emits P (ret a).
Proof. intros s. exists []. simpl. now rewrite app_nil_r. Qed.

Lemma emits_bind {A B} P (m : M A) (k : A -> M B) :
  emits P m -> (forall a, emits P (k a)) -> emits P (bind m k).
Proof.
  intros Hm Hk s. unfold bind. destruct (Hm s) as (added & Hlog & HP).
  destruct (m s) as [[a | e] s1]; simpl in *.
  - destruct (Hk a s1) as (added' & Hlog' & HP').
    exists (added ++ added'). split.
    + now rewrite Hlog', Hlog, app_assoc.
    + now apply List.Forall_app.
  - now exists added.
Qed.

Lemma emits_lift {A} P (o : outcome A) : emits P (lift o).
Proof. intros s. exists []. simpl. now rewrite app_nil_r. Qed.

Lemma emits_load P r : emits P (load r).
Proof. intros s. exists []. simpl. now rewrite app_nil_r. Qed.

Lemma emits_alloc P d : emits P (alloc d).
Proof. intros s. exists []. simpl. now rewrite app_nil_r. Qed.

Lemma emits_store P r d : emits P (store r d).
Proof. intros s. exists []. simpl. now rewrite app_nil_r. Qed.

Lemma emits_emit (P : message -> Prop) m : P m -> emits P (emit m).
Proof. intros H s. exists [m]. simpl. split; [reflexivity | now constructor]. Qed.

Lemma emits_mapM {A B} P (f : A -> M B) l :
  (forall x, emits P (f x)) -> emits P (mapM f l).
Proof.
  intros Hf. induction l as [| x l IH]; simpl.
  - apply emits_ret.
  - apply emits_bind; [apply Hf |]. intros y.
    apply emits_bind; [apply IH |]. intros ys. apply emits_ret.
Qed.

Lemma emits_read_file f : emits from_pipeline (read_file f).
Proof.
  unfold read_file, pd_read_excel, pd_read_csv, pd_DataFrame.
  destruct (endswith _ ".xlsx"); [apply emits_alloc |].
  destruct (endswith _ ".csv"); [apply emits_alloc |].
  apply emits_bind; [apply emits_emit; now left | intros _; apply emits_alloc].
Qed.

Lemma emits_rename_inplace r d : emits from_pipeline (rename_inplace r d).
Proof.
  apply emits_bind; [apply emits_load | intros v; apply emits_store].
Qed.

Lemma emits_read_file_asin f : emits from_pipeline (read_file_asin f).
Proof.
  unfold read_file_asin, pd_read_excel, pd_read_csv, pd_DataFrame.
  assert (Hrest : forall r,
    emits from_pipeline
      (bind (load r) (fun v =>
         bind (if all_in_columns rename_dict_14_day v
               then rename_inplace r rename_dict_14_day
               else if all_in_columns rename_dict_7_day v
               then rename_inplace r rename_dict_7_day
               else emit (st_warning
                 "Expected columns not found. Returning the original DataFrame."))
           (fun _ => ret r)))).
  { intros r. apply emits_bind; [apply emits_load |]. intros v.
    apply emits_bind; [| intros _; apply emits_ret].
    destruct (all_in_columns rename_dict_14_day v);
      [apply emits_rename_inplace |].
    destruct (all_in_columns rename_dict_7_day v);
      [apply emits_rename_inplace |].
    apply emits_emit. right. now left. }
  destruct (endswith _ ".xlsx");
    [apply emits_bind; [apply emits_alloc | exact Hrest] |].
  destruct (endswith _ ".csv");
    [apply emits_bind; [apply emits_alloc | exact Hrest] |].
  apply emits_bind; [apply emits_emit; now left | intros _; apply emits_alloc].
Qed.

Lemma emits_pd_concat refs : emits from_pipeline (pd_concat refs).
Proof.
  unfold pd_concat.
  apply emits_bind; [apply emits_mapM; intros; apply emits_load |].
  intros vs. apply emits_bind; [apply emits_lift | intros; apply emits_alloc].
Qed.

Lemma emits_setitem r c v : emits from_pipeline (setitem r c v).
Proof.
  apply emits_bind; [apply emits_load | intros; apply emits_store].
Qed.

Lemma emits_pd_merge a b lk rk : emits from_pipeline (pd_merge a b lk rk).
Proof.
  unfold pd_merge.
  apply emits_bind; [apply emits_load |]. intros l.
  apply emits_bind; [apply emits_load |]. intros r.
  apply emits_bind; [apply emits_lift | intros; apply emits_alloc].
Qed.

Lemma emits_aggregate_data r agg : emits from_pipeline (aggregate_data r agg).
Proof.
  unfold aggregate_data, pd_DataFrame.
  apply emits_bind; [apply emits_load |]. intros v.
  destruct (all_in_columns agg v).
  - apply emits_bind; [apply emits_lift | intros; apply emits_alloc].
  - apply emits_bind; [| intros; apply emits_alloc].
    apply emits_emit. right. now right.
Qed.

Lemma emits_process_files sp sd sb a c d :
  emits from_pipeline (process_files sp sd sb a c d).
Proof.
  unfold process_files.
  apply emits_bind; [apply emits_mapM, emits_read_file_asin |]. intros sp_dfs.
  apply emits_bind; [apply emits_pd_concat |]. intros r_sp.
  apply emits_bind; [apply emits_mapM, emits_read_file_asin |]. intros sd_dfs.
  apply emits_bind; [apply emits_mapM, emits_read_file |]. intros sb_dfs.
  apply emits_bind; [apply emits_pd_concat |]. intros r_sd.
  apply emits_bind; [apply emits_pd_concat |]. intros r_sb.
  apply emits_bind.
  { simpl. repeat (apply emits_bind; [apply emits_setitem | intros _]).
    apply emits_ret. }
  intros _.
  do 3 (apply emits_bind; [apply emits_pd_merge | intros ?]).
  do 3 (apply emits_bind; [apply emits_aggregate_data | intros ?]).
  apply emits_ret.
Qed.

End Messages.

(** X11.  Whatever its inputs and its outcome, [process_files] only adds
    to the messages on the page, and what it adds is made of three
    messages: the unsupported-format error, the expected-columns-not-found
    warning and the columns-missing-for-aggregation error.  It never
    emits a success message or a download. *)
Theorem process_files_emits_only_its_three_messages
    (sp sd sb : list uploaded_file) (a c : ref) (d : date) (s : state) :
  exists added,
    log (snd (process_files sp sd sb a c d s)) = log s ++ added /\
    List.Forall
      (fun m =>
         m = st_error "Unsupported file format" \/
         m = st_warning
               "Expected columns not found. Returning the original DataFrame."
         \/ m = st_error "One or more columns are missing for aggregation")
      added.
Proof.
  exact (emits_process_files sp sd sb a c d s).
Qed.



Section Script.

Lemma concat_frames_raises ds e :
  concat_frames ds = Raise e ->
  e = ValueError "No objects to concatenate" \/ e = InvalidIndexError.
Proof.
  unfold concat_frames. destruct ds as [| d0 ds]; [intros [= <-]; now left |].
  destruct (forallb _ _); [discriminate |].
  destruct (existsb _ _); [intros [= <-]; now right | discriminate].
Qed.

Lemma concat_frames_nonempty {A} (F : A -> DataFrame) l d :
  concat_frames (map F l) = Ok d -> l <> [].
Proof. intros H ->. discriminate. Qed.

(** With no file in one of the groups, [process_files] ends in the
    exception of a [pd.concat]. *)
Lemma process_files_empty_group sp sd sb a c d s :
  sp = [] \/ sd = [] \/ sb = [] ->
  exists e,
    (e = ValueError "No objects to concatenate" \/ e = InvalidIndexError) /\
    fst (process_files sp sd sb a c d s) = Raise e.
Proof.
  intros Hempty. unfold process_files.
  rewrite (bind_ok _ _ _ _ _ (mapM_alloc_run _ _ read_file_asin_run sp s)).
  rewrite bind_run, (pd_concat_run _ _ (asin_frames sp));
    [| apply seq_points_to_map_last].
  destruct (concat_frames (asin_frames sp)) as [csp | e] eqn:Csp;
    [| exists e; split; [now apply (concat_frames_raises _ _ Csp) | reflexivity]].
  cbn [heap log].
  rewrite (bind_ok _ _ _ _ _ (mapM_alloc_run _ _ read_file_asin_run sd _)).
  rewrite (bind_ok _ _ _ _ _ (mapM_alloc_run _ _ read_file_run sb _)).
  cbn [heap log].
  rewrite bind_run, (pd_concat_run _ _ (asin_frames sd));
    [| apply seq_points_to_map].
  destruct (concat_frames (asin_frames sd)) as [csd | e] eqn:Csd;
    [| exists e; split; [now apply (concat_frames_raises _ _ Csd) | reflexivity]].
  cbn [heap log].
  rewrite bind_run, (pd_concat_run _ _ (plain_frames sb));
    [| cbn [heap]; apply (seq_points_to_map (fun f => fst (loaded f)))].
  destruct (concat_frames (plain_frames sb)) as [csb | e] eqn:Csb;
    [| exists e; split; [now apply (concat_frames_raises _ _ Csb) | reflexivity]].
  exfalso.
  apply concat_frames_nonempty in Csp, Csd, Csb.
  destruct Hempty as [H | [H | H]]; contradiction.
Qed.

(** The module-level code with the button pressed: the title, the two
    mappings, then [process_files]; what follows runs only when it
    returns. *)
Lemma script_pressed SP SD SB asin_csv campaign_csv d s :
  script true SP SD SB asin_csv campaign_csv d s =
    match
      process_files SP SD SB (length (heap s)) (length (heap s ++ [asin_csv]))
        d (mkState ((heap s ++ [asin_csv]) ++ [campaign_csv])
             (log s ++ [st_title "Data Processing and Upload"]))
    with
    | (Ok (SP_summary, SD_summary, SB_summary), s1) =>
        (Ok tt,
         mkState (heap s1)
           (log s1 ++
            [ st_success "Processing completed and files have been merged.";
              st_write "SP files have been updated and merged.";
              st_write "SD files have been updated and merged.";
              st_write "SB files have been updated and merged.";
              st_download_button "Download Updated SP Summary"
                (default empty_frame (heap s1 !! SP_summary))
                "SP_Summary.csv" "text/csv";
              st_download_button "Download Updated SD Summary"
                (default empty_frame (heap s1 !! SD_summary))
                "SD_Summary.csv" "text/csv";
              st_download_button "Download Updated SB Summary"
                (default empty_frame (heap s1 !! SB_summary))
                "SB_Summary.csv" "text/csv" ]))
    | (Raise e, s1) => (Raise e, s1)
    end.
Proof.
  unfold script. unfold bind at 1 2 3. cbn [emit alloc heap log].
  unfold bind at 1.
  destruct (process_files _ _ _ _ _ _ _) as [[[[r1 r2] r3] | e] s1];
    [| reflexivity].
  unfold save_df_to_csv, bind, load, emit. cbn [heap log].
  now rewrite <- !app_assoc.
Qed.

End Script.

(** X12.  The Process button with an empty group.  When nothing was
    uploaded for SP, for SD or for SB, pressing the button ends in the
    exception of a [pd.concat] (the [ValueError] for the empty list,
    unless an earlier group already failed on repeated labels).  After
    the title the page only gets messages of the loaders: no success
    message, no download and no upload warning. *)
Theorem process_with_an_empty_group_offers_no_download
    (SP_file SD_file SB_file : list uploaded_file)
    (asin_csv campaign_csv : DataFrame) (d : date) (s : state) :
  SP_file = [] \/ SD_file = [] \/ SB_file = [] ->
  exists e added,
    (e = ValueError "No objects to concatenate" \/ e = InvalidIndexError) /\
    fst (script true SP_file SD_file SB_file asin_csv campaign_csv d s)
      = Raise e /\
    log (snd (script true SP_file SD_file SB_file asin_csv campaign_csv d s))
      = (log s ++ [st_title "Data Processing and Upload"]) ++ added /\
    List.Forall
      (fun m =>
         m = st_error "Unsupported file format" \/
         m = st_warning
               "Expected columns not found. Returning the original DataFrame."
         \/ m = st_error "One or more columns are missing for aggregation")
      added.
Proof.
  intros Hempty. rewrite script_pressed.
  set (s2 := mkState ((heap s ++ [asin_csv]) ++ [campaign_csv])
               (log s ++ [st_title "Data Processing and Upload"])).
  destruct (process_files_empty_group SP_file SD_file SB_file
              (length (heap s)) (length (heap s ++ [asin_csv])) d s2 Hempty)
    as (e & He & Hraise).
  destruct (emits_process_files SP_file SD_file SB_file
              (length (heap s)) (length (heap s ++ [asin_csv])) d s2)
    as (added & Hlog & Hadded).
  destruct (process_files _ _ _ _ _ _ s2) as [[res | e'] s1];
    simpl in Hraise; [discriminate |].
  injection Hraise as ->.
  exists e, added. split; [exact He |]. split; [reflexivity |].
  split; [exact Hlog | exact Hadded].
Qed.

Lemma process_with_an_empty_group_witness :
  exists e added,
    (e = ValueError "No objects to concatenate" \/ e = InvalidIndexError) /\
    fst (script true [Samples.canonical] [] [Samples.sb_csv]
           Samples.asin_map Samples.campaign_map Samples.new_year
           (mkState [] [])) = Raise e /\
    log (snd (script true [Samples.canonical] [] [Samples.sb_csv]
                Samples.asin_map Samples.campaign_map Samples.new_year
                (mkState [] [])))
      = ([] ++ [st_title "Data Processing and Upload"]) ++ added /\
    List.Forall
      (fun m =>
         m = st_error "Unsupported file format" \/
         m = st_warning
               "Expected columns not found. Returning the original DataFrame."
         \/ m = st_error "One or more columns are missing for aggregation")
      added.
Proof.
  apply (process_with_an_empty_group_offers_no_download
           [Samples.canonical] [] [Samples.sb_csv]
           Samples.asin_map Samples.campaign_map Samples.new_year
           (mkState [] [])).
  right. now left.
Defined.

(** X13.  The Process button when the run goes through.  Whenever the
    module-level code returns with the button pressed, the page got, in
    this order: the title, the messages of the loaders and of the three
    aggregations, the success message, the three notes, and three
    downloads named [SP_Summary.csv], [SD_Summary.csv] and
    [SB_Summary.csv], each of type [text/csv] and each holding the
    summary of its own report type. *)
Theorem pressed_script_offers_the_three_summaries
    (SP_file SD_file SB_file : list uploaded_file)
    (asin_csv campaign_csv : DataFrame) (d : date) (s : state) :
  fst (script true SP_file SD_file SB_file asin_csv campaign_csv d s)
    = Ok tt ->
  exists jsp jsd jsb o_sp o_sd o_sb m_sp m_sd m_sb,
    joined (asin_frames SP_file) asin_csv "Advertised ASIN" "ASIN"
      (strftime_Ymd d) = Ok jsp /\
    joined (asin_frames SD_file) asin_csv "Advertised ASIN" "ASIN"
      (strftime_Ymd d) = Ok jsd /\
    joined (plain_frames SB_file) campaign_csv "Campaigns" "SB Campaign Name"
      (strftime_Ymd d) = Ok jsb /\
    summary jsp sp_metrics = Ok (o_sp, m_sp) /\
    summary jsd sp_metrics = Ok (o_sd, m_sd) /\
    summary jsb sb_metrics = Ok (o_sb, m_sb) /\
    log (snd (script true SP_file SD_file SB_file asin_csv campaign_csv d s))
      = log s
        ++ [st_title "Data Processing and Upload"]
        ++ asin_messages SP_file ++ asin_messages SD_file
        ++ plain_messages SB_file ++ m_sp ++ m_sb ++ m_sd
        ++ [ st_success "Processing completed and files have been merged.";
             st_write "SP files have been updated and merged.";
             st_write "SD files have been updated and merged.";
             st_write "SB files have been updated and merged.";
             st_download_button "Download Updated SP Summary" o_sp
               "SP_Summary.csv" "text/csv";
             st_download_button "Download Updated SD Summary" o_sd
               "SD_Summary.csv" "text/csv";
             st_download_button "Download Updated SB Summary" o_sb
               "SB_Summary.csv" "text/csv" ].
Proof.
  rewrite script_pressed.
  set (s2 := mkState ((heap s ++ [asin_csv]) ++ [campaign_csv])
               (log s ++ [st_title "Data Processing and Upload"])).
  destruct (process_files _ _ _ _ _ _ s2) as [[[[r1 r2] r3] | e] s1] eqn:Hrun;
    [| discriminate].
  intros _.
  assert (Ha : heap s2 !! length (heap s) = Some asin_csv) by (subst s2; pt).
  assert (Hc : heap s2 !! length (heap s ++ [asin_csv]) = Some campaign_csv)
    by (subst s2; pt).
  destruct (process_files_inv _ _ _ _ _ _ _ _ _ _ _ _ _ Ha Hc Hrun)
    as (jsp & jsd & jsb & o_sp & o_sd & o_sb & m_sp & m_sd & m_sb &
        J1 & J2 & J3 & S1 & S2 & S3 & L1 & L2 & L3 & Hlog).
  exists jsp, jsd, jsb, o_sp, o_sd, o_sb, m_sp, m_sd, m_sb.
  do 6 (split; [assumption |]).
  cbn [snd log]. rewrite L1, L2, L3, Hlog. cbn [default from_option id].
  subst s2. cbn [log]. now rewrite <- !app_assoc.
Qed.

Lemma pressed_script_witness :
  exists jsp jsd jsb o_sp o_sd o_sb m_sp m_sd m_sb,
    joined (asin_frames [Samples.sp_csv]) Samples.asin_map "Advertised ASIN"
      "ASIN" (strftime_Ymd Samples.new_year) = Ok jsp /\
    joined (asin_frames [Samples.sd_xlsx]) Samples.asin_map "Advertised ASIN"
      "ASIN" (strftime_Ymd Samples.new_year) = Ok jsd /\
    joined (plain_frames [Samples.sb_csv]) Samples.campaign_map "Campaigns"
      "SB Campaign Name" (strftime_Ymd Samples.new_year) = Ok jsb /\
    summary jsp sp_metrics = Ok (o_sp, m_sp) /\
    summary jsd sp_metrics = Ok (o_sd, m_sd) /\
    summary jsb sb_metrics = Ok (o_sb, m_sb) /\
    log (snd (script true [Samples.sp_csv] [Samples.sd_xlsx] [Samples.sb_csv]
                Samples.asin_map Samples.campaign_map Samples.new_year
                (mkState [] [])))
      = []
        ++ [st_title "Data Processing and Upload"]
        ++ asin_messages [Samples.sp_csv] ++ asin_messages [Samples.sd_xlsx]
        ++ plain_messages [Samples.sb_csv] ++ m_sp ++ m_sb ++ m_sd
        ++ [ st_success "Processing completed and files have been merged.";
             st_write "SP files have been updated and merged.";
             st_write "SD files have been updated and merged.";
             st_write "SB files have been updated and merged.";
             st_download_button "Download Updated SP Summary" o_sp
               "SP_Summary.csv" "text/csv";
             st_download_button "Download Updated SD Summary" o_sd
               "SD_Summary.csv" "text/csv";
             st_download_button "Download Updated SB Summary" o_sb
               "SB_Summary.csv" "text/csv" ].
Proof.
  apply (pressed_script_offers_the_three_summaries
           [Samples.sp_csv] [Samples.sd_xlsx] [Samples.sb_csv]
           Samples.asin_map Samples.campaign_map Samples.new_year
           (mkState [] [])).
  reflexivity.
Defined.

(* ================================================================== *)
(** ** The selected date in the summaries *)
(* ================================================================== *)

Section Stamp.

Lemma row_set_length cols c v : forall r, length (row_set cols r c v) = length r.
Proof.
  induction cols as [| k cols IH]; intros [| x r]; simpl; try reflexivity.
  now rewrite IH.
Qed.

Lemma row_get_row_set cols c v : forall r,
  In c cols -> length r = length cols ->
  row_get cols (row_set cols r c v) c = v.
Proof.
  induction cols as [| k cols IH]; intros [| x r] Hin Hlen; simpl in *;
    try contradiction; try discriminate.
  destruct (String.eqb_spec k c) as [-> | Hne]; [reflexivity |].
  apply IH; [| congruence]. destruct Hin; [contradiction | assumption].
Qed.

Lemma set_column_wf d c v : wf_frame d -> wf_frame (set_column d c v).
Proof.
  unfold wf_frame, set_column. intros H.
  destruct (inb c (columns d)); cbn [columns rows];
    apply List.Forall_forall; intros r Hr;
    apply in_map_iff in Hr as (r0 & <- & Hr0);
    rewrite List.Forall_forall in H; specialize (H r0 Hr0).
  - now rewrite row_set_length.
  - rewrite !length_app. simpl. lia.
Qed.

Lemma set_column_In d c v : In c (columns (set_column d c v)).
Proof.
  unfold set_column. destruct (inb c (columns d)) eqn:E; cbn [columns].
  - now apply inb_In.
  - apply in_or_app. right. now left.
Qed.

Lemma set_column_get d c v :
  wf_frame d ->
  forall r, In r (rows (set_column d c v)) ->
    row_get (columns (set_column d c v)) r c = v.
Proof.
  unfold wf_frame, set_column. intros H r Hr.
  rewrite List.Forall_forall in H.
  destruct (inb c (columns d)) eqn:E; cbn [columns rows] in *;
    apply in_map_iff in Hr as (r0 & <- & Hr0); specialize (H r0 Hr0).
  - apply row_get_row_set; [now apply inb_In | exact H].
  - rewrite row_get_app_r; [| exact H | now apply inb_false].
    simpl. now rewrite String.eqb_refl.
Qed.

Lemma concat_frames_wf frames d :
  List.Forall wf_frame frames -> concat_frames frames = Ok d -> wf_frame d.
Proof.
  intros Hwf. unfold concat_frames. destruct frames as [| d0 rest] eqn:E;
    [discriminate |]. rewrite <- E in *.
  rewrite List.Forall_forall in Hwf.
  destruct (forallb _ frames) eqn:Hall.
  - intros [= <-]. unfold wf_frame. cbn [columns rows].
    apply List.Forall_forall. intros r Hr.
    apply in_concat in Hr as (rs & Hrs & Hr).
    apply in_map_iff in Hrs as (f & <- & Hf).
    rewrite forallb_forall in Hall.
    rewrite <- (proj1 (labels_eqb_eq _ _) (Hall f Hf)).
    specialize (Hwf f Hf). unfold wf_frame in Hwf.
    rewrite List.Forall_forall in Hwf. now apply Hwf.
  - destruct (existsb _ frames); [discriminate |].
    intros [= <-]. unfold wf_frame. cbn [columns rows].
    apply List.Forall_forall. intros r Hr.
    apply in_concat in Hr as (rs & Hrs & Hr).
    apply in_map_iff in Hrs as (f & <- & Hf).
    unfold reindex in Hr. apply in_map_iff in Hr as (r0 & <- & _).
    unfold reindex_row. apply length_map.
Qed.

Lemma loaded_wf f : wf_frame (table f) -> wf_frame (fst (loaded f)).
Proof.
  intros H. unfold loaded. destruct (supported f); [exact H | constructor].
Qed.

Lemma rename_columns_wf d v : wf_frame v -> wf_frame (rename_columns d v).
Proof.
  unfold wf_frame, rename_columns. cbn [columns rows]. now rewrite length_map.
Qed.

Lemma loaded_asin_wf f : wf_frame (table f) -> wf_frame (fst (loaded_asin f)).
Proof.
  intros H. unfold loaded_asin, normalize.
  destruct (supported f); [| constructor].
  destruct (all_in_columns rename_dict_14_day (table f));
    [now apply rename_columns_wf |].
  destruct (all_in_columns rename_dict_7_day (table f));
    [now apply rename_columns_wf | exact H].
Qed.

Lemma append_x_not_selected_date c : String.append c "_x" <> "Selected Date".
Proof.
  intros H.
  do 13 (destruct c as [| ? c]; simpl in H; [discriminate |];
         injection H as ? H).
  destruct c; discriminate.
Qed.

Lemma append_y_not_selected_date c : String.append c "_y" <> "Selected Date".
Proof.
  intros H.
  do 13 (destruct c as [| ? c]; simpl in H; [discriminate |];
         injection H as ? H).
  destruct c; discriminate.
Qed.

(** A label that no suffix can produce and that the other table lacks
    is looked up after the suffixing as before. *)
Lemma row_get_suffixed other suffix t cols :
  (forall c, String.append c suffix <> t) ->
  inb t other = false ->
  forall m,
    row_get (map (suffix_label other suffix) cols) m t = row_get cols m t.
Proof.
  intros Hsuf Hother.
  induction cols as [| k cols IH]; intros [| v m]; simpl; try reflexivity.
  rewrite IH. unfold suffix_label.
  destruct (inb k other) eqn:Ek; [| reflexivity].
  destruct (String.eqb_spec (String.append k suffix) t) as [E | _];
    [now apply Hsuf in E |].
  destruct (String.eqb_spec k t) as [-> | _]; [congruence | reflexivity].
Qed.

Lemma suffixed_In other suffix t cols :
  (forall c, String.append c suffix <> t) ->
  In t (map (suffix_label other suffix) cols) ->
  In t cols /\ inb t other = false.
Proof.
  intros Hsuf Hin. apply in_map_iff in Hin as (k & Hk & Hin).
  unfold suffix_label in Hk. destruct (inb k other) eqn:E.
  - now apply Hsuf in Hk.
  - subst. now split.
Qed.

Lemma row_get_app_l cols cols' c : forall r r',
  In c cols -> length r = length cols ->
  row_get (cols ++ cols') (r ++ r') c = row_get cols r c.
Proof.
  induction cols as [| k cols IH]; intros [| v r] r' Hin Hlen; simpl in *;
    try contradiction; try discriminate.
  destruct (String.eqb_spec k c) as [-> | Hne]; [reflexivity |].
  apply IH; [| congruence]. destruct Hin; [contradiction | assumption].
Qed.

Lemma join_rows_In cols right lk rk ls m :
  In m (join_rows cols right lk rk ls) ->
  exists l x, In l ls /\ m = l ++ x.
Proof.
  unfold join_rows. intros H. apply in_flat_map in H as (l & Hl & Hm).
  unfold join_row in Hm. destruct (matches _ _ _) as [| y ys].
  - destruct Hm as [<- | []]. eauto.
  - apply in_map_iff in Hm as (x & <- & _). eauto.
Qed.

Lemma count_label_In c l : count_label c l <> 0%nat -> In c l.
Proof.
  intros H. apply inb_In. destruct (inb c l) eqn:E; [reflexivity |].
  elim H. now apply count_label_absent.
Qed.

(** The date cell of every row of the joined table, when the joined
    table has a [Selected Date] label at all. *)
Lemma joined_rows_carry_the_date frames mapping lk rk ds j :
  List.Forall wf_frame frames ->
  joined frames mapping lk rk ds = Ok j ->
  In "Selected Date" (columns j) ->
  forall r, In r (rows j) -> row_get (columns j) r "Selected Date" = Str ds.
Proof.
  intros Hwf Hj Hin r Hr.
  apply joined_inv in Hj as (d0 & Hd0 & Hm).
  pose proof (concat_frames_wf _ _ Hwf Hd0) as Hwf0.
  set (left := set_column d0 "Selected Date" (Str ds)) in *.
  apply merge_left_inv in Hm as (ll & rl & Hlab & ->).
  cbn [columns rows] in *.
  apply merge_labels_inv in Hlab as [-> ->].
  apply join_rows_In in Hr as (l & x & Hl & ->).
  assert (Hleft : In "Selected Date" (columns left))
    by apply set_column_In.
  assert (Hlen : length l = length (columns left)).
  { pose proof (set_column_wf d0 "Selected Date" (Str ds) Hwf0) as H.
    unfold wf_frame in H. rewrite List.Forall_forall in H. now apply H. }
  apply in_app_or in Hin as [Hin | Hin].
  - destruct (suffixed_In _ _ _ _ append_x_not_selected_date Hin)
      as [_ Hright].
    rewrite row_get_app_l; [| exact Hin | now rewrite length_map].
    rewrite (row_get_suffixed _ _ _ _ append_x_not_selected_date Hright).
    now apply set_column_get.
  - destruct (suffixed_In _ _ _ _ append_y_not_selected_date Hin)
      as [_ Hno].
    apply inb_In in Hleft. congruence.
Qed.

Lemma summary_rows_carry_the_date frames mapping lk rk ds j agg out msgs :
  List.Forall wf_frame frames ->
  joined frames mapping lk rk ds = Ok j ->
  summary j agg = Ok (out, msgs) ->
  forall k, In k (summary_keys out) -> hd NA k = Str ds.
Proof.
  intros Hwf Hj Hs k Hk. unfold summary in Hs.
  destruct (all_in_columns agg j); [| injection Hs as <- <-; destruct Hk].
  destruct (groupby_agg j group_labels agg) as [g |] eqn:Hg;
    [| discriminate].
  cbn [obind] in Hs. injection Hs as <- <-.
  assert (Hin : In "Selected Date" (columns j)).
  { apply count_label_In. unfold groupby_agg, group_labels in Hg.
    cbn [omap] in Hg. unfold key_label at 1 in Hg.
    destruct (count_label "Selected Date" (columns j)); [discriminate | lia]. }
  unfold summary_keys in Hk. apply in_map_iff in Hk as (row & <- & Hrow).
  destruct (groupby_agg_rows _ _ _ _ Hg row Hrow) as (k & sums & -> & Hk).
  apply in_map_iff in Hk as (r & <- & Hr).
  rewrite take_key by apply key_length.
  unfold kept_rows in Hr. apply filter_In in Hr as [Hr _].
  unfold group_labels, row_key. cbn [map hd].
  now apply (joined_rows_carry_the_date frames mapping lk rk ds j).
Qed.

End Stamp.

(** X14.  The date in the summaries.  Whenever [process_files] returns
    (the files' tables having one cell per label in every row), every
    row of each of the three summaries starts with the selected date,
    written [YYYY-MM-DD]: whatever [Selected Date] column a report
    brought along has been overwritten. *)
Theorem every_summary_row_carries_the_selected_date
    (sp sd sb : list uploaded_file) (a c : ref) (d : date) (s : state)
    (am cm : DataFrame) (r_sp r_sd r_sb : ref) (s' : state) :
  heap s !! a = Some am ->
  heap s !! c = Some cm ->
  (forall f, In f (sp ++ sd ++ sb) -> wf_frame (table f)) ->
  process_files sp sd sb a c d s = (Ok (r_sp, r_sd, r_sb), s') ->
  forall r, In r [r_sp; r_sd; r_sb] ->
    exists out,
      heap s' !! r = Some out /\
      forall k, In k (summary_keys out) -> hd NA k = Str (strftime_Ymd d).
Proof.
  intros Ha Hc Hwf Hrun r Hr.
  destruct (process_files_inv _ _ _ _ _ _ _ _ _ _ _ _ _ Ha Hc Hrun)
    as (jsp & jsd & jsb & o_sp & o_sd & o_sb & m_sp & m_sd & m_sb &
        J1 & J2 & J3 & S1 & S2 & S3 & L1 & L2 & L3 & _).
  assert (Wsp : List.Forall wf_frame (asin_frames sp)).
  { apply List.Forall_forall. intros x Hx.
    apply in_map_iff in Hx as (f & <- & Hf). apply loaded_asin_wf, Hwf.
    apply in_or_app. now left. }
  assert (Wsd : List.Forall wf_frame (asin_frames sd)).
  { apply List.Forall_forall. intros x Hx.
    apply in_map_iff in Hx as (f & <- & Hf). apply loaded_asin_wf, Hwf.
    apply in_or_app. right. apply in_or_app. now left. }
  assert (Wsb : List.Forall wf_frame (plain_frames sb)).
  { apply List.Forall_forall. intros x Hx.
    apply in_map_iff in Hx as (f & <- & Hf). apply loaded_wf, Hwf.
    apply in_or_app. right. apply in_or_app. now right. }
  destruct Hr as [<- | [<- | [<- | []]]].
  - exists o_sp. split; [exact L1 |].
    exact (summary_rows_carry_the_date _ _ _ _ _ _ _ _ _ Wsp J1 S1).
  - exists o_sd. split; [exact L2 |].
    exact (summary_rows_carry_the_date _ _ _ _ _ _ _ _ _ Wsd J2 S2).
  - exists o_sb. split; [exact L3 |].
    exact (summary_rows_carry_the_date _ _ _ _ _ _ _ _ _ Wsb J3 S3).
Qed.

(* ================================================================== *)
(** ** Unsupported files in a group *)
(* ================================================================== *)

Section Union.

Lemma uniq_from_all_seen l : forall seen,
  (forall x, In x l -> In x seen) -> uniq_from seen l = [].
Proof.
  induction l as [| x l IH]; intros seen H; simpl; [reflexivity |].
  rewrite (proj2 (inb_In x seen)) by (apply H; now left).
  apply IH. intros y Hy. apply H. now right.
Qed.

Lemma uniq_from_prefix l : forall seen rest,
  List.NoDup l -> (forall x, In x l -> ~ In x seen) ->
  uniq_from seen (l ++ rest) = l ++ uniq_from (rev l ++ seen) rest.
Proof.
  induction l as [| x l IH]; intros seen rest Hnd Hseen; simpl;
    [reflexivity |].
  inversion Hnd as [| ? ? Hx Hnd']; subst.
  rewrite (proj2 (inb_false x seen)) by (apply Hseen; now left).
  f_equal. rewrite IH; [now rewrite <- app_assoc | assumption |].
  intros y Hy [<- | Hin]; [contradiction |].
  apply (Hseen y); [now right | assumption].
Qed.

Lemma union_labels_same d0 rest :
  List.NoDup (columns d0) ->
  (forall d, In d rest -> columns d = columns d0) ->
  union_labels (d0 :: rest) = columns d0.
Proof.
  intros Hnd Hsame. unfold union_labels. cbn [map concat].
  rewrite uniq_from_prefix; [| exact Hnd | intros x _ []].
  rewrite uniq_from_all_seen; [apply app_nil_r |].
  intros x Hx. apply in_concat in Hx as (l & Hl & Hx).
  apply in_map_iff in Hl as (d & <- & Hd). rewrite (Hsame d Hd) in Hx.
  apply in_or_app. left. now apply in_rev in Hx.
Qed.

(** [pd.concat] on clean tables, in one form for both of its cases. *)
Lemma concat_frames_normal frames :
  frames <> [] -> clean frames ->
  concat_frames frames =
    Ok (mkDataFrame (union_labels frames)
          (concat (map (reindex (union_labels frames)) frames))).
Proof.
  intros Hne [Hnd Hwf]. unfold concat_frames.
  destruct frames as [| d0 rest] eqn:E; [congruence |].
  rewrite <- E in *. clear Hne.
  rewrite List.Forall_forall in Hnd, Hwf.
  destruct (forallb _ frames) eqn:Hall.
  - rewrite forallb_forall in Hall.
    assert (Hcols : forall d, In d frames -> columns d = columns d0).
    { intros d Hd. now apply labels_eqb_eq, Hall. }
    assert (Hu : union_labels frames = columns d0).
    { rewrite E. apply union_labels_same.
      - apply has_dup_NoDup. apply Hnd. rewrite E. now left.
      - intros d Hd. apply Hcols. rewrite E. now right. }
    rewrite Hu. f_equal. f_equal. f_equal. apply map_ext_in. intros d Hd.
    rewrite <- (Hcols d Hd). symmetry. apply reindex_same.
    + apply has_dup_NoDup. now apply Hnd.
    + now apply Hwf.
  - destruct (existsb _ frames) eqn:Hex; [| reflexivity].
    apply existsb_exists in Hex as (d & Hd & Hdup).
    specialize (Hnd d Hd). unfold distinct_labels in Hnd. congruence.
Qed.

Variable F : uploaded_file -> DataFrame.
Hypothesis F_unsupported : forall f, supported f = false -> F f = empty_frame.

Lemma labels_of_supported fs :
  concat (map columns (map F fs)) =
  concat (map columns (map F (supported_only fs))).
Proof.
  unfold supported_only. induction fs as [| f fs IH]; simpl; [reflexivity |].
  destruct (supported f) eqn:E; simpl; [now rewrite IH |].
  now rewrite (F_unsupported f E).
Qed.

Lemma rows_of_supported cols fs :
  concat (map (reindex cols) (map F fs)) =
  concat (map (reindex cols) (map F (supported_only fs))).
Proof.
  unfold supported_only. induction fs as [| f fs IH]; simpl; [reflexivity |].
  destruct (supported f) eqn:E; simpl; [now rewrite IH |].
  now rewrite (F_unsupported f E).
Qed.

Lemma clean_of_supported fs :
  clean (map F (supported_only fs)) -> clean (map F fs).
Proof.
  unfold clean, supported_only. induction fs as [| f fs IH]; simpl;
    [tauto |].
  destruct (supported f) eqn:E; simpl.
  - intros [H1 H2]. inversion H1; inversion H2; subst.
    destruct IH as [I1 I2]; [now split |]. split; now constructor.
  - intros H. destruct (IH H) as [I1 I2]. rewrite (F_unsupported f E).
    split; constructor; try assumption; [reflexivity | constructor].
Qed.

Lemma concat_of_supported fs :
  supported_only fs <> [] ->
  clean (map F (supported_only fs)) ->
  concat_frames (map F fs) = concat_frames (map F (supported_only fs)).
Proof.
  intros Hne Hclean.
  rewrite (concat_frames_normal (map F (supported_only fs)));
    [| now destruct (supported_only fs) | exact Hclean].
  rewrite (concat_frames_normal (map F fs)).
  - unfold union_labels. rewrite <- labels_of_supported.
    now rewrite <- rows_of_supported.
  - intros H. apply map_eq_nil in H. subst fs. now apply Hne.
  - now apply clean_of_supported.
Qed.

End Union.

Lemma joined_of_supported (F : uploaded_file -> DataFrame) fs m lk rk ds j :
  (forall f, supported f = false -> F f = empty_frame) ->
  clean (map F (supported_only fs)) ->
  joined (map F (supported_only fs)) m lk rk ds = Ok j ->
  joined (map F fs) m lk rk ds = Ok j.
Proof.
  intros HF Hclean Hj. unfold joined in *.
  rewrite (concat_of_supported F HF fs); [exact Hj | | exact Hclean].
  intros E. rewrite E in Hj. discriminate.
Qed.

Lemma loaded_unsupported f : supported f = false -> fst (loaded f) = empty_frame.
Proof. intros H. unfold loaded. now rewrite H. Qed.

Lemma loaded_asin_unsupported f :
  supported f = false -> fst (loaded_asin f) = empty_frame.
Proof. intros H. unfold loaded_asin. now rewrite H. Qed.

(** X15.  Files the loaders do not accept change no summary.  Take a run
    of [process_files] on the accepted files alone (names ending in
    [.xlsx] or [.csv]) that returns, their tables being clean after the
    renaming step.  Then the run on all the files returns too, and its
    three summaries are the same tables: a file of another format is
    reported and contributes nothing, as long as its group has an
    accepted file. *)
Theorem unsupported_files_change_no_summary
    (sp sd sb : list uploaded_file) (a c : ref) (d : date) (s : state)
    (am cm : DataFrame) (r_sp r_sd r_sb : ref) (s1 : state) :
  heap s !! a = Some am ->
  heap s !! c = Some cm ->
  clean (asin_frames (supported_only sp)) ->
  clean (asin_frames (supported_only sd)) ->
  clean (plain_frames (supported_only sb)) ->
  process_files (supported_only sp) (supported_only sd) (supported_only sb)
    a c d s = (Ok (r_sp, r_sd, r_sb), s1) ->
  exists r_sp' r_sd' r_sb' s1',
    process_files sp sd sb a c d s = (Ok (r_sp', r_sd', r_sb'), s1') /\
    heap s1' !! r_sp' = heap s1 !! r_sp /\
    heap s1' !! r_sd' = heap s1 !! r_sd /\
    heap s1' !! r_sb' = heap s1 !! r_sb.
Proof.
  intros Ha Hc Csp Csd Csb Hrun.
  destruct (process_files_inv _ _ _ _ _ _ _ _ _ _ _ _ _ Ha Hc Hrun)
    as (jsp & jsd & jsb & o_sp & o_sd & o_sb & m_sp & m_sd & m_sb &
        J1 & J2 & J3 & S1 & S2 & S3 & L1 & L2 & L3 & _).
  apply (joined_of_supported _ sp _ _ _ _ _ loaded_asin_unsupported Csp) in J1.
  apply (joined_of_supported _ sd _ _ _ _ _ loaded_asin_unsupported Csd) in J2.
  apply (joined_of_supported _ sb _ _ _ _ _ loaded_unsupported Csb) in J3.
  destruct (process_files_run sp sd sb a c d s am cm jsp jsd jsb
              o_sp m_sp o_sb m_sb o_sd m_sd Ha Hc J1 J2 J3 S1 S3 S2)
    as (r1 & r2 & r3 & s1' & Hrun' & H1 & H2 & H3 & _).
  exists r1, r2, r3, s1'. split; [exact Hrun' |].
  now rewrite H1, H2, H3, L1, L2, L3.
Qed.

Lemma every_summary_row_witness :
  exists out,
    heap (snd (process_files [Samples.sp_csv] [Samples.sd_xlsx]
                 [Samples.sb_csv] 0%nat 1%nat Samples.new_year
                 Samples.start)) !! 11%nat = Some out /\
    forall k, In k (summary_keys out) -> hd NA k = Str "2024-01-01".
Proof.
  apply (every_summary_row_carries_the_selected_date
           [Samples.sp_csv] [Samples.sd_xlsx] [Samples.sb_csv]
           0%nat 1%nat Samples.new_year Samples.start
           Samples.asin_map Samples.campaign_map 11%nat 13%nat 12%nat);
    [reflexivity | reflexivity | | reflexivity | now left].
  intros f [<- | [<- | [<- | []]]]; repeat constructor.
Defined.

Lemma unsupported_files_witness :
  exists r_sp' r_sd' r_sb' s1',
    process_files [Samples.sp_csv; Samples.notes_txt] [Samples.sd_xlsx]
      [Samples.sb_csv] 0%nat 1%nat Samples.new_year Samples.start
      = (Ok (r_sp', r_sd', r_sb'), s1') /\
    heap s1' !! r_sp' =
      heap (snd (process_files [Samples.sp_csv] [Samples.sd_xlsx]
                   [Samples.sb_csv] 0%nat 1%nat Samples.new_year
                   Samples.start)) !! 11%nat /\
    heap s1' !! r_sd' =
      heap (snd (process_files [Samples.sp_csv] [Samples.sd_xlsx]
                   [Samples.sb_csv] 0%nat 1%nat Samples.new_year
                   Samples.start)) !! 13%nat /\
    heap s1' !! r_sb' =
      heap (snd (process_files [Samples.sp_csv] [Samples.sd_xlsx]
                   [Samples.sb_csv] 0%nat 1%nat Samples.new_year
                   Samples.start)) !! 12%nat.
Proof.
  apply (unsupported_files_change_no_summary
           [Samples.sp_csv; Samples.notes_txt] [Samples.sd_xlsx]
           [Samples.sb_csv] 0%nat 1%nat Samples.new_year Samples.start
           Samples.asin_map Samples.campaign_map 11%nat 13%nat 12%nat);
    [reflexivity | reflexivity | | | | reflexivity];
    split; repeat constructor.
Defined.

(* ================================================================== *)
(** ** The date stamp *)
(* ================================================================== *)

Section Dates.

Lemma digit_inj m n :
  (m < 10)%nat -> (n < 10)%nat -> digit m = digit n -> m = n.
Proof.
  unfold digit. intros Hm Hn H.
  rewrite !Nat.mod_small in H by assumption.
  apply (f_equal nat_of_ascii) in H.
  rewrite !nat_ascii_embedding in H by lia. lia.
Qed.

Lemma digit_mod n : digit n = digit (n mod 10).
Proof. unfold digit. now rewrite Nat.Div0.mod_mod. Qed.

Lemma digits_eq m n : digit m = digit n -> m mod 10 = n mod 10.
Proof.
  intros H. rewrite (digit_mod m), (digit_mod n) in H.
  apply digit_inj in H; [exact H | |]; apply Nat.mod_upper_bound; lia.
Qed.

Lemma string_cons_inj a b s t : String a s = String b t -> a = b /\ s = t.
Proof. intros H. injection H as -> ->. now split. Qed.

Lemma two_digits_inj m n :
  (m < 100)%nat -> (n < 100)%nat -> two_digits m = two_digits n -> m = n.
Proof.
  unfold two_digits. intros Hm Hn H.
  destruct (string_cons_inj _ _ _ _ H) as [H1 H']. clear H.
  destruct (string_cons_inj _ _ _ _ H') as [H2 _]. clear H'.
  apply digits_eq in H1, H2.
  rewrite (Nat.div_mod_eq m 10), (Nat.div_mod_eq n 10).
  rewrite !Nat.mod_small in H1 by (apply Nat.Div0.div_lt_upper_bound; lia).
  lia.
Qed.

Lemma strftime_length d : String.length (strftime_Ymd d) = 10%nat.
Proof. reflexivity. Qed.

End Dates.

Lemma number_of_digits y :
  (y / 1000 < 10)%nat ->
  y = (1000 * ((y / 1000) mod 10) + 100 * ((y / 100) mod 10)
       + 10 * ((y / 10) mod 10) + y mod 10)%nat.
Proof.
  intros H.
  assert (E2 : (y / 100 = y / 10 / 10)%nat)
    by (rewrite Nat.Div0.div_div; reflexivity).
  assert (E3 : (y / 1000 = y / 10 / 10 / 10)%nat)
    by (rewrite !Nat.Div0.div_div; reflexivity).
  rewrite E3 in H. rewrite E2, E3.
  pose proof (Nat.div_mod_eq y 10).
  pose proof (Nat.div_mod_eq (y / 10) 10).
  pose proof (Nat.div_mod_eq (y / 10 / 10) 10).
  rewrite (Nat.mod_small (y / 10 / 10 / 10) 10) by exact H.
  lia.
Qed.

Lemma year_digits_inj y1 y2 :
  (y1 / 1000 < 10)%nat -> (y2 / 1000 < 10)%nat ->
  digit (y1 / 1000) = digit (y2 / 1000) ->
  digit (y1 / 100) = digit (y2 / 100) ->
  digit (y1 / 10) = digit (y2 / 10) ->
  digit y1 = digit y2 ->
  y1 = y2.
Proof.
  intros H1 H2 Ha Hb Hc Hd.
  apply digits_eq in Ha, Hb, Hc, Hd.
  rewrite (number_of_digits y1 H1), (number_of_digits y2 H2).
  now rewrite Ha, Hb, Hc, Hd.
Qed.

(** X16.  The stamp tells the date.  For dates the date picker offers
    (2000-01-01 to 2100-12-31) the text [strftime('%Y-%m-%d')] gives has
    ten characters, and two different dates never get the same text. *)
Theorem stamps_of_different_dates_differ (d1 d2 : date) :
  in_picker_range d1 ->
  in_picker_range d2 ->
  String.length (strftime_Ymd d1) = 10%nat /\
  (strftime_Ymd d1 = strftime_Ymd d2 -> d1 = d2).
Proof.
  intros (Hy1 & Hm1 & Hd1) (Hy2 & Hm2 & Hd2).
  split; [reflexivity |].
  destruct d1 as [y1 m1 dd1], d2 as [y2 m2 dd2]. cbn [year month day] in *.
  unfold strftime_Ymd, two_digits. cbn [year month day String.append].
  intros H.
  repeat match type of H with
         | String _ _ = String _ _ =>
             let E := fresh "E" in
             destruct (string_cons_inj _ _ _ _ H) as [E H']; clear H;
             rename H' into H
         end.
  f_equal.
  - apply year_digits_inj; try assumption;
      apply Nat.Div0.div_lt_upper_bound; lia.
  - apply two_digits_inj; [lia | lia |]. unfold two_digits. congruence.
  - apply two_digits_inj; [lia | lia |]. unfold two_digits. congruence.
Qed.

Lemma stamps_witness :
  (in_picker_range Samples.new_year /\
   in_picker_range (mkDate 2024 1 2)) /\
  String.length (strftime_Ymd Samples.new_year) = 10%nat /\
  (strftime_Ymd Samples.new_year = strftime_Ymd (mkDate 2024 1 2) ->
   Samples.new_year = mkDate 2024 1 2).
Proof.
  assert (H1 : in_picker_range Samples.new_year)
    by (unfold in_picker_range; simpl; lia).
  assert (H2 : in_picker_range (mkDate 2024 1 2))
    by (unfold in_picker_range; simpl; lia).
  split; [now split |].
  exact (stamps_of_different_dates_differ Samples.new_year
           (mkDate 2024 1 2) H1 H2).
Defined.

(* ================================================================== *)
(** ** The shape of the summaries *)
(* ================================================================== *)

Section Shape.

Lemma omap_length {A B} (f : A -> outcome B) l ys :
  omap f l = Ok ys -> length ys = length l.
Proof.
  intros H. apply omap_inv in H.
  induction H; simpl; [reflexivity | now f_equal].
Qed.

Lemma groupby_agg_shape df by_ agg out :
  groupby_agg df by_ agg = Ok out ->
  columns out = by_ ++ map fst agg /\
  map (take (length by_)) (rows out) =
    group_keys (map (row_key (columns df) by_) (kept_rows df by_)) /\
  List.Forall (fun row => length row = (length by_ + length agg)%nat)
    (rows out).
Proof.
  unfold groupby_agg. cbv zeta.
  destruct (omap _ by_) as [us |]; simpl; [| discriminate].
  destruct agg as [| a0 agg'] eqn:Eagg; [discriminate |].
  rewrite <- Eagg in *.
  destruct (omap _ agg) as [vs |]; simpl; [| discriminate].
  fold (kept_rows df by_).
  destruct (omap _ (group_keys _)) as [rs |] eqn:E; simpl; [| discriminate].
  intros [= <-]. cbn [columns rows]. split; [reflexivity |].
  apply omap_inv in E.
  assert (Hlen : forall k,
            In k (group_keys (map (row_key (columns df) by_)
                                (kept_rows df by_))) ->
            length k = length by_).
  { intros k Hk. apply (proj1 (group_keys_In _ _)) in Hk.
    apply in_map_iff in Hk as (row & <- & _). apply key_length. }
  revert E Hlen. generalize (group_keys (map (row_key (columns df) by_)
                                         (kept_rows df by_))).
  intros ks F. induction F as [| k y ks ys Hky F IH]; intros Hlen;
    [split; [reflexivity | constructor] |].
  unfold group_row in Hky.
  destruct (omap _ agg) as [sums |] eqn:Es; [| discriminate].
  simpl in Hky. injection Hky as <-.
  destruct IH as [IH1 IH2]; [intros k' Hk'; apply Hlen; now right |].
  assert (Hk : length k = length by_) by (apply Hlen; now left).
  split.
  - simpl. now rewrite take_key, IH1.
  - constructor; [| exact IH2].
    rewrite length_app, Hk. f_equal. exact (omap_length _ _ _ Es).
Qed.

(** What a summary looks like: the empty table with the error, or a
    table with the grouping labels and the metric labels, rows of that
    many cells, keys complete and strictly ascending. *)
Lemma summary_shape j agg out msgs :
  summary j agg = Ok (out, msgs) ->
  (out = mkDataFrame [] [] /\
   msgs = [st_error "One or more columns are missing for aggregation"]) \/
  (columns out = group_labels ++ map fst agg /\
   msgs = [] /\
   wf_frame out /\
   StronglySorted key_lt (summary_keys out) /\
   forall k, In k (summary_keys out) -> has_na k = false).
Proof.
  intros Hs. pose proof (summary_no_null_key _ _ _ _ Hs) as Hna.
  unfold summary in Hs. destruct (all_in_columns agg j).
  - right. destruct (groupby_agg j group_labels agg) as [g |] eqn:Hg;
      [| discriminate].
    cbn [obind] in Hs. injection Hs as <- <-.
    destruct (groupby_agg_shape _ _ _ _ Hg) as (Hc & Hk & Hl).
    split; [exact Hc |]. split; [reflexivity |]. split.
    + unfold wf_frame. rewrite Hc, length_app, length_map. exact Hl.
    + split; [| exact Hna]. unfold summary_keys. rewrite Hk.
      apply group_keys_sorted.
  - left. injection Hs as <- <-. now split.
Qed.

End Shape.

(** X17.  The shape of what [process_files] returns.  Take a run that
    returns, and the three joined tables it hands to [aggregate_data];
    let none of them carry a metric label of its report type on two
    columns.  Then each of the three tables returned is either the table
    without columns and rows (the aggregation error is then in the log),
    or a table whose labels are [Selected Date], [Sub-Category] and the
    four metrics of its report type in the order of the dict, whose rows
    have one cell per label, and whose keys have no missing cell and come
    in strictly ascending order (so none repeats). *)
Theorem process_files_returns_well_shaped_summaries
    (sp sd sb : list uploaded_file) (a c : ref) (d : date) (s : state)
    (am cm : DataFrame) (r_sp r_sd r_sb : ref) (s' : state)
    (jsp jsd jsb : DataFrame) :
  heap s !! a = Some am ->
  heap s !! c = Some cm ->
  process_files sp sd sb a c d s = (Ok (r_sp, r_sd, r_sb), s') ->
  joined (asin_frames sp) am "Advertised ASIN" "ASIN" (strftime_Ymd d)
    = Ok jsp ->
  joined (asin_frames sd) am "Advertised ASIN" "ASIN" (strftime_Ymd d)
    = Ok jsd ->
  joined (plain_frames sb) cm "Campaigns" "SB Campaign Name"
    (strftime_Ymd d) = Ok jsb ->
  at_most_once sp_metrics jsp ->
  at_most_once sp_metrics jsd ->
  at_most_once sb_metrics jsb ->
  forall r metrics,
    (r, metrics) = (r_sp, sp_metrics) \/ (r, metrics) = (r_sd, sp_metrics) \/
    (r, metrics) = (r_sb, sb_metrics) ->
    exists out,
      heap s' !! r = Some out /\
      ((out = mkDataFrame [] [] /\
        In (st_error "One or more columns are missing for aggregation")
          (log s'))
       \/
       (columns out = ["Selected Date"; "Sub-Category"] ++ map fst metrics /\
        wf_frame out /\
        StronglySorted key_lt (summary_keys out) /\
        forall k, In k (summary_keys out) -> has_na k = false)).
Proof.
  intros Ha Hc Hrun _ _ _ _ _ _ r metrics Hr.
  destruct (process_files_inv _ _ _ _ _ _ _ _ _ _ _ _ _ Ha Hc Hrun)
    as (jsp' & jsd' & jsb' & o_sp & o_sd & o_sb & m_sp & m_sd & m_sb &
        J1 & J2 & J3 & S1 & S2 & S3 & L1 & L2 & L3 & Hlog).
  assert (Hcase : forall j agg out msgs,
            summary j agg = Ok (out, msgs) ->
            (forall m, In m msgs -> In m (log s')) ->
            (out = mkDataFrame [] [] /\
             In (st_error "One or more columns are missing for aggregation")
               (log s'))
            \/
            (columns out = ["Selected Date"; "Sub-Category"] ++ map fst agg /\
             wf_frame out /\
             StronglySorted key_lt (summary_keys out) /\
             forall k, In k (summary_keys out) -> has_na k = false)).
  { intros j agg out msgs Hs Hin.
    destruct (summary_shape _ _ _ _ Hs) as [[-> ->] | (H1 & _ & H2 & H3 & H4)].
    - left. split; [reflexivity | apply Hin; now left].
    - right. now repeat split. }
  assert (Hin : forall msgs,
            msgs = m_sp \/ msgs = m_sd \/ msgs = m_sb ->
            forall m, In m msgs -> In m (log s')).
  { intros msgs Hm m Hmem. rewrite Hlog, !in_app_iff.
    destruct Hm as [-> | [-> | ->]]; tauto. }
  destruct Hr as [[= -> ->] | [[= -> ->] | [= -> ->]]].
  - exists o_sp. split; [exact L1 |]. apply (Hcase _ _ _ _ S1). apply Hin. tauto.
  - exists o_sd. split; [exact L2 |]. apply (Hcase _ _ _ _ S2). apply Hin. tauto.
  - exists o_sb. split; [exact L3 |]. apply (Hcase _ _ _ _ S3). apply Hin. tauto.
Qed.

Lemma well_shaped_summaries_witness :
  exists out,
    heap (snd (process_files [Samples.sp_no_spend] [Samples.sd_xlsx]
                 [Samples.sb_csv] 0%nat 1%nat Samples.new_year
                 Samples.start)) !! 13%nat = Some out /\
    ((out = mkDataFrame [] [] /\
      In (st_error "One or more columns are missing for aggregation")
        (log (snd (process_files [Samples.sp_no_spend] [Samples.sd_xlsx]
                     [Samples.sb_csv] 0%nat 1%nat Samples.new_year
                     Samples.start))))
     \/
     (columns out = ["Selected Date"; "Sub-Category"] ++ map fst sp_metrics /\
      wf_frame out /\
      StronglySorted key_lt (summary_keys out) /\
      forall k, In k (summary_keys out) -> has_na k = false)).
Proof.
  apply (process_files_returns_well_shaped_summaries
           [Samples.sp_no_spend] [Samples.sd_xlsx] [Samples.sb_csv]
           0%nat 1%nat Samples.new_year Samples.start
           Samples.asin_map Samples.campaign_map 11%nat 13%nat 12%nat
           (snd (process_files [Samples.sp_no_spend] [Samples.sd_xlsx]
                   [Samples.sb_csv] 0%nat 1%nat Samples.new_year
                   Samples.start))
           (mkDataFrame
              [ "Advertised ASIN"; "Total Sales"; "Total Orders";
                "Total Units"; "Selected Date"; "ASIN"; "Sub-Category" ]
              [ [Str "B001"; Num 100; Num 2; Num 3; Str "2024-01-01";
                 Str "B001"; Str "Toys"] ])
           (mkDataFrame
              [ "Advertised ASIN"; "Total Sales"; "Total Units";
                "Total Orders"; "Spend"; "Selected Date"; "ASIN";
                "Sub-Category" ]
              [ [Str "B002"; Num 70; Num 2; Num 2; Num 7; Str "2024-01-01";
                 Str "B002"; Str "Books"] ])
           (mkDataFrame
              [ "Campaigns"; "Orders"; "Clicks"; "Sales(INR)"; "Spend(INR)";
                "Selected Date"; "SB Campaign Name"; "Sub-Category" ]
              [ [Str "Summer"; Num 4; Num 40; Num 400; Num 20;
                 Str "2024-01-01"; Str "Summer"; Str "Toys"] ]));
    [ reflexivity | reflexivity | reflexivity | reflexivity | reflexivity
    | reflexivity | | | | right; left; reflexivity ];
    intros c Hc; simpl in Hc;
    repeat (destruct Hc as [<- | Hc]; [vm_compute; lia |]);
    destruct Hc.
Defined.
